(** * Chaincode packages: digest computation, validation and installation

    A shallow embedding of [core/common/ccprovider]: the unsigned package
    ([CDSPackage], file cdspackage.go) and the signed package
    ([SignedCDSPackage], file sigcdspackage.go), together with the Go
    values they manipulate (byte slices that may be nil, pointers that
    may be nil, the [hash.Hash] interface, the package store on disk). *)

From Stdlib Require Import Strings.Byte.
From stdpp Require Import gmap strings list.

Set Default Proof Using "Type".
Open Scope string_scope.
Open Scope list_scope.

(** ** Go values *)

Global Instance byte_eq_dec : EqDecision byte := Byte.byte_eq_dec.

Module Go.

(** A [[]byte] value: [None] is the nil slice, [Some l] a non-nil slice
    holding the bytes [l] ([Some []] is the empty, non-nil slice). *)
Definition slice : Type := option (list byte).

Definition content (s : slice) : list byte := default [] s.

(** [bytes.Equal]: compares contents; a nil slice equals an empty one. *)
Definition bytes_Equal (a b : slice) : bool :=
  bool_decide (content a = content b).

(** [append(b, d...)]: the result is nil only when [b] is nil and [d] is
    empty. *)
Definition append (b : slice) (d : list byte) : slice :=
  match b, d with
  | None, [] => None
  | _, _ => Some (content b ++ d)
  end.

(** [[]byte(s)] for a Go string [s]. *)
Definition bytes_of_string (s : string) : slice :=
  Some (String.list_byte_of_string s).

(** What a panic was raised for. *)
Inductive panic : Type :=
| PanicNilCds                     (* panic("nil cds") *)
| PanicNilDeref (what : string).  (* nil pointer dereference *)

(** Errors, named after the failure they report; the message of the
    source is kept where several guards report the same failure. *)
Inductive error : Type :=
| DecodeError          (* proto.Unmarshal failed *)
| MarshalError         (* proto.Marshal failed *)
| ExtractionError      (* ccpackage.ExtractSignedCCDepSpec failed *)
| WrongEnvelopeType    (* "invalid type of envelope for chaincode package" *)
| PolicyMissing        (* "instantiation policy cannot be nil for chaincode" *)
| HashProviderError    (* factory.InitFactories or GetHash failed *)
| Uninitialized (msg : string)
| IdentityMismatch     (* "invalid chaincode data" *)
| DigestMismatch       (* "data mismatch" *)
| NotFound             (* GetChaincodePackage failed *)
| AlreadyExists (path : string)  (* "chaincode %s exists" *)
| StorageError.        (* ioutil.WriteFile failed *)

(** The outcome of a call: a value, a returned error, or a panic. *)
Inductive result (A : Type) : Type :=
| Ok (a : A)
| Err (e : error)
| Panic (p : panic).
Global Arguments Ok {A} a.
Global Arguments Err {A} e.
Global Arguments Panic {A} p.

Definition is_Ok {A} (r : result A) : bool :=
  match r with Ok _ => true | _ => false end.

(** Methods with a pointer receiver: the receiver is threaded as state. *)
Definition M (S A : Type) : Type := S -> S * result A.

Definition ret {S A} (a : A) : M S A := fun s => (s, Ok a).
Definition fail {S A} (e : error) : M S A := fun s => (s, Err e).
Definition raise {S A} (p : panic) : M S A := fun s => (s, Panic p).
Definition bind {S A B} (c : M S A) (k : A -> M S B) : M S B :=
  fun s =>
    match c s with
    | (s', Ok a) => k a s'
    | (s', Err e) => (s', Err e)
    | (s', Panic p) => (s', Panic p)
    end.
Definition get {S} : M S S := fun s => (s, Ok s).
Definition modify {S} (f : S -> S) : M S unit := fun s => (f s, Ok tt).
(** A call that does not touch the receiver. *)
Definition call {S A} (r : result A) : M S A := fun s => (s, r).

(** [x, err := f(); if err != nil { return e }] *)
Definition or_fail {A} (e : error) (o : option A) : result A :=
  match o with Some a => Ok a | None => Err e end.

(** [if !ok { return e }] *)
Definition ensure (ok : bool) (e : error) : result unit :=
  if ok then Ok tt else Err e.
Definition check {S} (ok : bool) (e : error) : M S unit :=
  fun s => (s, ensure ok e).

(** [p != nil] *)
Definition not_nil {A} (p : option A) : bool :=
  match p with Some _ => true | None => false end.

(** Dereference of a pointer: nil panics. *)
Definition deref {A} (what : string) (p : option A) : result A :=
  match p with Some a => Ok a | None => Panic (PanicNilDeref what) end.

Definition rbind {A B} (r : result A) (k : A -> result B) : result B :=
  match r with
  | Ok a => k a
  | Err e => Err e
  | Panic p => Panic p
  end.

End Go.
Import Go.

(** Unfolding the plumbing of a method, to reach its tests and calls. *)
Ltac go_unfold :=
  unfold bind, modify, call, ret, fail, check, get, rbind, or_fail, ensure in *.

(** The bytes of a string literal. *)
Abbreviation bytes s := (String.list_byte_of_string s).

Notation "'let*' x ':=' c 'in' k" := (bind c (fun x => k))
  (at level 10, x name, c at level 100, k at level 200).
Notation "'let?' x ':=' r 'in' k" := (rbind r (fun x => k))
  (at level 10, x name, r at level 100, k at level 200).

(** ** The [hash.Hash] interface

    A hash object accumulates the bytes written to it; [Sum b] appends the
    digest of what was written so far to [b] and leaves the state as it
    is; [Reset] forgets what was written. *)

Module Hash.

Record t : Type := mk {
  digest : list byte -> list byte;
  written : list byte
}.

Definition New (H : list byte -> list byte) : t :=
  {| digest := H; written := [] |}.

Definition Write (h : t) (p : slice) : t :=
  {| digest := digest h; written := written h ++ content p |}.

Definition Sum (h : t) (b : slice) : slice :=
  append b (digest h (written h)).

Definition Reset (h : t) : t :=
  {| digest := digest h; written := [] |}.

End Hash.

(** ** Messages of [protos/peer] and [protos/common]

    The fields the packages read. A field of message type is a pointer
    and may be nil; a [bytes] field is a slice and may be nil. *)

Record ChaincodeID : Type := {
  Path : string;
  Name : string;
  Version : string
}.

Record ChaincodeSpec : Type := {
  ChaincodeId : option ChaincodeID
}.

Record ChaincodeDeploymentSpec : Type := {
  ChaincodeSpec_ : option ChaincodeSpec;
  CodePackage : slice
}.

Record Endorsement : Type := {
  Endorser : slice;
  Signature : slice
}.

Record SignedChaincodeDeploymentSpec : Type := {
  ChaincodeDeploymentSpec_ : slice;
  InstantiationPolicy : slice;
  OwnerEndorsements : list Endorsement
}.

Record Envelope : Type := {
  Payload : slice;
  EnvSignature : slice
}.

Record ChannelHeader : Type := {
  Type_ : Z
}.

(** [ChaincodeData], as stored by the lifecycle system chaincode. *)
Record ChaincodeData : Type := {
  CDName : string;
  CDVersion : string;
  CDData : slice
}.

Global Instance ChaincodeID_eq_dec : EqDecision ChaincodeID.
Proof. solve_decision. Defined.
Global Instance ChaincodeSpec_eq_dec : EqDecision ChaincodeSpec.
Proof. solve_decision. Defined.
Global Instance ChaincodeDeploymentSpec_eq_dec : EqDecision ChaincodeDeploymentSpec.
Proof. solve_decision. Defined.

(** A [proto.Message] as the packages hand one out: an interface value
    that holds a pointer to a deployment spec or to an envelope; the
    pointer it holds may be nil. *)
Inductive Message : Type :=
| MessageCDS (m : option ChaincodeDeploymentSpec)
| MessageEnvelope (m : option Envelope).

(** [cds.ChaincodeSpec.ChaincodeId]: two dereferences. *)
Definition chaincode_id (cds : ChaincodeDeploymentSpec) : result ChaincodeID :=
  let? spec := deref "ChaincodeSpec" (ChaincodeSpec_ cds) in
  deref "ChaincodeSpec.ChaincodeId" (ChaincodeId spec).

(** ** Digest records *)

(** [CDSData] (cdspackage.go) *)
Record CDSData : Type := {
  CodeHash : slice;
  MetaDataHash : slice
}.

(** [SignedCDSData] (sigcdspackage.go) *)
Record SignedCDSData : Type := {
  SCodeHash : slice;
  SMetaDataHash : slice;
  SignatureHash : slice
}.

(** ** Collaborators outside this package

    [proto.Marshal] and [proto.Unmarshal] at the message types used, the
    BCCSP factory, the envelope extraction of [core/common/ccpackage] and
    the configured install path. *)

Class Externals : Type := {
  Unmarshal_CDS : list byte -> option ChaincodeDeploymentSpec;
  Marshal_CDS : ChaincodeDeploymentSpec -> option (list byte);
  Unmarshal_Envelope : list byte -> option Envelope;
  Marshal_CDSData : CDSData -> option (list byte);
  Unmarshal_CDSData : list byte -> option CDSData;
  Marshal_SignedCDSData : SignedCDSData -> option (list byte);
  Unmarshal_SignedCDSData : list byte -> option SignedCDSData;
  (** [factory.InitFactories(nil)]: [true] when it returns no error. *)
  InitFactories : bool;
  (** [factory.GetDefault().GetHash(&bccsp.SHAOpts{})]: the digest
      function of the hash object returned, or [None] on error. *)
  GetHash : option (list byte -> list byte);
  (** Modelled from the spec: [ccpackage.ExtractSignedCCDepSpec], which
      returns the channel header and the signed deployment spec of an
      envelope, or fails when the envelope is not a well-formed
      signed-package envelope. *)
  ExtractSignedCCDepSpec :
    Envelope -> option (ChannelHeader * SignedChaincodeDeploymentSpec);
  (** the constant [common.HeaderType_CHAINCODE_PACKAGE] *)
  HeaderType_CHAINCODE_PACKAGE : Z;
  (** the package variable [chaincodeInstallPath] *)
  chaincodeInstallPath : string
}.

(** What the packages rely on: the empty buffer is the encoding of the
    message with no field set, and an encoded digest record decodes to a
    record with the same hashes. *)
Class ExternalsLaws (ext : Externals) : Prop := {
  Unmarshal_CDS_empty :
    Unmarshal_CDS [] = Some {| ChaincodeSpec_ := None; CodePackage := None |};
  CDSData_codec : forall d b,
    Marshal_CDSData d = Some b ->
    exists d', Unmarshal_CDSData b = Some d'
      /\ content (CodeHash d') = content (CodeHash d)
      /\ content (MetaDataHash d') = content (MetaDataHash d);
  SignedCDSData_codec : forall d b,
    Marshal_SignedCDSData d = Some b ->
    exists d', Unmarshal_SignedCDSData b = Some d'
      /\ content (SCodeHash d') = content (SCodeHash d)
      /\ content (SMetaDataHash d') = content (SMetaDataHash d)
      /\ content (SignatureHash d') = content (SignatureHash d)
}.

(** ** The package store on disk *)

Module FS.

(** The files below the install path, by path name. *)
Abbreviation t := (gmap string (list byte)).

(** [fmt.Sprintf("%s/%s.%s", chaincodeInstallPath, ccname, ccversion)] *)
Definition install_path `{Externals} (ccname ccversion : string) : string :=
  chaincodeInstallPath +:+ "/" +:+ ccname +:+ "." +:+ ccversion.

(** [_, err := os.Stat(path); err == nil] *)
Definition Stat_ok (fs : t) (path : string) : bool :=
  bool_decide (is_Some (fs !! path)).

(** How one call of [ioutil.WriteFile] goes: it completes, or the file
    cannot be opened, or the write stops after [n] bytes. *)
Inductive io : Type :=
| IoOk
| IoOpenFails
| IoWriteFails (n : nat).

(** [ioutil.WriteFile(path, buf, 0644)]: opens with create and truncate,
    writes, closes. *)
Definition WriteFile (o : io) (path : string) (buf : slice) : M t unit :=
  match o with
  | IoOk => modify <[path := content buf]>
  | IoOpenFails => fail StorageError
  | IoWriteFails n =>
      let* _ := modify <[path := take n (content buf)]> in fail StorageError
  end.

(** Modelled from the spec: [GetChaincodePackage], the store's
    [get(name, version) -> bytes | NotFound], reading the file at the
    location derived from the name and the version. *)
Definition GetChaincodePackage `{Externals} (fs : t) (ccname ccversion : string)
  : result slice :=
  or_fail NotFound (Some <$> fs !! install_path ccname ccversion).

End FS.

(** ** The unsigned package (cdspackage.go) *)

(** [CDSData.Equals]: [other] is tested for nil before the receiver is
    read. *)
Definition CDSData_Equals (data other : option CDSData) : result bool :=
  match other with
  | None => Ok false
  | Some o =>
      let? d := deref "data" data in
      Ok (bytes_Equal (CodeHash d) (CodeHash o)
          && bytes_Equal (MetaDataHash d) (MetaDataHash o))
  end.

(** [CDSData.Reset]: [*data = CDSData{}], which writes through the
    receiver. *)
Definition CDSData_Reset : M (option CDSData) unit :=
  let* data := get in
  let* _ := call (deref "data" data) in
  modify (fun _ => Some {| CodeHash := None; MetaDataHash := None |}).

Module CDSPackage.

Record t : Type := mk {
  buf : slice;
  depSpec : option ChaincodeDeploymentSpec;
  data : option CDSData
}.

(** [&CDSPackage{}] *)
Definition empty : t := mk None None None.

Definition set_buf (v : slice) (p : t) : t := mk v (depSpec p) (data p).
Definition set_depSpec (v : option ChaincodeDeploymentSpec) (p : t) : t :=
  mk (buf p) v (data p).
Definition set_data (v : option CDSData) (p : t) : t := mk (buf p) (depSpec p) v.

Section methods.
Context `{Externals}.

Definition GetDepSpec (p : t) : option ChaincodeDeploymentSpec := depSpec p.

Definition GetPackageObject (p : t) : Message := MessageCDS (depSpec p).

Definition getCDSData (cds : option ChaincodeDeploymentSpec)
  : result (slice * CDSData) :=
  match cds with
  | None => Panic PanicNilCds
  | Some cds =>
      let? _ := or_fail MarshalError (Marshal_CDS cds) in
      let? _ := ensure InitFactories HashProviderError in
      let? H := or_fail HashProviderError GetHash in
      let hash := Hash.New H in
      (* code hash *)
      let codeHash := Hash.Sum hash (CodePackage cds) in
      let hash := Hash.Reset hash in
      (* metadata hash *)
      let? id := chaincode_id cds in
      let hash := Hash.Write hash (bytes_of_string (Name id)) in
      let hash := Hash.Write hash (bytes_of_string (Version id)) in
      let cdsdata :=
        {| CodeHash := codeHash; MetaDataHash := Hash.Sum hash None |} in
      let? b := or_fail MarshalError (Marshal_CDSData cdsdata) in
      Ok (Some b, cdsdata)
  end.

Definition ValidateCC (p : t) (ccdata : option ChaincodeData)
  : result ChaincodeDeploymentSpec :=
  if negb (not_nil (depSpec p)) then Err (Uninitialized "uninitialized package")
  else if negb (not_nil (data p)) then Err (Uninitialized "nil data")
  else
    let? cd := deref "ccdata" ccdata in
    let? ds := deref "ccpack.depSpec" (depSpec p) in
    let? id := chaincode_id ds in
    if negb (String.eqb (CDName cd) (Name id))
       || negb (String.eqb (CDVersion cd) (Version id))
    then Err IdentityMismatch
    else
      let? otherdata := or_fail DecodeError (Unmarshal_CDSData (content (CDData cd))) in
      let? eq := CDSData_Equals (data p) (Some otherdata) in
      if negb eq then Err DigestMismatch
      else Ok ds.

Definition InitFromBuffer (b : slice) : M t ChaincodeData :=
  (* incase ccpack is reused *)
  let* _ := modify (set_buf None) in
  let* _ := modify (set_depSpec None) in
  let* _ := modify (set_data None) in
  let* ds := call (or_fail DecodeError (Unmarshal_CDS (content b))) in
  let* r := call (getCDSData (Some ds)) in
  let* _ := modify (set_buf b) in
  let* _ := modify (set_depSpec (Some ds)) in
  let* _ := modify (set_data (Some r.2)) in
  let* id := call (chaincode_id ds) in
  ret {| CDName := Name id; CDVersion := Version id; CDData := r.1 |}.

Definition InitFromFS (fs : FS.t) (ccname ccversion : string)
  : M t (slice * option ChaincodeDeploymentSpec) :=
  (* incase ccpack is reused *)
  let* _ := modify (set_buf None) in
  let* _ := modify (set_depSpec None) in
  let* _ := modify (set_data None) in
  let* b := call (FS.GetChaincodePackage fs ccname ccversion) in
  let* ds := call (or_fail DecodeError (Unmarshal_CDS (content b))) in
  let* r := call (getCDSData (Some ds)) in
  let* _ := modify (set_buf b) in
  let* _ := modify (set_depSpec (Some ds)) in
  let* _ := modify (set_data (Some r.2)) in
  ret (b, Some ds).

(** The receiver is only read; the state threaded is the store. *)
Definition PutChaincodeToFS (p : t) (o : FS.io) : M FS.t unit :=
  let* _ := check (not_nil (buf p)) (Uninitialized "uninitialized package") in
  let* _ := check (not_nil (depSpec p))
              (Uninitialized "depspec cannot be nil if buf is not nil") in
  let* _ := check (not_nil (data p)) (Uninitialized "nil data") in
  let* ds := call (deref "ccpack.depSpec" (depSpec p)) in
  let* id := call (chaincode_id ds) in
  let path := FS.install_path (Name id) (Version id) in
  (* return error if chaincode exists *)
  let* fs := get in
  let* _ := check (negb (FS.Stat_ok fs path)) (AlreadyExists path) in
  FS.WriteFile o path (buf p).

End methods.

End CDSPackage.

(** ** The signed package (sigcdspackage.go) *)

(** [SignedCDSData.Equals] *)
Definition SignedCDSData_Equals (data other : option SignedCDSData) : result bool :=
  match other with
  | None => Ok false
  | Some o =>
      let? d := deref "data" data in
      Ok (bytes_Equal (SCodeHash d) (SCodeHash o)
          && bytes_Equal (SMetaDataHash d) (SMetaDataHash o)
          && bytes_Equal (SignatureHash d) (SignatureHash o))
  end.

(** [SignedCDSData.Reset] *)
Definition SignedCDSData_Reset : M (option SignedCDSData) unit :=
  let* data := get in
  let* _ := call (deref "data" data) in
  modify (fun _ => Some {| SCodeHash := None; SMetaDataHash := None;
                           SignatureHash := None |}).

Module SignedCDSPackage.

Record t : Type := mk {
  buf : slice;
  depSpec : option ChaincodeDeploymentSpec;
  sDepSpec : option SignedChaincodeDeploymentSpec;
  env : option Envelope;
  data : option SignedCDSData
}.

(** [&SignedCDSPackage{}] *)
Definition empty : t := mk None None None None None.

Definition set_buf (v : slice) (p : t) : t :=
  mk v (depSpec p) (sDepSpec p) (env p) (data p).
Definition set_depSpec (v : option ChaincodeDeploymentSpec) (p : t) : t :=
  mk (buf p) v (sDepSpec p) (env p) (data p).
Definition set_sDepSpec (v : option SignedChaincodeDeploymentSpec) (p : t) : t :=
  mk (buf p) (depSpec p) v (env p) (data p).
Definition set_env (v : option Envelope) (p : t) : t :=
  mk (buf p) (depSpec p) (sDepSpec p) v (data p).
Definition set_data (v : option SignedCDSData) (p : t) : t :=
  mk (buf p) (depSpec p) (sDepSpec p) (env p) v.

Section methods.
Context `{Externals}.

Definition GetDepSpec (p : t) : option ChaincodeDeploymentSpec := depSpec p.

Definition GetPackageObject (p : t) : Message := MessageEnvelope (env p).

(** The loop [for _, o := range scds.OwnerEndorsements { hash.Write(o.Endorser) }] *)
Definition write_endorsers (hash : Hash.t) (os : list Endorsement) : Hash.t :=
  foldl (fun h o => Hash.Write h (Endorser o)) hash os.

Definition getCDSData (scds : option SignedChaincodeDeploymentSpec)
  : result (slice * SignedCDSData) :=
  match scds with
  | None => Panic PanicNilCds
  | Some scds =>
      let? cds := or_fail DecodeError
                    (Unmarshal_CDS (content (ChaincodeDeploymentSpec_ scds))) in
      let? _ := ensure InitFactories HashProviderError in
      (* get the hash object *)
      let? H := or_fail HashProviderError GetHash in
      let hash := Hash.New H in
      (* get the code hash *)
      let codeHash := Hash.Sum hash (CodePackage cds) in
      let hash := Hash.Reset hash in
      (* get the metadata hash *)
      let? id := chaincode_id cds in
      let hash := Hash.Write hash (bytes_of_string (Name id)) in
      let hash := Hash.Write hash (bytes_of_string (Version id)) in
      let metaDataHash := Hash.Sum hash None in
      let hash := Hash.Reset hash in
      (* get the signature hashes *)
      let? _ := ensure (not_nil (InstantiationPolicy scds)) PolicyMissing in
      let hash := Hash.Write hash (InstantiationPolicy scds) in
      let hash := write_endorsers hash (OwnerEndorsements scds) in
      let scdsdata :=
        {| SCodeHash := codeHash; SMetaDataHash := metaDataHash;
           SignatureHash := Hash.Sum hash None |} in
      (* marshall data *)
      let? b := or_fail MarshalError (Marshal_SignedCDSData scdsdata) in
      Ok (Some b, scdsdata)
  end.

Definition ValidateCC (p : t) (ccdata : option ChaincodeData)
  : result ChaincodeDeploymentSpec :=
  if negb (not_nil (sDepSpec p)) then Err (Uninitialized "uninitialized package")
  else
    let? sds := deref "ccpack.sDepSpec" (sDepSpec p) in
    if negb (not_nil (ChaincodeDeploymentSpec_ sds))
    then Err (Uninitialized
                "signed chaincode deployment spec cannot be nil in a package")
    else if negb (not_nil (depSpec p))
    then Err (Uninitialized "chaincode deployment spec cannot be nil in a package")
    else
      let? cd := deref "ccdata" ccdata in
      let? ds := deref "ccpack.depSpec" (depSpec p) in
      let? id := chaincode_id ds in
      if negb (String.eqb (CDName cd) (Name id))
         || negb (String.eqb (CDVersion cd) (Version id))
      then Err IdentityMismatch
      else
        let? otherdata :=
          or_fail DecodeError (Unmarshal_SignedCDSData (content (CDData cd))) in
        let? eq := SignedCDSData_Equals (data p) (Some otherdata) in
        if negb eq then Err DigestMismatch
        else Ok ds.

Definition InitFromBuffer (b : slice) : M t ChaincodeData :=
  (* incase ccpack is reused *)
  let* _ := modify (set_buf None) in
  let* _ := modify (set_sDepSpec None) in
  let* _ := modify (set_depSpec None) in
  let* _ := modify (set_env None) in
  let* _ := modify (set_data None) in
  let* e := call (or_fail DecodeError (Unmarshal_Envelope (content b))) in
  let* x := call (or_fail ExtractionError (ExtractSignedCCDepSpec e)) in
  let* _ := check (Z.eqb (Type_ x.1) HeaderType_CHAINCODE_PACKAGE)
              WrongEnvelopeType in
  let* ds := call (or_fail DecodeError
                     (Unmarshal_CDS (content (ChaincodeDeploymentSpec_ x.2)))) in
  let* r := call (getCDSData (Some x.2)) in
  let* _ := modify (set_buf b) in
  let* _ := modify (set_sDepSpec (Some x.2)) in
  let* _ := modify (set_depSpec (Some ds)) in
  let* _ := modify (set_env (Some e)) in
  let* _ := modify (set_data (Some r.2)) in
  let* id := call (chaincode_id ds) in
  ret {| CDName := Name id; CDVersion := Version id; CDData := r.1 |}.

Definition InitFromFS (fs : FS.t) (ccname ccversion : string)
  : M t (slice * option ChaincodeDeploymentSpec) :=
  (* incase ccpack is reused *)
  let* _ := modify (set_buf None) in
  let* _ := modify (set_sDepSpec None) in
  let* _ := modify (set_depSpec None) in
  let* _ := modify (set_env None) in
  let* b := call (FS.GetChaincodePackage fs ccname ccversion) in
  let* _ := InitFromBuffer b in
  let* p := get in
  ret (buf p, depSpec p).

(** The receiver is only read; the state threaded is the store. *)
Definition PutChaincodeToFS (p : t) (o : FS.io) : M FS.t unit :=
  let* _ := check (not_nil (buf p)) (Uninitialized "uninitialized package") in
  let* _ := check (not_nil (sDepSpec p) && not_nil (depSpec p))
              (Uninitialized "depspec cannot be nil if buf is not nil") in
  let* _ := check (not_nil (env p))
              (Uninitialized "env cannot be nil if buf and depspec are not nil") in
  let* _ := check (not_nil (data p)) (Uninitialized "nil data") in
  let* ds := call (deref "ccpack.depSpec" (depSpec p)) in
  let* id := call (chaincode_id ds) in
  let path := FS.install_path (Name id) (Version id) in
  (* return error if chaincode exists *)
  let* fs := get in
  let* _ := check (negb (FS.Stat_ok fs path)) (AlreadyExists path) in
  FS.WriteFile o path (buf p).

End methods.

End SignedCDSPackage.

(** ** A codec for the messages: the protocol-buffer wire format

    A message is a sequence of fields, each a key (field number and wire
    type, as one varint) followed by a value. Decoding merges the fields
    into a message; fields the package does not read are skipped like
    unknown fields. Go bounds a varint to 64 bits, as it bounds the length
    of a slice; lists are unbounded here and so are varints. Groups are
    not supported. *)

Module Proto.

Definition byte_of_N (n : N) : byte :=
  default "000"%byte (Byte.of_N (n mod 256)).

(** Base-128 varint, least significant group first; the high bit of a
    byte says that more groups follow. *)
Fixpoint encode_varint_aux (fuel : nat) (n : N) : list byte :=
  match fuel with
  | O => [byte_of_N n]
  | S f =>
      if (n <? 128)%N then [byte_of_N n]
      else byte_of_N (128 + n mod 128) :: encode_varint_aux f (n / 128)
  end.

Definition encode_varint (n : N) : list byte :=
  encode_varint_aux (N.to_nat (N.size n)) n.

Fixpoint decode_varint (bs : list byte) : option (N * list byte) :=
  match bs with
  | [] => None
  | b :: rest =>
      let v := Byte.to_N b in
      if (v <? 128)%N then Some (v, rest)
      else
        match decode_varint rest with
        | Some (hi, rest') => Some ((v - 128) + 128 * hi, rest')%N
        | None => None
        end
  end.

Inductive wire : Type :=
| Varint (n : N)
| Fixed64 (bs : list byte)
| Bytes (bs : list byte)
| Fixed32 (bs : list byte).

(** [take_exact n bs]: the first [n] bytes and the rest, when there are
    [n] bytes. *)
Definition take_exact (n : nat) (bs : list byte) : option (list byte * list byte) :=
  if decide (n <= length bs) then Some (take n bs, drop n bs) else None.

Definition decode_value (wt : N) (bs : list byte) : option (wire * list byte) :=
  match wt with
  | 0%N => x ← decode_varint bs; Some (Varint x.1, x.2)
  | 1%N => x ← take_exact 8 bs; Some (Fixed64 x.1, x.2)
  | 2%N => n ← decode_varint bs;
           x ← take_exact (N.to_nat n.1) n.2; Some (Bytes x.1, x.2)
  | 5%N => x ← take_exact 4 bs; Some (Fixed32 x.1, x.2)
  | _ => None
  end.

Fixpoint decode_fields (fuel : nat) (bs : list byte) : option (list (N * wire)) :=
  match bs with
  | [] => Some []
  | _ :: _ =>
      match fuel with
      | O => None
      | S f =>
          key ← decode_varint bs;
          if (key.1 / 8 =? 0)%N then None
          else
            v ← decode_value (key.1 mod 8) key.2;
            fs ← decode_fields f v.2;
            Some ((key.1 / 8, v.1)%N :: fs)
      end
  end.

Definition fields (bs : list byte) : option (list (N * wire)) :=
  decode_fields (length bs) bs.

(** Merging the fields of a message into a value of type [A]: [set]
    returns [None] for a field that cannot be accepted. *)
Definition merge {A} (set : A -> N * wire -> option A) (m : A) (fs : list (N * wire))
  : option A :=
  foldl (fun acc f => a ← acc; set a f) (Some m) fs.

Definition unmarshal_into {A} (set : A -> N * wire -> option A) (m : A)
    (bs : list byte) : option A :=
  fs ← fields bs; merge set m fs.

(** Encoders *)
Definition key (num wt : N) : list byte := encode_varint (num * 8 + wt).

Definition put_bytes (num : N) (bs : list byte) : list byte :=
  key num 2 ++ encode_varint (N.of_nat (length bs)) ++ bs.

(** A [bytes] field of a proto3 message: left out when empty. *)
Definition put_bytes3 (num : N) (s : slice) : list byte :=
  match content s with [] => [] | bs => put_bytes num bs end.

(** A [bytes] field of a proto2 message: left out when nil. *)
Definition put_bytes2 (num : N) (s : slice) : list byte :=
  match s with None => [] | Some bs => put_bytes num bs end.

Definition put_string (num : N) (s : string) : list byte :=
  put_bytes3 num (bytes_of_string s).

Definition put_message (num : N) (m : option (list byte)) : list byte :=
  match m with None => [] | Some bs => put_bytes num bs end.

(** ChaincodeID: path = 1, name = 2, version = 3 *)
Definition ChaincodeID_zero : ChaincodeID :=
  {| Path := ""; Name := ""; Version := "" |}.

Definition set_ChaincodeID (m : ChaincodeID) (f : N * wire) : option ChaincodeID :=
  match f with
  | (1%N, Bytes bs) =>
      Some {| Path := String.string_of_list_byte bs; Name := Name m; Version := Version m |}
  | (2%N, Bytes bs) =>
      Some {| Path := Path m; Name := String.string_of_list_byte bs; Version := Version m |}
  | (3%N, Bytes bs) =>
      Some {| Path := Path m; Name := Name m; Version := String.string_of_list_byte bs |}
  | (1%N, _) | (2%N, _) | (3%N, _) => None
  | _ => Some m
  end.

Definition marshal_ChaincodeID (m : ChaincodeID) : list byte :=
  put_string 1 (Path m) ++ put_string 2 (Name m) ++ put_string 3 (Version m).

(** ChaincodeSpec: chaincode_id = 2 *)
Definition ChaincodeSpec_zero : ChaincodeSpec := {| ChaincodeId := None |}.

Definition set_ChaincodeSpec (m : ChaincodeSpec) (f : N * wire) : option ChaincodeSpec :=
  match f with
  | (2%N, Bytes bs) =>
      id ← unmarshal_into set_ChaincodeID (default ChaincodeID_zero (ChaincodeId m)) bs;
      Some {| ChaincodeId := Some id |}
  | (2%N, _) => None
  | _ => Some m
  end.

Definition marshal_ChaincodeSpec (m : ChaincodeSpec) : list byte :=
  put_message 2 (marshal_ChaincodeID <$> ChaincodeId m).

(** ChaincodeDeploymentSpec: chaincode_spec = 1, code_package = 3 *)
Definition ChaincodeDeploymentSpec_zero : ChaincodeDeploymentSpec :=
  {| ChaincodeSpec_ := None; CodePackage := None |}.

Definition set_ChaincodeDeploymentSpec (m : ChaincodeDeploymentSpec) (f : N * wire)
  : option ChaincodeDeploymentSpec :=
  match f with
  | (1%N, Bytes bs) =>
      spec ← unmarshal_into set_ChaincodeSpec
               (default ChaincodeSpec_zero (ChaincodeSpec_ m)) bs;
      Some {| ChaincodeSpec_ := Some spec; CodePackage := CodePackage m |}
  | (3%N, Bytes bs) =>
      Some {| ChaincodeSpec_ := ChaincodeSpec_ m; CodePackage := Some bs |}
  | (1%N, _) | (3%N, _) => None
  | _ => Some m
  end.

Definition marshal_ChaincodeDeploymentSpec (m : ChaincodeDeploymentSpec) : list byte :=
  put_message 1 (marshal_ChaincodeSpec <$> ChaincodeSpec_ m)
  ++ put_bytes3 3 (CodePackage m).

(** Endorsement: endorser = 1, signature = 2 *)
Definition set_Endorsement (m : Endorsement) (f : N * wire) : option Endorsement :=
  match f with
  | (1%N, Bytes bs) => Some {| Endorser := Some bs; Signature := Signature m |}
  | (2%N, Bytes bs) => Some {| Endorser := Endorser m; Signature := Some bs |}
  | (1%N, _) | (2%N, _) => None
  | _ => Some m
  end.

Definition marshal_Endorsement (m : Endorsement) : list byte :=
  put_bytes3 1 (Endorser m) ++ put_bytes3 2 (Signature m).

(** SignedChaincodeDeploymentSpec: chaincode_deployment_spec = 1,
    instantiation_policy = 2, owner_endorsements = 3 (repeated) *)
Definition set_SignedCDS (m : SignedChaincodeDeploymentSpec) (f : N * wire)
  : option SignedChaincodeDeploymentSpec :=
  match f with
  | (1%N, Bytes bs) =>
      Some {| ChaincodeDeploymentSpec_ := Some bs;
              InstantiationPolicy := InstantiationPolicy m;
              OwnerEndorsements := OwnerEndorsements m |}
  | (2%N, Bytes bs) =>
      Some {| ChaincodeDeploymentSpec_ := ChaincodeDeploymentSpec_ m;
              InstantiationPolicy := Some bs;
              OwnerEndorsements := OwnerEndorsements m |}
  | (3%N, Bytes bs) =>
      e ← unmarshal_into set_Endorsement {| Endorser := None; Signature := None |} bs;
      Some {| ChaincodeDeploymentSpec_ := ChaincodeDeploymentSpec_ m;
              InstantiationPolicy := InstantiationPolicy m;
              OwnerEndorsements := OwnerEndorsements m ++ [e] |}
  | (1%N, _) | (2%N, _) | (3%N, _) => None
  | _ => Some m
  end.

Definition marshal_SignedCDS (m : SignedChaincodeDeploymentSpec) : list byte :=
  put_bytes3 1 (ChaincodeDeploymentSpec_ m)
  ++ put_bytes3 2 (InstantiationPolicy m)
  ++ concat (map (fun e => put_bytes 3 (marshal_Endorsement e)) (OwnerEndorsements m)).

(** Envelope: payload = 1, signature = 2 *)
Definition set_Envelope (m : Envelope) (f : N * wire) : option Envelope :=
  match f with
  | (1%N, Bytes bs) => Some {| Payload := Some bs; EnvSignature := EnvSignature m |}
  | (2%N, Bytes bs) => Some {| Payload := Payload m; EnvSignature := Some bs |}
  | (1%N, _) | (2%N, _) => None
  | _ => Some m
  end.

Definition marshal_Envelope (m : Envelope) : list byte :=
  put_bytes3 1 (Payload m) ++ put_bytes3 2 (EnvSignature m).

(** CDSData (proto3 tags): codehash = 1, metadatahash = 2 *)
Definition set_CDSData (m : CDSData) (f : N * wire) : option CDSData :=
  match f with
  | (1%N, Bytes bs) => Some {| CodeHash := Some bs; MetaDataHash := MetaDataHash m |}
  | (2%N, Bytes bs) => Some {| CodeHash := CodeHash m; MetaDataHash := Some bs |}
  | (1%N, _) | (2%N, _) => None
  | _ => Some m
  end.

Definition marshal_CDSData (m : CDSData) : list byte :=
  put_bytes3 1 (CodeHash m) ++ put_bytes3 2 (MetaDataHash m).

(** SignedCDSData (proto2 tags): hash = 1, metadatahash = 2,
    signaturehash = 3 *)
Definition set_SignedCDSData (m : SignedCDSData) (f : N * wire) : option SignedCDSData :=
  match f with
  | (1%N, Bytes bs) =>
      Some {| SCodeHash := Some bs; SMetaDataHash := SMetaDataHash m;
              SignatureHash := SignatureHash m |}
  | (2%N, Bytes bs) =>
      Some {| SCodeHash := SCodeHash m; SMetaDataHash := Some bs;
              SignatureHash := SignatureHash m |}
  | (3%N, Bytes bs) =>
      Some {| SCodeHash := SCodeHash m; SMetaDataHash := SMetaDataHash m;
              SignatureHash := Some bs |}
  | (1%N, _) | (2%N, _) | (3%N, _) => None
  | _ => Some m
  end.

Definition marshal_SignedCDSData (m : SignedCDSData) : list byte :=
  put_bytes2 1 (SCodeHash m) ++ put_bytes2 2 (SMetaDataHash m)
  ++ put_bytes2 3 (SignatureHash m).

(** ChannelHeader: type = 1 (int32, the low 32 bits of the varint) *)
Definition int32_of_N (n : N) : Z :=
  let z := (Z.of_N n mod 2 ^ 32)%Z in
  if (z <? 2 ^ 31)%Z then z else (z - 2 ^ 32)%Z.

Definition set_ChannelHeader (m : ChannelHeader) (f : N * wire) : option ChannelHeader :=
  match f with
  | (1%N, Varint n) => Some {| Type_ := int32_of_N n |}
  | (1%N, _) => None
  | _ => Some m
  end.

(** Header: channel_header = 1, signature_header = 2 *)
Record Header : Type := {
  ChannelHeader_ : slice;
  SignatureHeader : slice
}.

Definition set_Header (m : Header) (f : N * wire) : option Header :=
  match f with
  | (1%N, Bytes bs) => Some {| ChannelHeader_ := Some bs; SignatureHeader := SignatureHeader m |}
  | (2%N, Bytes bs) => Some {| ChannelHeader_ := ChannelHeader_ m; SignatureHeader := Some bs |}
  | (1%N, _) | (2%N, _) => None
  | _ => Some m
  end.

(** Payload: header = 1, data = 2 *)
Record Payload : Type := {
  Header_ : option Header;
  Data : slice
}.

Definition set_Payload (m : Payload) (f : N * wire) : option Payload :=
  match f with
  | (1%N, Bytes bs) =>
      h ← unmarshal_into set_Header
            (default {| ChannelHeader_ := None; SignatureHeader := None |} (Header_ m)) bs;
      Some {| Header_ := Some h; Data := Data m |}
  | (2%N, Bytes bs) => Some {| Header_ := Header_ m; Data := Some bs |}
  | (1%N, _) | (2%N, _) => None
  | _ => Some m
  end.

End Proto.

(** ** SHA-256, the digest of the default BCCSP configuration (FIPS 180-4) *)

Module SHA256.
Local Open Scope N_scope.

Definition w32 (x : N) : N := x mod 2 ^ 32.
Definition add32 (x y : N) : N := w32 (x + y).
Definition rotr (n x : N) : N := N.lor (N.shiftr x n) (w32 (N.shiftl x (32 - n))).
Definition not32 (x : N) : N := N.lxor x 0xffffffff.

Definition Ch (x y z : N) : N := N.lxor (N.land x y) (N.land (not32 x) z).
Definition Maj (x y z : N) : N :=
  N.lxor (N.lxor (N.land x y) (N.land x z)) (N.land y z).
Definition Sigma0 (x : N) : N := N.lxor (N.lxor (rotr 2 x) (rotr 13 x)) (rotr 22 x).
Definition Sigma1 (x : N) : N := N.lxor (N.lxor (rotr 6 x) (rotr 11 x)) (rotr 25 x).
Definition sigma0 (x : N) : N := N.lxor (N.lxor (rotr 7 x) (rotr 18 x)) (N.shiftr x 3).
Definition sigma1 (x : N) : N := N.lxor (N.lxor (rotr 17 x) (rotr 19 x)) (N.shiftr x 10).

(** The primes, by trial division. *)
Definition is_prime (n : nat) : bool :=
  forallb (fun d => negb (Nat.eqb (n mod d) 0)%nat) (seq 2 (n - 2))%nat.

Definition primes (k : nat) : list N :=
  take k (map N.of_nat (List.filter is_prime (seq 2 320))).

(** The integer cube root, one bit at a time from bit [k] down. *)
Fixpoint cbrt_bits (k : nat) (n r : N) : N :=
  match k with
  | O => r
  | S k' =>
      let c := r + 2 ^ N.of_nat k' in
      cbrt_bits k' n (if c * c * c <=? n then c else r)
  end.

(** The round constants: the first 32 bits of the fractional parts of the
    cube roots of the first 64 primes. *)
Definition K : list N :=
  Eval vm_compute in map (fun q => w32 (cbrt_bits 40 (q * 2 ^ 96) 0)) (primes 64).

(** The initial hash value: the first 32 bits of the fractional parts of
    the square roots of the first 8 primes. *)
Definition H0 : list N :=
  Eval vm_compute in map (fun q => w32 (N.sqrt (q * 2 ^ 64))) (primes 8).

Definition byte_of (n : N) : byte := default "000"%byte (Byte.of_N (n mod 256)).

(** Big-endian bytes of a number, [k] of them. *)
Fixpoint be_bytes (k : nat) (x : N) : list byte :=
  match k with
  | O => []
  | S k' => byte_of (N.shiftr x (8 * N.of_nat k')) :: be_bytes k' x
  end.

Definition be_word (bs : list byte) : N :=
  foldl (fun acc b => acc * 256 + Byte.to_N b) 0 bs.

(** The message, a 1 bit, zeros up to 56 modulo 64, the bit length. *)
Definition pad (msg : list byte) : list byte :=
  let n := length msg in
  msg ++ "128"%byte :: replicate ((119 - n mod 64) mod 64)%nat "000"%byte
      ++ be_bytes 8 (8 * N.of_nat n).

Fixpoint words (k : nat) (bs : list byte) : list N :=
  match k with
  | O => []
  | S k' => be_word (take 4 bs) :: words k' (drop 4 bs)
  end.

(** The message schedule, most recent word first. *)
Fixpoint schedule (k : nat) (w : list N) : list N :=
  match k with
  | O => w
  | S k' =>
      let x i := default 0 (w !! i) in
      schedule k'
        (add32 (add32 (sigma1 (x 1%nat)) (x 6%nat)) (add32 (sigma0 (x 14%nat)) (x 15%nat)) :: w)
  end.

Definition round (s : list N) (kw : N * N) : list N :=
  match s with
  | [a; b; c; d; e; f; g; h] =>
      let t1 := add32 (add32 (add32 h (Sigma1 e)) (add32 (Ch e f g) kw.1)) kw.2 in
      let t2 := add32 (Sigma0 a) (Maj a b c) in
      [add32 t1 t2; a; b; c; add32 d t1; e; f; g]
  | _ => s
  end.

Definition block (h : list N) (bs : list byte) : list N :=
  let w := reverse (schedule 48 (reverse (words 16 bs))) in
  zip_with add32 h (foldl round h (zip K w)).

Fixpoint blocks (k : nat) (h : list N) (bs : list byte) : list N :=
  match k with
  | O => h
  | S k' => blocks k' (block h (take 64 bs)) (drop 64 bs)
  end.

Definition sum (msg : list byte) : list byte :=
  let p := pad msg in
  concat (map (be_bytes 4) (blocks (length p / 64) H0 p)).

(** Lower-case hexadecimal, as digests are printed. *)
Definition hex_digit (n : N) : string :=
  String.substring (N.to_nat n) 1 "0123456789abcdef".

Definition hex (bs : list byte) : string :=
  foldr (fun b s => hex_digit (Byte.to_N b / 16) +:+ hex_digit (Byte.to_N b mod 16) +:+ s)
    "" bs.

End SHA256.

(** ** One set of collaborators

    The wire codec above, SHA-256 behind a factory that initialises, an
    envelope extraction over the same codec, and an install path. The
    properties below hold for every set of collaborators; this one gives
    runs on concrete buffers. *)

Module Reference.

(** Modelled from the spec: [ccpackage.ExtractSignedCCDepSpec] returns the
    channel header and the signed deployment spec of an envelope, or fails
    when the envelope is not a well-formed signed-package envelope. Here
    the payload of the envelope is decoded, then the channel header in its
    header and the signed deployment spec in its data; the extraction
    fails when one of them cannot be read. *)
Definition extract (e : Envelope)
  : option (ChannelHeader * SignedChaincodeDeploymentSpec) :=
  p ← Proto.unmarshal_into Proto.set_Payload
        {| Proto.Header_ := None; Proto.Data := None |} (content (Payload e));
  h ← Proto.Header_ p;
  ch ← Proto.unmarshal_into Proto.set_ChannelHeader {| Type_ := 0 |}
         (content (Proto.ChannelHeader_ h));
  sp ← Proto.unmarshal_into Proto.set_SignedCDS
         {| ChaincodeDeploymentSpec_ := None; InstantiationPolicy := None;
            OwnerEndorsements := [] |} (content (Proto.Data p));
  Some (ch, sp).

Definition externals : Externals := {|
  Unmarshal_CDS :=
    Proto.unmarshal_into Proto.set_ChaincodeDeploymentSpec
      Proto.ChaincodeDeploymentSpec_zero;
  Marshal_CDS := fun m => Some (Proto.marshal_ChaincodeDeploymentSpec m);
  Unmarshal_Envelope :=
    Proto.unmarshal_into Proto.set_Envelope {| Payload := None; EnvSignature := None |};
  Marshal_CDSData := fun m => Some (Proto.marshal_CDSData m);
  Unmarshal_CDSData :=
    Proto.unmarshal_into Proto.set_CDSData {| CodeHash := None; MetaDataHash := None |};
  Marshal_SignedCDSData := fun m => Some (Proto.marshal_SignedCDSData m);
  Unmarshal_SignedCDSData :=
    Proto.unmarshal_into Proto.set_SignedCDSData
      {| SCodeHash := None; SMetaDataHash := None; SignatureHash := None |};
  InitFactories := true;
  GetHash := Some SHA256.sum;
  ExtractSignedCCDepSpec := extract;
  HeaderType_CHAINCODE_PACKAGE := 6%Z;
  chaincodeInstallPath := "/var/hyperledger/production/chaincodes"
|}.

(** A deployment spec [{name: mycc, version: 1.0, codePackage: abc}]
    and its encoding. *)
Definition mycc : ChaincodeDeploymentSpec :=
  {| ChaincodeSpec_ :=
       Some {| ChaincodeId := Some {| Path := ""; Name := "mycc"; Version := "1.0" |} |};
     CodePackage := Some (String.list_byte_of_string "abc") |}.

Definition mycc_id : ChaincodeID := {| Path := ""; Name := "mycc"; Version := "1.0" |}.

Definition mycc_bytes : list byte := Proto.marshal_ChaincodeDeploymentSpec mycc.

(** A signed package of [mycc] with a policy and two endorsements, and
    its envelope. *)
Definition endorsement (who : string) : Endorsement :=
  {| Endorser := Some (String.list_byte_of_string who); Signature := None |}.

Definition signed_mycc (policy : slice) (es : list Endorsement)
  : SignedChaincodeDeploymentSpec :=
  {| ChaincodeDeploymentSpec_ := Some mycc_bytes;
     InstantiationPolicy := policy;
     OwnerEndorsements := es |}.

(** An encoding of a signed deployment spec that writes every non-nil
    [bytes] field, an empty one too. *)
Definition signed_bytes (sp : SignedChaincodeDeploymentSpec) : list byte :=
  Proto.put_bytes2 1 (ChaincodeDeploymentSpec_ sp)
  ++ Proto.put_bytes2 2 (InstantiationPolicy sp)
  ++ concat (map (fun e => Proto.put_bytes 3 (Proto.marshal_Endorsement e))
               (OwnerEndorsements sp)).

Definition envelope_of (htype : N) (sp : SignedChaincodeDeploymentSpec) : list byte :=
  let chdr := Proto.key 1 0 ++ Proto.encode_varint htype in
  let hdr := Proto.put_bytes 1 chdr in
  let payload := Proto.put_bytes 1 hdr ++ Proto.put_bytes 2 (signed_bytes sp) in
  Proto.put_bytes 1 payload.

(** The two packages initialised from these buffers. *)
Definition signed_alice_bob : SignedChaincodeDeploymentSpec :=
  signed_mycc (Some (bytes "policy")) [endorsement "alice"; endorsement "bob"].

Definition unsigned_init : CDSPackage.t * result ChaincodeData :=
  @CDSPackage.InitFromBuffer externals (Some mycc_bytes) CDSPackage.empty.

Definition signed_init : SignedCDSPackage.t * result ChaincodeData :=
  @SignedCDSPackage.InitFromBuffer externals
    (Some (envelope_of 6 signed_alice_bob)) SignedCDSPackage.empty.

(** The deployment spec of a chaincode with a name, a version and a code
    package, the signed spec that embeds it, and the packages initialised
    from their encodings. *)
Definition deployment (name version code : string) : ChaincodeDeploymentSpec :=
  {| ChaincodeSpec_ :=
       Some {| ChaincodeId := Some {| Path := ""; Name := name; Version := version |} |};
     CodePackage := Some (String.list_byte_of_string code) |}.

Definition signed_deployment (ds : ChaincodeDeploymentSpec) (policy : slice)
    (es : list Endorsement) : SignedChaincodeDeploymentSpec :=
  {| ChaincodeDeploymentSpec_ := Some (Proto.marshal_ChaincodeDeploymentSpec ds);
     InstantiationPolicy := policy;
     OwnerEndorsements := es |}.

Definition unsigned_of (ds : ChaincodeDeploymentSpec)
  : CDSPackage.t * result ChaincodeData :=
  @CDSPackage.InitFromBuffer externals
    (Some (Proto.marshal_ChaincodeDeploymentSpec ds)) CDSPackage.empty.

Definition signed_of (sp : SignedChaincodeDeploymentSpec)
  : SignedCDSPackage.t * result ChaincodeData :=
  @SignedCDSPackage.InitFromBuffer externals
    (Some (envelope_of 6 sp)) SignedCDSPackage.empty.

End Reference.

(** ** Sequences of calls

    The public operations of a package, called one after the other on one
    package value and one store; a panic is recorded and the sequence goes
    on, as after a recover. *)

Inductive op : Type :=
| OpInitFromBuffer (b : slice)
| OpInitFromFS (ccname ccversion : string)
| OpValidateCC (ccdata : option ChaincodeData)
| OpPutChaincodeToFS (o : FS.io).

(** The outcome of a call without its value. *)
Definition outcome {A} (r : result A) : result unit :=
  match r with
  | Ok _ => Ok tt
  | Err e => Err e
  | Panic x => Panic x
  end.

Definition CDS_step `{Externals} (o : op) (w : CDSPackage.t * FS.t)
  : (CDSPackage.t * FS.t) * result unit :=
  match o with
  | OpInitFromBuffer b =>
      let r := CDSPackage.InitFromBuffer b w.1 in ((r.1, w.2), outcome r.2)
  | OpInitFromFS n v =>
      let r := CDSPackage.InitFromFS w.2 n v w.1 in ((r.1, w.2), outcome r.2)
  | OpValidateCC cd => (w, outcome (CDSPackage.ValidateCC w.1 cd))
  | OpPutChaincodeToFS io =>
      let r := CDSPackage.PutChaincodeToFS w.1 io w.2 in ((w.1, r.1), outcome r.2)
  end.

Definition SCDS_step `{Externals} (o : op) (w : SignedCDSPackage.t * FS.t)
  : (SignedCDSPackage.t * FS.t) * result unit :=
  match o with
  | OpInitFromBuffer b =>
      let r := SignedCDSPackage.InitFromBuffer b w.1 in ((r.1, w.2), outcome r.2)
  | OpInitFromFS n v =>
      let r := SignedCDSPackage.InitFromFS w.2 n v w.1 in ((r.1, w.2), outcome r.2)
  | OpValidateCC cd => (w, outcome (SignedCDSPackage.ValidateCC w.1 cd))
  | OpPutChaincodeToFS io =>
      let r := SignedCDSPackage.PutChaincodeToFS w.1 io w.2 in ((w.1, r.1), outcome r.2)
  end.

(** The state after a sequence of calls and the outcomes, first call
    first. *)
Fixpoint run {W} (step : op -> W -> W * result unit) (ops : list op) (w : W)
  : W * list (result unit) :=
  match ops with
  | [] => (w, [])
  | o :: ops' =>
      let r := step o w in
      let rs := run step ops' r.1 in
      (rs.1, r.2 :: rs.2)
  end.

(** The two panics of the claim: the assertion of [getCDSData], and the
    dereference of a nil digest record in [Equals]. *)
Definition asserted_panic (x : panic) : Prop :=
  x = PanicNilCds \/ x = PanicNilDeref "data".

Definition no_asserted_panic (r : result unit) : Prop :=
  match r with
  | Panic x => ~ asserted_panic x
  | _ => True
  end.

(** The signed package: whenever the signed spec is set, so is the digest
    record. *)
Definition SCDS_inv (p : SignedCDSPackage.t) : Prop :=
  is_Some (SignedCDSPackage.sDepSpec p) -> is_Some (SignedCDSPackage.data p).

(** ** Initialised packages

    What a successful initialisation leaves in a package besides the
    buffer it was given: every field set, the deployment spec naming a
    chaincode id. *)

Definition CDS_initialized (p : CDSPackage.t) (ds : ChaincodeDeploymentSpec)
    (id : ChaincodeID) (d : CDSData) : Prop :=
  CDSPackage.depSpec p = Some ds
  /\ CDSPackage.data p = Some d
  /\ chaincode_id ds = Ok id.

Definition SCDS_initialized (p : SignedCDSPackage.t) (ds : ChaincodeDeploymentSpec)
    (id : ChaincodeID) (d : SignedCDSData) : Prop :=
  SignedCDSPackage.depSpec p = Some ds
  /\ (exists sds, SignedCDSPackage.sDepSpec p = Some sds
                  /\ is_Some (ChaincodeDeploymentSpec_ sds))
  /\ is_Some (SignedCDSPackage.env p)
  /\ SignedCDSPackage.data p = Some d
  /\ chaincode_id ds = Ok id.

(** A package as a sequence of calls leaves it: nothing set, or the
    deployment spec and the digest record set and the spec naming a
    chaincode id (and, in the signed package, the signed spec and the
    envelope set as well). *)
Definition CDS_wf (p : CDSPackage.t) : Prop :=
  p = CDSPackage.empty \/ exists ds id d, CDS_initialized p ds id d.

Definition SCDS_wf (p : SignedCDSPackage.t) : Prop :=
  (SignedCDSPackage.buf p = None /\ SignedCDSPackage.depSpec p = None
   /\ SignedCDSPackage.sDepSpec p = None /\ SignedCDSPackage.env p = None)
  \/ exists ds id d,
       SignedCDSPackage.depSpec p = Some ds
       /\ is_Some (SignedCDSPackage.sDepSpec p)
       /\ is_Some (SignedCDSPackage.env p)
       /\ SignedCDSPackage.data p = Some d
       /\ chaincode_id ds = Ok id.

(** A package that answers every call like one that was never
    initialised. *)
Definition CDS_reports_uninitialized `{Externals} (p : CDSPackage.t) : Prop :=
  (forall ccdata,
     CDSPackage.ValidateCC p ccdata = Err (Uninitialized "uninitialized package"))
  /\ (forall o (fs : FS.t),
        CDSPackage.PutChaincodeToFS p o fs
        = (fs, Err (Uninitialized "uninitialized package")))
  /\ CDSPackage.GetDepSpec p = None
  /\ CDSPackage.GetPackageObject p = MessageCDS None.

Definition SCDS_reports_uninitialized `{Externals} (p : SignedCDSPackage.t) : Prop :=
  (forall ccdata,
     SignedCDSPackage.ValidateCC p ccdata
     = Err (Uninitialized "uninitialized package"))
  /\ (forall o (fs : FS.t),
        SignedCDSPackage.PutChaincodeToFS p o fs
        = (fs, Err (Uninitialized "uninitialized package")))
  /\ SignedCDSPackage.GetDepSpec p = None
  /\ SignedCDSPackage.GetPackageObject p = MessageEnvelope None.

(** A store that is as before, or has one file more, at a path that named
    none. *)
Definition grown_at (fs fs' : FS.t) (path : string) : Prop :=
  fs' = fs \/ fs !! path = None /\ exists l, fs' = <[path := l]> fs.

(** Two digest records with the same bytes in every field. *)
Definition CDSData_same (d o : CDSData) : Prop :=
  content (CodeHash d) = content (CodeHash o)
  /\ content (MetaDataHash d) = content (MetaDataHash o).

Definition SignedCDSData_same (d o : SignedCDSData) : Prop :=
  content (SCodeHash d) = content (SCodeHash o)
  /\ content (SMetaDataHash d) = content (SMetaDataHash o)
  /\ content (SignatureHash d) = content (SignatureHash o).

Global Instance CDSData_same_dec d o : Decision (CDSData_same d o).
Proof. unfold CDSData_same. apply _. Defined.
Global Instance SignedCDSData_same_dec d o : Decision (SignedCDSData_same d o).
Proof. unfold SignedCDSData_same. apply _. Defined.

(** ** The digests in closed form

    What the two digest computations are shown below to return. *)

(** The digest record of a deployment spec. *)
Definition CDS_digest (H : list byte -> list byte) (cds : ChaincodeDeploymentSpec)
    (id : ChaincodeID) : CDSData :=
  {| CodeHash := Go.append (CodePackage cds) (H []);
     MetaDataHash :=
       Go.append None (H (String.list_byte_of_string (Name id)
                          ++ String.list_byte_of_string (Version id))) |}.

(** The bytes the signature hash is taken of: the policy, then the
    endorsers in the order of the list. *)
Definition signature_input (scds : SignedChaincodeDeploymentSpec) : list byte :=
  content (InstantiationPolicy scds)
  ++ concat (map (fun o => content (Endorser o)) (OwnerEndorsements scds)).

(** The digest record of a signed deployment spec. *)
Definition SCDS_digest (H : list byte -> list byte) (cds : ChaincodeDeploymentSpec)
    (id : ChaincodeID) (scds : SignedChaincodeDeploymentSpec) : SignedCDSData :=
  {| SCodeHash := Go.append (CodePackage cds) (H []);
     SMetaDataHash :=
       Go.append None (H (String.list_byte_of_string (Name id)
                          ++ String.list_byte_of_string (Version id)));
     SignatureHash := Go.append None (H (signature_input scds)) |}.

(** The digest records of the reference packages with the last hash
    replaced. *)
Definition tampered_digest : CDSData :=
  {| CodeHash := CodeHash (CDS_digest SHA256.sum Reference.mycc Reference.mycc_id);
     MetaDataHash := Some (SHA256.sum (bytes "mycc1.1")) |}.

Definition signed_tampered_digest : SignedCDSData :=
  let d := SCDS_digest SHA256.sum Reference.mycc Reference.mycc_id
             Reference.signed_alice_bob in
  {| SCodeHash := SCodeHash d; SMetaDataHash := SMetaDataHash d;
     SignatureHash := Some (SHA256.sum (bytes "policybobalice")) |}.

(** * Properties *)

(** ** The wire codec: decoding an encoded field *)

Section wire_facts.
Import Proto.
Local Open Scope N_scope.

Lemma to_N_byte_of_N n : Byte.to_N (byte_of_N n) = n mod 256.
Proof.
  unfold byte_of_N.
  destruct (Byte.of_N (n mod 256)) as [b|] eqn:E.
  - by apply Byte.to_of_N.
  - apply Byte.of_N_None_iff in E.
    pose proof (N.mod_upper_bound n 256). lia.
Qed.

Lemma decode_encode_varint_aux fuel n rest :
  n < 2 ^ N.of_nat fuel ->
  decode_varint (encode_varint_aux fuel n ++ rest) = Some (n, rest).
Proof.
  revert n. induction fuel as [|f IH]; intros n Hn.
  - assert (n = 0) as -> by (simpl in Hn; lia). reflexivity.
  - cbn [encode_varint_aux]. destruct (n <? 128) eqn:Hlt.
    + apply N.ltb_lt in Hlt. cbn [app decode_varint].
      rewrite to_N_byte_of_N, N.mod_small by lia.
      apply N.ltb_lt in Hlt. by rewrite Hlt.
    + apply N.ltb_ge in Hlt. cbn [app decode_varint].
      rewrite to_N_byte_of_N.
      pose proof (N.mod_upper_bound n 128 ltac:(lia)) as Hr.
      pose proof (N.div_mod n 128 ltac:(lia)) as Hq.
      assert (n / 128 < 2 ^ N.of_nat f) as Hf.
      { rewrite Nat2N.inj_succ, N.pow_succ_r' in Hn.
        apply N.Div0.div_lt_upper_bound. lia. }
      rewrite (IH _ Hf).
      clear Hf. remember (n mod 128) as r eqn:Er. remember (n / 128) as q eqn:Eq.
      clear Er Eq.
      rewrite (N.mod_small (128 + r)) by lia.
      destruct (128 + r <? 128) eqn:E; [apply N.ltb_lt in E; lia|].
      f_equal. f_equal. lia.
Qed.

Lemma decode_encode_varint n rest :
  decode_varint (encode_varint n ++ rest) = Some (n, rest).
Proof.
  apply decode_encode_varint_aux. rewrite N2Nat.id. apply N.size_gt.
Qed.

Lemma decode_varint_shorter bs n rest :
  decode_varint bs = Some (n, rest) -> (length rest < length bs)%nat.
Proof.
  revert n rest. induction bs as [|b bs IH]; intros n rest; [done|].
  cbn [decode_varint]. destruct (Byte.to_N b <? 128).
  - intros [= <- <-]. simpl. lia.
  - destruct (decode_varint bs) as [[hi r]|]; [|done].
    intros [= <- <-]. specialize (IH _ _ eq_refl). simpl. lia.
Qed.

Lemma take_exact_shorter n bs x :
  take_exact n bs = Some x -> (length x.2 <= length bs)%nat.
Proof.
  unfold take_exact. case_decide; [|done]. intros [= <-]. simpl.
  rewrite length_drop. lia.
Qed.

Lemma decode_value_shorter wt bs v :
  decode_value wt bs = Some v -> (length v.2 <= length bs)%nat.
Proof.
  unfold decode_value.
  destruct wt as [|[[[]|[]|]|[[]|[]|]|]]; try done; intros Hv; simplify_option_eq;
    repeat match goal with
    | H : decode_varint _ = Some (_, _) |- _ => apply decode_varint_shorter in H
    | H : decode_varint _ = Some ?x |- _ => destruct x
    | H : take_exact _ _ = Some _ |- _ => apply take_exact_shorter in H
    end; simpl in *; lia.
Qed.

Lemma decode_fields_fuel f1 f2 bs :
  (length bs <= f1)%nat -> (length bs <= f2)%nat ->
  decode_fields f1 bs = decode_fields f2 bs.
Proof.
  revert f2 bs. induction f1 as [|f1 IH]; intros f2 bs H1 H2.
  - destruct bs; [by destruct f2 | simpl in H1; lia].
  - destruct bs as [|b bs]; [by destruct f2|].
    destruct f2 as [|f2]; [simpl in H2; lia|].
    cbn [decode_fields].
    destruct (decode_varint (b :: bs)) as [[k r]|] eqn:Ek; [|done].
    cbn [mbind option_bind fst snd].
    destruct (k / 8 =? 0); [done|].
    destruct (decode_value (k mod 8) r) as [v|] eqn:Ev; [|done].
    cbn [mbind option_bind].
    apply decode_varint_shorter in Ek. apply decode_value_shorter in Ev.
    rewrite (IH f2 v.2); [done | lia | lia].
Qed.

Lemma fields_nil : fields [] = Some [].
Proof. done. Qed.

Lemma fields_cons b bs :
  fields (b :: bs) =
    key ← decode_varint (b :: bs);
    if (key.1 / 8 =? 0)%N then None
    else
      v ← decode_value (key.1 mod 8) key.2;
      fs ← fields v.2;
      Some ((key.1 / 8, v.1)%N :: fs).
Proof.
  unfold fields. cbn [length decode_fields].
  destruct (decode_varint (b :: bs)) as [[k r]|] eqn:Ek; [|done].
  cbn [mbind option_bind fst snd].
  destruct (k / 8 =? 0); [done|].
  destruct (decode_value (k mod 8) r) as [v|] eqn:Ev; [|done].
  cbn [mbind option_bind].
  apply decode_varint_shorter in Ek. apply decode_value_shorter in Ev.
  rewrite (decode_fields_fuel (length bs) (length v.2)); [done| |done].
  simpl in Ek. lia.
Qed.

Lemma encode_varint_cons n : exists b l, encode_varint n = b :: l.
Proof.
  pose proof (decode_encode_varint n []) as D.
  destruct (encode_varint n) as [|b l]; [done|eauto].
Qed.

(** A length-delimited field in front of the encoding of other fields. *)
Lemma fields_put_bytes num bs rest :
  (0 < num)%N ->
  fields (put_bytes num bs ++ rest) = fs ← fields rest; Some ((num, Bytes bs) :: fs).
Proof.
  intros Hnum. unfold put_bytes, key.
  destruct (encode_varint_cons (num * 8 + 2)) as (b & l & E).
  rewrite <- !(assoc (++)).
  pose proof (decode_encode_varint (num * 8 + 2)) as D.
  rewrite E in *. cbn [app]. rewrite fields_cons.
  change (b :: l ++ ?x) with ((b :: l) ++ x). rewrite D. clear D E b l.
  cbn [mbind option_bind fst snd].
  replace ((num * 8 + 2) / 8) with num
    by (apply (N.div_unique _ 8 num 2); lia).
  replace ((num * 8 + 2) mod 8) with 2
    by (apply (N.mod_unique _ 8 num 2); lia).
  destruct (num =? 0) eqn:E0; [apply N.eqb_eq in E0; lia|].
  cbn [decode_value]. rewrite decode_encode_varint. cbn [mbind option_bind fst snd].
  unfold take_exact. rewrite Nat2N.id, length_app.
  case_decide; [|lia]. cbn [mbind option_bind fst snd].
  by rewrite take_app_length, drop_app_length.
Qed.

Lemma fields_put_bytes_last num bs :
  (0 < num)%N -> fields (put_bytes num bs) = Some [(num, Bytes bs)].
Proof.
  intros Hnum. rewrite <- (app_nil_r (put_bytes num bs)).
  by rewrite fields_put_bytes.
Qed.

Lemma put_bytes3_cases num s :
  (content s = [] /\ put_bytes3 num s = [])
  \/ (content s <> [] /\ put_bytes3 num s = put_bytes num (content s)).
Proof. unfold put_bytes3. destruct (content s); [left|right]; done. Qed.

Lemma CDSData_roundtrip d :
  exists d',
    unmarshal_into set_CDSData {| CodeHash := None; MetaDataHash := None |}
      (marshal_CDSData d) = Some d'
    /\ content (CodeHash d') = content (CodeHash d)
    /\ content (MetaDataHash d') = content (MetaDataHash d).
Proof.
  unfold unmarshal_into, marshal_CDSData.
  destruct (put_bytes3_cases 1 (CodeHash d)) as [[E1 ->]|[E1 ->]],
           (put_bytes3_cases 2 (MetaDataHash d)) as [[E2 ->]|[E2 ->]];
    rewrite ?app_nil_l, ?app_nil_r, ?E1, ?E2;
    rewrite ?fields_put_bytes, ?fields_put_bytes_last, ?fields_nil by lia;
    cbn; eexists; split_and!; done.
Qed.

Lemma SignedCDSData_roundtrip d :
  exists d',
    unmarshal_into set_SignedCDSData
      {| SCodeHash := None; SMetaDataHash := None; SignatureHash := None |}
      (marshal_SignedCDSData d) = Some d'
    /\ content (SCodeHash d') = content (SCodeHash d)
    /\ content (SMetaDataHash d') = content (SMetaDataHash d)
    /\ content (SignatureHash d') = content (SignatureHash d).
Proof.
  unfold unmarshal_into, marshal_SignedCDSData, put_bytes2.
  destruct d as [[c|] [m|] [g|]]; cbn [SCodeHash SMetaDataHash SignatureHash];
    rewrite ?app_nil_l, ?app_nil_r;
    rewrite ?fields_put_bytes, ?fields_put_bytes_last, ?fields_nil by lia;
    cbn; eexists; split_and!; done.
Qed.

End wire_facts.

(** The deployed collaborators satisfy what the packages rely on. *)
Lemma Reference_laws : ExternalsLaws Reference.externals.
Proof.
  split.
  - reflexivity.
  - intros d b [= <-]. apply CDSData_roundtrip.
  - intros d b [= <-]. apply SignedCDSData_roundtrip.
Qed.

(** ** SHA-256: known answers

    The digests of the empty string and of abc, as FIPS 180-4 and its
    examples give them. *)

Lemma SHA256_known_answers :
  SHA256.hex (SHA256.sum [])
  = "e3b0c44298fc1c149afbf4c8996fb92427ae41e4649b934ca495991b7852b855"
  /\ SHA256.hex (SHA256.sum (bytes "abc"))
     = "ba7816bf8f01cfea414140de5dae2223b00361a396177a9cb410ff61f20015ad".
Proof. split; by vm_compute. Qed.

(** ** The hash object *)

Lemma Sum_two_writes (H : list byte -> list byte) (a c : slice) :
  Hash.Sum (Hash.Write (Hash.Write (Hash.Reset (Hash.New H)) a) c) None
  = Go.append None (H (content a ++ content c)).
Proof. reflexivity. Qed.

Lemma content_append b d : content (Go.append b d) = content b ++ d.
Proof. by destruct b, d. Qed.

(** ** The unsigned package: what the methods return *)

Section unsigned.
Context `{ext : Externals}.
Import CDSPackage.

Lemma CDS_getCDSData_Ok cds r :
  getCDSData (Some cds) = Ok r <->
  exists H id b,
    is_Some (Marshal_CDS cds) /\ InitFactories = true /\ GetHash = Some H
    /\ chaincode_id cds = Ok id
    /\ Marshal_CDSData (CDS_digest H cds id) = Some b
    /\ r = (Some b, CDS_digest H cds id).
Proof.
  unfold getCDSData, CDS_digest. go_unfold. split.
  - destruct (Marshal_CDS cds); [|done].
    destruct InitFactories; [|done].
    destruct GetHash as [H|]; [|done].
    destruct (chaincode_id cds) as [id| |]; [|done..].
    rewrite Sum_two_writes.
    destruct (Marshal_CDSData _) as [b|] eqn:Eb; [|done].
    intros [= <-]. exists H, id, b. eauto 10.
  - intros (H & id & b & [mb ->] & -> & -> & -> & Eb & ->).
    rewrite Sum_two_writes. unfold CDS_digest in Eb.
    change (content (bytes_of_string ?s)) with (String.list_byte_of_string s).
    change (Hash.Sum (Hash.New H) ?x) with (Go.append x (H [])).
    by rewrite Eb.
Qed.

Lemma CDS_InitFromBuffer_Ok b p p' cd :
  InitFromBuffer b p = (p', Ok cd) <->
  exists ds r id,
    Unmarshal_CDS (content b) = Some ds
    /\ getCDSData (Some ds) = Ok r
    /\ chaincode_id ds = Ok id
    /\ p' = mk b (Some ds) (Some r.2)
    /\ cd = {| CDName := Name id; CDVersion := Version id; CDData := r.1 |}.
Proof.
  unfold InitFromBuffer. go_unfold. cbv beta iota. split.
  - destruct (Unmarshal_CDS (content b)) as [ds|]; [|by intros [=]].
    destruct (getCDSData (Some ds)) as [r| |] eqn:Er; [|by intros [=]..].
    destruct (chaincode_id ds) as [id| |] eqn:Ei; [|by intros [=]..].
    intros [= <- <-]. by exists ds, r, id.
  - intros (ds & r & id & -> & -> & -> & -> & ->). done.
Qed.

Lemma CDS_InitFromBuffer_not_Ok b p p' r :
  InitFromBuffer b p = (p', r) -> is_Ok r = false -> p' = empty.
Proof.
  unfold InitFromBuffer. go_unfold. cbv beta iota.
  destruct (Unmarshal_CDS (content b)) as [ds|]; [|by intros [= <- <-]].
  pose proof (CDS_getCDSData_Ok ds) as HG.
  destruct (getCDSData (Some ds)) as [x| |]; [|by intros [= <- <-]..].
  destruct (HG x) as [(H & id & bb & _ & _ & _ & -> & _) _]; [done|].
  by intros [= <- <-].
Qed.

End unsigned.

(** ** The signed package: what the methods return *)

Section signed.
Context `{ext : Externals}.
Import SignedCDSPackage.

Lemma write_endorsers_written h es :
  write_endorsers h es
  = {| Hash.digest := Hash.digest h;
       Hash.written := Hash.written h
                       ++ concat (map (fun o => content (Endorser o)) es) |}.
Proof.
  unfold write_endorsers. revert h.
  induction es as [|o es IH]; intros h; cbn [foldl map concat].
  - rewrite app_nil_r. by destruct h.
  - rewrite IH. cbn. by rewrite <- (assoc (++)).
Qed.

Lemma Sum_signature (h : Hash.t) scds :
  Hash.Sum (write_endorsers
              (Hash.Write (Hash.Reset h) (InstantiationPolicy scds))
              (OwnerEndorsements scds)) None
  = Go.append None (Hash.digest h (signature_input scds)).
Proof. by rewrite write_endorsers_written. Qed.

Lemma SCDS_getCDSData_Ok scds r :
  getCDSData (Some scds) = Ok r <->
  exists cds H id b,
    Unmarshal_CDS (content (ChaincodeDeploymentSpec_ scds)) = Some cds
    /\ InitFactories = true /\ GetHash = Some H
    /\ chaincode_id cds = Ok id
    /\ is_Some (InstantiationPolicy scds)
    /\ Marshal_SignedCDSData (SCDS_digest H cds id scds) = Some b
    /\ r = (Some b, SCDS_digest H cds id scds).
Proof.
  unfold getCDSData, SCDS_digest. go_unfold. split.
  - destruct (Unmarshal_CDS _) as [cds|] eqn:Ec; [|done].
    destruct InitFactories; [|done].
    destruct GetHash as [H|]; [|done].
    destruct (chaincode_id cds) as [id| |] eqn:Ei; [|done..].
    destruct (InstantiationPolicy scds) as [pol|] eqn:Ep; [|done].
    cbn [not_nil]. rewrite <- Ep. rewrite Sum_signature, Sum_two_writes.
    cbn [Hash.digest Hash.Write Hash.Reset Hash.New].
    destruct (Marshal_SignedCDSData _) as [b|] eqn:Eb; [|done].
    intros [= <-]. exists cds, H, id, b. split_and!; done.
  - intros (cds & H & id & b & -> & -> & -> & -> & [pol Ep] & Eb & ->).
    rewrite Ep. cbn [not_nil]. rewrite <- Ep.
    rewrite Sum_signature, Sum_two_writes.
    cbn [Hash.digest Hash.Write Hash.Reset Hash.New].
    change (content (bytes_of_string ?s)) with (String.list_byte_of_string s).
    change (Hash.Sum (Hash.New H) ?x) with (Go.append x (H [])).
    by rewrite Eb.
Qed.

Lemma SCDS_InitFromBuffer_Ok b p p' cd :
  InitFromBuffer b p = (p', Ok cd) <->
  exists e chdr sds ds r id,
    Unmarshal_Envelope (content b) = Some e
    /\ ExtractSignedCCDepSpec e = Some (chdr, sds)
    /\ Type_ chdr = HeaderType_CHAINCODE_PACKAGE
    /\ Unmarshal_CDS (content (ChaincodeDeploymentSpec_ sds)) = Some ds
    /\ getCDSData (Some sds) = Ok r
    /\ chaincode_id ds = Ok id
    /\ p' = mk b (Some ds) (Some sds) (Some e) (Some r.2)
    /\ cd = {| CDName := Name id; CDVersion := Version id; CDData := r.1 |}.
Proof.
  unfold InitFromBuffer. go_unfold. cbv beta iota. split.
  - destruct (Unmarshal_Envelope (content b)) as [e|] eqn:Ee; [|by intros [=]].
    destruct (ExtractSignedCCDepSpec e) as [[chdr sds]|] eqn:Ex; [|by intros [=]].
    cbn [fst snd].
    destruct (Z.eqb_spec (Type_ chdr) HeaderType_CHAINCODE_PACKAGE) as [Et|];
      [|by intros [=]].
    destruct (Unmarshal_CDS _) as [ds|] eqn:Ed; [|by intros [=]].
    destruct (getCDSData (Some sds)) as [r| |] eqn:Er; [|by intros [=]..].
    destruct (chaincode_id ds) as [id| |] eqn:Ei; [|by intros [=]..].
    intros [= <- <-]. by exists e, chdr, sds, ds, r, id.
  - intros (e & chdr & sds & ds & r & id & -> & -> & Et & Ed & Er & Ei & -> & ->).
    cbn [fst snd]. rewrite Et, Z.eqb_refl, Ed, Er, Ei. done.
Qed.

Lemma SCDS_InitFromBuffer_not_Ok b p p' r :
  InitFromBuffer b p = (p', r) -> is_Ok r = false -> p' = empty.
Proof.
  unfold InitFromBuffer. go_unfold. cbv beta iota.
  destruct (Unmarshal_Envelope (content b)) as [e|]; [|by intros [= <- <-]].
  destruct (ExtractSignedCCDepSpec e) as [[chdr sds]|]; [|by intros [= <- <-]].
  cbn [fst snd].
  destruct (Type_ chdr =? HeaderType_CHAINCODE_PACKAGE)%Z; [|by intros [= <- <-]].
  destruct (Unmarshal_CDS _) as [ds|] eqn:Ed; [|by intros [= <- <-]].
  pose proof (SCDS_getCDSData_Ok sds) as HG.
  destruct (getCDSData (Some sds)) as [x| |]; [|by intros [= <- <-]..].
  destruct (HG x) as [(cds & H & id & bb & Ec & _ & _ & Ei & _) _]; [done|].
  rewrite Ed in Ec. injection Ec as ->. rewrite Ei.
  by intros [= <- <-].
Qed.

End signed.

(** * The claims *)

(** ** Digest computation *)

(** For every deployment spec and every digest function: what
    [getCDSData] returns as code hash is the code package itself followed
    by the digest of the empty string; with digests of one fixed length
    and a code package that is not empty, this is never the digest of the
    code package. *)
Lemma codeHash_closed_form `{ext : Externals} (H : list byte -> list byte)
    (cds : ChaincodeDeploymentSpec) (r : slice * CDSData) (n : nat) :
  GetHash = Some H ->
  (forall x, length (H x) = n) ->
  content (CodePackage cds) <> [] ->
  CDSPackage.getCDSData (Some cds) = Ok r ->
  content (CodeHash r.2) = content (CodePackage cds) ++ H []
  /\ content (CodeHash r.2) <> H (content (CodePackage cds)).
Proof.
  intros Eh Hn Hne (H' & id & b & _ & _ & Eh' & _ & _ & ->)%CDS_getCDSData_Ok.
  rewrite Eh in Eh'. injection Eh' as <-.
  cbn [snd CDS_digest CodeHash]. rewrite content_append. split; [done|].
  intros E%(f_equal length). rewrite length_app, !Hn in E.
  destruct (content (CodePackage cds)); [done | simpl in E; lia].
Qed.

(** C2 (the code departs from the claim). The claim: both profiles set
    codeHash to the digest of the code package bytes. [hash.Sum] appends
    the digest of what was written to its argument, and nothing was
    written: for the code package abc both profiles return abc followed by
    the digest of the empty string, which is not the digest of abc. *)
Theorem C2_codeHash_appends_empty_digest :
  exists b d sb sd,
    @CDSPackage.getCDSData Reference.externals (Some Reference.mycc) = Ok (b, d)
    /\ @SignedCDSPackage.getCDSData Reference.externals
         (Some (Reference.signed_mycc (Some (bytes "policy")) [])) = Ok (sb, sd)
    /\ CodePackage Reference.mycc = Some (bytes "abc")
    /\ CodeHash d = Some (bytes "abc" ++ SHA256.sum [])
    /\ SCodeHash sd = Some (bytes "abc" ++ SHA256.sum [])
    /\ content (CodeHash d) <> SHA256.sum (bytes "abc")
    /\ content (SCodeHash sd) <> SHA256.sum (bytes "abc").
Proof.
  do 4 eexists. split_and!; [vm_compute; reflexivity..| |]; by vm_compute.
Qed.

(** C5, as stated, fails: an empty policy that is not nil is accepted, by
    the digest computation and by the initialisation from an envelope
    that carries it; and with a nil policy an embedded deployment spec
    that does not decode is reported first. *)
Lemma C5_counterexample :
  is_Ok (@SignedCDSPackage.getCDSData Reference.externals
           (Some (Reference.signed_mycc (Some []) []))) = true
  /\ is_Ok (@SignedCDSPackage.InitFromBuffer Reference.externals
              (Some (Reference.envelope_of 6 (Reference.signed_mycc (Some []) [])))
              SignedCDSPackage.empty).2 = true
  /\ @SignedCDSPackage.getCDSData Reference.externals
       (Some {| ChaincodeDeploymentSpec_ := Some ["255"%byte];
                InstantiationPolicy := None;
                OwnerEndorsements := [] |}) = Err DecodeError.
Proof. split_and!; by vm_compute. Qed.

(** C5 (amended). A signed deployment spec whose instantiation policy is
    nil is never accepted: the digest computation does not succeed on it,
    and the initialisation from a buffer whose envelope decodes and from
    which it is extracted does not succeed and leaves the package
    cleared, whatever the type of the envelope. The error depends on the
    checks that come before the policy: DecodeError when the embedded
    deployment spec does not decode; HashProviderError when it decodes
    and the hash provider is not available; PolicyMissing when it decodes
    and names a chaincode id and the hash provider is available, and then
    also from the initialisation, given an envelope of type
    CHAINCODE_PACKAGE. A policy that is empty and not nil is accepted
    under these same conditions, when the digest record can be encoded. *)
Theorem C5_nil_policy_is_rejected `{ext : Externals}
    (scds : SignedChaincodeDeploymentSpec) :
  InstantiationPolicy scds = None ->
  (forall r, SignedCDSPackage.getCDSData (Some scds) <> Ok r)
  /\ (forall b e chdr p,
        Unmarshal_Envelope (content b) = Some e ->
        ExtractSignedCCDepSpec e = Some (chdr, scds) ->
        is_Ok (SignedCDSPackage.InitFromBuffer b p).2 = false
        /\ (SignedCDSPackage.InitFromBuffer b p).1 = SignedCDSPackage.empty)
  /\ (Unmarshal_CDS (content (ChaincodeDeploymentSpec_ scds)) = None ->
      SignedCDSPackage.getCDSData (Some scds) = Err DecodeError)
  /\ (forall cds,
        Unmarshal_CDS (content (ChaincodeDeploymentSpec_ scds)) = Some cds ->
        InitFactories = false \/ GetHash = None ->
        SignedCDSPackage.getCDSData (Some scds) = Err HashProviderError)
  /\ (forall cds H id,
        Unmarshal_CDS (content (ChaincodeDeploymentSpec_ scds)) = Some cds ->
        InitFactories = true -> GetHash = Some H ->
        chaincode_id cds = Ok id ->
        SignedCDSPackage.getCDSData (Some scds) = Err PolicyMissing
        /\ forall b e chdr p,
             Unmarshal_Envelope (content b) = Some e ->
             ExtractSignedCCDepSpec e = Some (chdr, scds) ->
             Type_ chdr = HeaderType_CHAINCODE_PACKAGE ->
             SignedCDSPackage.InitFromBuffer b p
             = (SignedCDSPackage.empty, Err PolicyMissing))
  /\ (forall scds' cds H id sb,
        InstantiationPolicy scds' = Some [] ->
        Unmarshal_CDS (content (ChaincodeDeploymentSpec_ scds')) = Some cds ->
        InitFactories = true -> GetHash = Some H ->
        chaincode_id cds = Ok id ->
        Marshal_SignedCDSData (SCDS_digest H cds id scds') = Some sb ->
        SignedCDSPackage.getCDSData (Some scds')
        = Ok (Some sb, SCDS_digest H cds id scds')).
Proof.
  intros Ep.
  assert (forall r, SignedCDSPackage.getCDSData (Some scds) <> Ok r) as Hnever.
  { intros r (? & ? & ? & ? & _ & _ & _ & _ & [pol Hp] & _)%SCDS_getCDSData_Ok.
    congruence. }
  split_and!.
  - exact Hnever.
  - intros b e chdr p Ee Ex.
    destruct (SignedCDSPackage.InitFromBuffer b p) as [p' r] eqn:E. cbn [fst snd].
    assert (is_Ok r = false) as Hr.
    { destruct r as [cd| |]; [|done..].
      apply SCDS_InitFromBuffer_Ok in E
        as (e' & chdr' & sds & ds & r & id & Ee' & Ex' & _ & _ & Er & _).
      rewrite Ee in Ee'. injection Ee' as <-.
      rewrite Ex in Ex'. injection Ex' as <- <-. by apply Hnever in Er. }
    split; [done|]. by eapply SCDS_InitFromBuffer_not_Ok.
  - intros Ec. unfold SignedCDSPackage.getCDSData. go_unfold. by rewrite Ec.
  - intros cds Ec Hh. unfold SignedCDSPackage.getCDSData. go_unfold. rewrite Ec.
    destruct Hh as [-> | ->]; [done|]. by destruct InitFactories.
  - intros cds H id Ec Ef Eh Ei.
    assert (SignedCDSPackage.getCDSData (Some scds) = Err PolicyMissing) as EG.
    { unfold SignedCDSPackage.getCDSData. go_unfold.
      by rewrite Ec, Ef, Eh, Ei, Ep. }
    split; [done|]. intros b e chdr p Ee Ex Et.
    unfold SignedCDSPackage.InitFromBuffer. go_unfold. cbv beta iota.
    rewrite Ee, Ex. cbn [fst snd]. by rewrite Et, Z.eqb_refl, Ec, EG.
  - intros scds' cds H id sb Ep' Ec Ef Eh Ei Eb.
    apply SCDS_getCDSData_Ok. exists cds, H, id, sb.
    rewrite Ep'. split_and!; by eauto.
Qed.

(** C5 (amended), on the signed package of mycc with no policy, in an
    envelope of type CHAINCODE_PACKAGE and in one of another type. *)
Lemma C5_nil_policy_witness :
  let scds := Reference.signed_mycc None [Reference.endorsement "alice"] in
  @SignedCDSPackage.getCDSData Reference.externals (Some scds) = Err PolicyMissing
  /\ @SignedCDSPackage.InitFromBuffer Reference.externals
       (Some (Reference.envelope_of 6 scds)) SignedCDSPackage.empty
     = (SignedCDSPackage.empty, Err PolicyMissing)
  /\ is_Ok (@SignedCDSPackage.InitFromBuffer Reference.externals
              (Some (Reference.envelope_of 3 scds)) Reference.signed_init.1).2 = false
  /\ (@SignedCDSPackage.InitFromBuffer Reference.externals
        (Some (Reference.envelope_of 3 scds)) Reference.signed_init.1).1
     = SignedCDSPackage.empty.
Proof.
  cbv zeta.
  destruct (@C5_nil_policy_is_rejected Reference.externals
    (Reference.signed_mycc None [Reference.endorsement "alice"]) eq_refl)
    as (_ & HI & _ & _ & HP & _).
  destruct (HP Reference.mycc SHA256.sum
              {| Path := ""; Name := "mycc"; Version := "1.0" |}
              eq_refl eq_refl eq_refl eq_refl) as [HG HB].
  split; [exact HG|]. split.
  - eapply HB; [vm_compute; reflexivity | vm_compute; reflexivity | reflexivity].
  - eapply HI; [vm_compute; reflexivity | vm_compute; reflexivity].
Defined.

Lemma append_None_inj (x y : list byte) :
  Go.append None x = Go.append None y <-> x = y.
Proof. split; [|by intros ->]. destruct x, y; cbn; congruence. Qed.

(** C6. With the hash provider available, a deployment spec that names a
    chaincode id and a signed spec that embeds it and carries a policy:
    both digest computations return a record whose metadata hash is what
    [Sum] gives for a freshly reset hash object into which the name and
    then the version were written, that is H(name || version), nothing
    between the two. *)
Theorem C6_metadataHash `{ext : Externals}
    (H : list byte -> list byte) (cds : ChaincodeDeploymentSpec) (id : ChaincodeID)
    (scds : SignedChaincodeDeploymentSpec) (mb b sb : list byte) :
  InitFactories = true -> GetHash = Some H ->
  chaincode_id cds = Ok id ->
  Marshal_CDS cds = Some mb ->
  Marshal_CDSData (CDS_digest H cds id) = Some b ->
  Unmarshal_CDS (content (ChaincodeDeploymentSpec_ scds)) = Some cds ->
  is_Some (InstantiationPolicy scds) ->
  Marshal_SignedCDSData (SCDS_digest H cds id scds) = Some sb ->
  let h := Hash.Write (Hash.Write (Hash.Reset (Hash.New H))
                         (bytes_of_string (Name id)))
             (bytes_of_string (Version id)) in
  exists d sd,
    CDSPackage.getCDSData (Some cds) = Ok (Some b, d)
    /\ SignedCDSPackage.getCDSData (Some scds) = Ok (Some sb, sd)
    /\ MetaDataHash d = Hash.Sum h None
    /\ SMetaDataHash sd = Hash.Sum h None
    /\ Hash.written h = bytes (Name id) ++ bytes (Version id)
    /\ content (MetaDataHash d) = H (bytes (Name id) ++ bytes (Version id))
    /\ content (SMetaDataHash sd) = H (bytes (Name id) ++ bytes (Version id)).
Proof.
  intros Ef Eh Ei Em Eb Ec Ep Esb h.
  exists (CDS_digest H cds id), (SCDS_digest H cds id scds). split_and!.
  - apply CDS_getCDSData_Ok. exists H, id, b. eauto 10.
  - apply SCDS_getCDSData_Ok. exists cds, H, id, sb. split_and!; done.
  - done.
  - done.
  - done.
  - cbn [CDS_digest MetaDataHash]. by rewrite content_append.
  - cbn [SCDS_digest SMetaDataHash]. by rewrite content_append.
Qed.

(** C6, on the deployment spec mycc and a signed package of it. *)
Lemma C6_metadataHash_witness :
  let id := {| Path := ""; Name := "mycc"; Version := "1.0" |} in
  let scds := Reference.signed_mycc (Some (bytes "policy")) [] in
  let b := Proto.marshal_CDSData (CDS_digest SHA256.sum Reference.mycc id) in
  let sb := Proto.marshal_SignedCDSData
              (SCDS_digest SHA256.sum Reference.mycc id scds) in
  let h := Hash.Write (Hash.Write (Hash.Reset (Hash.New SHA256.sum))
                         (bytes_of_string "mycc")) (bytes_of_string "1.0") in
  exists d sd,
    @CDSPackage.getCDSData Reference.externals (Some Reference.mycc) = Ok (Some b, d)
    /\ @SignedCDSPackage.getCDSData Reference.externals (Some scds) = Ok (Some sb, sd)
    /\ MetaDataHash d = Hash.Sum h None
    /\ SMetaDataHash sd = Hash.Sum h None
    /\ Hash.written h = bytes "mycc" ++ bytes "1.0"
    /\ content (MetaDataHash d) = SHA256.sum (bytes "mycc" ++ bytes "1.0")
    /\ content (SMetaDataHash sd) = SHA256.sum (bytes "mycc" ++ bytes "1.0").
Proof.
  exact (@C6_metadataHash Reference.externals SHA256.sum Reference.mycc
           {| Path := ""; Name := "mycc"; Version := "1.0" |}
           (Reference.signed_mycc (Some (bytes "policy")) [])
           Reference.mycc_bytes _ _
           eq_refl eq_refl eq_refl eq_refl eq_refl eq_refl
           (ex_intro _ _ eq_refl) eq_refl).
Defined.

(** C7, as stated, fails: the endorsers are written one after the other
    with nothing between them, so the endorsements a, aa and aa, a, two
    orders of the same endorsements, feed the same bytes to the hash and
    get the same digest record. *)
Lemma C7_counterexample :
  let es1 := [Reference.endorsement "a"; Reference.endorsement "aa"] in
  let es2 := [Reference.endorsement "aa"; Reference.endorsement "a"] in
  let pol := Some (bytes "policy") in
  es1 ≡ₚ es2 /\ es1 <> es2
  /\ exists b d,
       @SignedCDSPackage.getCDSData Reference.externals
         (Some (Reference.signed_mycc pol es1)) = Ok (b, d)
       /\ @SignedCDSPackage.getCDSData Reference.externals
            (Some (Reference.signed_mycc pol es2)) = Ok (b, d).
Proof.
  cbv zeta. split_and!.
  - apply Permutation_swap.
  - discriminate.
  - do 2 eexists. split; vm_compute; reflexivity.
Qed.

(** C7 (amended). With the hash provider available and two signed specs
    that embed the same deployment spec and carry a policy: the signature
    hash is H of the policy bytes followed by the endorsers in the order
    of the list; two specs get the same signature hash exactly when H
    agrees on these byte strings, and always when the strings are equal. *)
Theorem C7_signatureHash `{ext : Externals}
    (H : list byte -> list byte) (cds : ChaincodeDeploymentSpec) (id : ChaincodeID)
    (scds scds' : SignedChaincodeDeploymentSpec) (sb sb' : list byte) :
  InitFactories = true -> GetHash = Some H ->
  chaincode_id cds = Ok id ->
  Unmarshal_CDS (content (ChaincodeDeploymentSpec_ scds)) = Some cds ->
  Unmarshal_CDS (content (ChaincodeDeploymentSpec_ scds')) = Some cds ->
  is_Some (InstantiationPolicy scds) ->
  is_Some (InstantiationPolicy scds') ->
  Marshal_SignedCDSData (SCDS_digest H cds id scds) = Some sb ->
  Marshal_SignedCDSData (SCDS_digest H cds id scds') = Some sb' ->
  exists sd sd',
    SignedCDSPackage.getCDSData (Some scds) = Ok (Some sb, sd)
    /\ SignedCDSPackage.getCDSData (Some scds') = Ok (Some sb', sd')
    /\ content (SignatureHash sd)
       = H (content (InstantiationPolicy scds)
            ++ concat (map (fun o => content (Endorser o)) (OwnerEndorsements scds)))
    /\ (SignatureHash sd = SignatureHash sd'
        <-> H (signature_input scds) = H (signature_input scds'))
    /\ (signature_input scds = signature_input scds'
        -> SignatureHash sd = SignatureHash sd').
Proof.
  intros Ef Eh Ei Ec Ec' Ep Ep' Eb Eb'.
  exists (SCDS_digest H cds id scds), (SCDS_digest H cds id scds'). split_and!.
  - apply SCDS_getCDSData_Ok. exists cds, H, id, sb. split_and!; done.
  - apply SCDS_getCDSData_Ok. exists cds, H, id, sb'. split_and!; done.
  - cbn [SCDS_digest SignatureHash]. by rewrite content_append.
  - cbn [SCDS_digest SignatureHash]. apply append_None_inj.
  - cbn [SCDS_digest SignatureHash]. by intros ->.
Qed.

(** C7 (amended), on two signed packages of mycc with the endorsements of
    alice and bob in the two orders. *)
Lemma C7_signatureHash_witness :
  let id := {| Path := ""; Name := "mycc"; Version := "1.0" |} in
  let scds := Reference.signed_mycc (Some (bytes "policy"))
                [Reference.endorsement "alice"; Reference.endorsement "bob"] in
  let scds' := Reference.signed_mycc (Some (bytes "policy"))
                 [Reference.endorsement "bob"; Reference.endorsement "alice"] in
  let sb := Proto.marshal_SignedCDSData
              (SCDS_digest SHA256.sum Reference.mycc id scds) in
  let sb' := Proto.marshal_SignedCDSData
               (SCDS_digest SHA256.sum Reference.mycc id scds') in
  exists sd sd',
    @SignedCDSPackage.getCDSData Reference.externals (Some scds) = Ok (Some sb, sd)
    /\ @SignedCDSPackage.getCDSData Reference.externals (Some scds') = Ok (Some sb', sd')
    /\ content (SignatureHash sd) = SHA256.sum (bytes "policyalicebob")
    /\ SignatureHash sd <> SignatureHash sd'.
Proof.
  cbv zeta.
  destruct (@C7_signatureHash Reference.externals SHA256.sum Reference.mycc
              {| Path := ""; Name := "mycc"; Version := "1.0" |}
              (Reference.signed_mycc (Some (bytes "policy"))
                 [Reference.endorsement "alice"; Reference.endorsement "bob"])
              (Reference.signed_mycc (Some (bytes "policy"))
                 [Reference.endorsement "bob"; Reference.endorsement "alice"])
              _ _
              eq_refl eq_refl eq_refl eq_refl eq_refl
              (ex_intro _ _ eq_refl) (ex_intro _ _ eq_refl) eq_refl eq_refl)
    as (sd & sd' & E1 & E2 & E3 & E4 & _).
  exists sd, sd'. split_and!; [exact E1 | exact E2 | exact E3 |].
  intros E. apply E4 in E. vm_compute in E. discriminate E.
Defined.

(** ** Validation and initialisation: helper facts *)

Section validation.
Context `{ext : Externals}.

Lemma CDSData_Equals_same d o :
  CDSData_Equals (Some d) (Some o) = Ok (bool_decide (CDSData_same d o)).
Proof.
  unfold CDSData_Equals, CDSData_same, bytes_Equal. cbn.
  by rewrite <- bool_decide_and.
Qed.

Lemma SignedCDSData_Equals_same d o :
  SignedCDSData_Equals (Some d) (Some o) = Ok (bool_decide (SignedCDSData_same d o)).
Proof.
  unfold SignedCDSData_Equals, SignedCDSData_same, bytes_Equal. cbn.
  rewrite <- !bool_decide_and. f_equal. apply bool_decide_ext. tauto.
Qed.

(** [ValidateCC] on an initialised package, guard by guard. *)
Lemma CDS_ValidateCC_initialized p ds id d cd :
  CDS_initialized p ds id d ->
  CDSPackage.ValidateCC p (Some cd) =
    if negb (String.eqb (CDName cd) (Name id))
       || negb (String.eqb (CDVersion cd) (Version id))
    then Err IdentityMismatch
    else match Unmarshal_CDSData (content (CDData cd)) with
         | None => Err DecodeError
         | Some o => if decide (CDSData_same d o) then Ok ds else Err DigestMismatch
         end.
Proof.
  intros (Eds & Ed & Ei). unfold CDSPackage.ValidateCC. go_unfold.
  rewrite Eds, Ed. cbn [not_nil negb deref]. rewrite Ei.
  destruct (_ || _); [done|].
  destruct (Unmarshal_CDSData _) as [o|]; [|done].
  rewrite CDSData_Equals_same. by case_bool_decide; case_decide.
Qed.

Lemma SCDS_ValidateCC_initialized p ds id d cd :
  SCDS_initialized p ds id d ->
  SignedCDSPackage.ValidateCC p (Some cd) =
    if negb (String.eqb (CDName cd) (Name id))
       || negb (String.eqb (CDVersion cd) (Version id))
    then Err IdentityMismatch
    else match Unmarshal_SignedCDSData (content (CDData cd)) with
         | None => Err DecodeError
         | Some o =>
             if decide (SignedCDSData_same d o) then Ok ds else Err DigestMismatch
         end.
Proof.
  intros (Eds & (sds & Es & [inner Einner]) & _ & Ed & Ei).
  unfold SignedCDSPackage.ValidateCC. go_unfold.
  rewrite Es, Eds, Ed. cbn [not_nil negb deref]. rewrite Einner.
  cbn [not_nil negb]. rewrite Ei.
  destruct (_ || _); [done|].
  destruct (Unmarshal_SignedCDSData _) as [o|]; [|done].
  rewrite SignedCDSData_Equals_same. by case_bool_decide; case_decide.
Qed.

Lemma identity_check (a b c d : string) :
  negb (String.eqb a b) || negb (String.eqb c d) = true <-> a <> b \/ c <> d.
Proof.
  destruct (String.eqb_spec a b), (String.eqb_spec c d); cbn; intuition congruence.
Qed.

Lemma chaincode_id_zero :
  chaincode_id {| ChaincodeSpec_ := None; CodePackage := None |}
  = Panic (PanicNilDeref "ChaincodeSpec").
Proof. reflexivity. Qed.

Lemma CDS_InitFromBuffer_initialized b p p' cd :
  CDSPackage.InitFromBuffer b p = (p', Ok cd) ->
  exists ds id d db,
    Unmarshal_CDS (content b) = Some ds
    /\ CDS_initialized p' ds id d
    /\ CDSPackage.buf p' = b
    /\ Marshal_CDSData d = Some db
    /\ cd = {| CDName := Name id; CDVersion := Version id; CDData := Some db |}.
Proof.
  intros (ds & r & id & Eu & Er & Ei & -> & ->)%CDS_InitFromBuffer_Ok.
  apply CDS_getCDSData_Ok in Er as (H & id' & db & _ & _ & _ & Ei' & Eb & ->).
  rewrite Ei in Ei'. injection Ei' as <-.
  by exists ds, id, (CDS_digest H ds id), db.
Qed.

Context {laws : ExternalsLaws ext}.

Lemma SCDS_InitFromBuffer_initialized b p p' cd :
  SignedCDSPackage.InitFromBuffer b p = (p', Ok cd) ->
  exists e chdr sds ds id d db,
    Unmarshal_Envelope (content b) = Some e
    /\ ExtractSignedCCDepSpec e = Some (chdr, sds)
    /\ Unmarshal_CDS (content (ChaincodeDeploymentSpec_ sds)) = Some ds
    /\ SCDS_initialized p' ds id d
    /\ SignedCDSPackage.buf p' = b
    /\ Marshal_SignedCDSData d = Some db
    /\ cd = {| CDName := Name id; CDVersion := Version id; CDData := Some db |}.
Proof using laws.
  intros (e & chdr & sds & ds & r & id & Ee & Ex & Et & Eu & Er & Ei & -> & ->)
    %SCDS_InitFromBuffer_Ok.
  apply SCDS_getCDSData_Ok in Er as (cds & H & id' & db & Ec & _ & _ & Ei' & Ep & Eb & ->).
  rewrite Eu in Ec. injection Ec as <-.
  rewrite Ei in Ei'. injection Ei' as <-.
  exists e, chdr, sds, ds, id, (SCDS_digest H ds id sds), db.
  split_and!; try done.
  assert (is_Some (ChaincodeDeploymentSpec_ sds)) as Hinner.
  { destruct (ChaincodeDeploymentSpec_ sds) as [l|]; [done|]. cbn in Eu.
    rewrite Unmarshal_CDS_empty in Eu. injection Eu as <-.
    by rewrite chaincode_id_zero in Ei. }
  split_and!; try done; cbn; eauto.
Qed.

End validation.

(** ** Validation *)

(** The reference packages are initialised. *)
Lemma Reference_unsigned_initialized :
  CDS_initialized Reference.unsigned_init.1 Reference.mycc Reference.mycc_id
    (CDS_digest SHA256.sum Reference.mycc Reference.mycc_id).
Proof. split_and!; by vm_compute. Qed.

Lemma Reference_signed_initialized :
  SCDS_initialized Reference.signed_init.1 Reference.mycc Reference.mycc_id
    (SCDS_digest SHA256.sum Reference.mycc Reference.mycc_id
       Reference.signed_alice_bob).
Proof.
  split_and!; vm_compute; by eauto.
Qed.

(** C1. Given a codec that decodes an encoded digest record to the same
    hashes: whenever [InitFromBuffer] succeeds, [ValidateCC] applied to
    the very [ChaincodeData] it returned succeeds and returns the
    deployment spec decoded from the buffer (unsigned package) or from
    the signed spec of the buffer's envelope (signed package). *)
Theorem C1_round_trip `{ext : Externals} (laws : ExternalsLaws ext) :
  (forall b p p' cd,
     CDSPackage.InitFromBuffer b p = (p', Ok cd) ->
     exists ds,
       Unmarshal_CDS (content b) = Some ds
       /\ CDSPackage.ValidateCC p' (Some cd) = Ok ds)
  /\ (forall b p p' cd,
        SignedCDSPackage.InitFromBuffer b p = (p', Ok cd) ->
        exists e chdr sds ds,
          Unmarshal_Envelope (content b) = Some e
          /\ ExtractSignedCCDepSpec e = Some (chdr, sds)
          /\ Unmarshal_CDS (content (ChaincodeDeploymentSpec_ sds)) = Some ds
          /\ SignedCDSPackage.ValidateCC p' (Some cd) = Ok ds).
Proof.
  split.
  - intros b p p' cd (ds & id & d & db & Eu & Hi & _ & Eb & ->)
      %CDS_InitFromBuffer_initialized.
    exists ds. split; [done|].
    rewrite (CDS_ValidateCC_initialized _ _ _ _ _ Hi). cbn.
    rewrite !String.eqb_refl. cbn.
    destruct (CDSData_codec _ _ Eb) as (d' & -> & E1 & E2).
    by rewrite decide_True.
  - intros b p p' cd (e & chdr & sds & ds & id & d & db & Ee & Ex & Eu & Hi & _ & Eb & ->)
      %SCDS_InitFromBuffer_initialized.
    exists e, chdr, sds, ds. split_and!; try done.
    rewrite (SCDS_ValidateCC_initialized _ _ _ _ _ Hi). cbn.
    rewrite !String.eqb_refl. cbn.
    destruct (SignedCDSData_codec _ _ Eb) as (d' & -> & E1 & E2 & E3).
    by rewrite decide_True.
Qed.

(** C1, on the two packages of mycc. *)
Lemma C1_round_trip_witness :
  (exists p' cd,
     Reference.unsigned_init = (p', Ok cd)
     /\ @Unmarshal_CDS Reference.externals Reference.mycc_bytes = Some Reference.mycc
     /\ @CDSPackage.ValidateCC Reference.externals p' (Some cd) = Ok Reference.mycc)
  /\ (exists p' cd,
        Reference.signed_init = (p', Ok cd)
        /\ @SignedCDSPackage.ValidateCC Reference.externals p' (Some cd)
           = Ok Reference.mycc).
Proof.
  destruct (@C1_round_trip Reference.externals Reference_laws) as [HU HS].
  split.
  - destruct Reference.unsigned_init as [p' [cd| |]] eqn:E;
      [|vm_compute in E; discriminate E..].
    exists p', cd. split; [reflexivity|].
    destruct (HU _ _ _ _ E) as (ds & Eu & Ev).
    vm_compute in Eu. injection Eu as <-. split; [by vm_compute | exact Ev].
  - destruct Reference.signed_init as [p' [cd| |]] eqn:E;
      [|vm_compute in E; discriminate E..].
    exists p', cd. split; [reflexivity|].
    destruct (HS _ _ _ _ E) as (e & chdr & sds & ds & Ee & Ex & Eu & Ev).
    vm_compute in Ee. injection Ee as <-.
    vm_compute in Ex. injection Ex as <- <-.
    vm_compute in Eu. injection Eu as <-. exact Ev.
Defined.

(** C3. For an initialised package of either variant and a [ChaincodeData]
    with the package's name and version whose data decodes to a digest
    record: [ValidateCC] succeeds when every field of the two records
    holds the same bytes and fails with DigestMismatch otherwise; [Equals]
    is that comparison, and a nil record is never equal. *)
Theorem C3_digest_comparison `{ext : Externals}
    (p : CDSPackage.t) (sp : SignedCDSPackage.t)
    (ds sds : ChaincodeDeploymentSpec) (id sid : ChaincodeID)
    (d : CDSData) (sd : SignedCDSData) (cd scd : ChaincodeData)
    (o : CDSData) (so : SignedCDSData) :
  CDS_initialized p ds id d ->
  SCDS_initialized sp sds sid sd ->
  CDName cd = Name id -> CDVersion cd = Version id ->
  CDName scd = Name sid -> CDVersion scd = Version sid ->
  Unmarshal_CDSData (content (CDData cd)) = Some o ->
  Unmarshal_SignedCDSData (content (CDData scd)) = Some so ->
  CDSPackage.ValidateCC p (Some cd)
  = (if decide (CDSData_same d o) then Ok ds else Err DigestMismatch)
  /\ SignedCDSPackage.ValidateCC sp (Some scd)
     = (if decide (SignedCDSData_same sd so) then Ok sds else Err DigestMismatch)
  /\ CDSData_Equals (Some d) (Some o) = Ok (bool_decide (CDSData_same d o))
  /\ SignedCDSData_Equals (Some sd) (Some so)
     = Ok (bool_decide (SignedCDSData_same sd so))
  /\ CDSData_Equals (Some d) None = Ok false
  /\ SignedCDSData_Equals (Some sd) None = Ok false.
Proof.
  intros Hp Hsp En Ev Esn Esv Eo Eso. split_and!.
  - rewrite (CDS_ValidateCC_initialized _ _ _ _ _ Hp), En, Ev, Eo.
    by rewrite !String.eqb_refl.
  - rewrite (SCDS_ValidateCC_initialized _ _ _ _ _ Hsp), Esn, Esv, Eso.
    by rewrite !String.eqb_refl.
  - apply CDSData_Equals_same.
  - apply SignedCDSData_Equals_same.
  - done.
  - done.
Qed.

(** C3, on the two packages of mycc and digest records with one hash
    replaced. *)
Lemma C3_digest_comparison_witness :
  @CDSPackage.ValidateCC Reference.externals Reference.unsigned_init.1
    (Some {| CDName := "mycc"; CDVersion := "1.0";
             CDData := Some (Proto.marshal_CDSData tampered_digest) |})
  = Err DigestMismatch
  /\ @SignedCDSPackage.ValidateCC Reference.externals Reference.signed_init.1
       (Some {| CDName := "mycc"; CDVersion := "1.0";
                CDData := Some (Proto.marshal_SignedCDSData signed_tampered_digest) |})
     = Err DigestMismatch.
Proof.
  destruct (@C3_digest_comparison Reference.externals
              Reference.unsigned_init.1 Reference.signed_init.1
              Reference.mycc Reference.mycc Reference.mycc_id Reference.mycc_id
              _ _
              {| CDName := "mycc"; CDVersion := "1.0";
                 CDData := Some (Proto.marshal_CDSData tampered_digest) |}
              {| CDName := "mycc"; CDVersion := "1.0";
                 CDData := Some (Proto.marshal_SignedCDSData signed_tampered_digest) |}
              tampered_digest signed_tampered_digest
              Reference_unsigned_initialized Reference_signed_initialized
              eq_refl eq_refl eq_refl eq_refl)
    as (E1 & E2 & _); [by vm_compute..|].
  rewrite E1, E2. split; by vm_compute.
Defined.

(** C9. For an initialised package of either variant, whatever the codec
    and whatever the data of the [ChaincodeData]: [ValidateCC] fails with
    IdentityMismatch exactly when the name or the version differs from the
    package's, so the data is decoded and compared only when both match. *)
Theorem C9_identity_check_first
    (p : CDSPackage.t) (sp : SignedCDSPackage.t)
    (ds sds : ChaincodeDeploymentSpec) (id sid : ChaincodeID)
    (d : CDSData) (sd : SignedCDSData) :
  CDS_initialized p ds id d ->
  SCDS_initialized sp sds sid sd ->
  forall (ext : Externals) (cd : ChaincodeData),
    (CDName cd <> Name id \/ CDVersion cd <> Version id
     <-> CDSPackage.ValidateCC p (Some cd) = Err IdentityMismatch)
    /\ (CDName cd <> Name sid \/ CDVersion cd <> Version sid
        <-> SignedCDSPackage.ValidateCC sp (Some cd) = Err IdentityMismatch).
Proof.
  intros Hp Hsp ext cd. split.
  - rewrite (CDS_ValidateCC_initialized _ _ _ _ _ Hp), <- identity_check.
    destruct (_ || _); [done|]. split; [done|].
    destruct (Unmarshal_CDSData _); [by case_decide | done].
  - rewrite (SCDS_ValidateCC_initialized _ _ _ _ _ Hsp), <- identity_check.
    destruct (_ || _); [done|]. split; [done|].
    destruct (Unmarshal_SignedCDSData _); [by case_decide | done].
Qed.

(** C9, on the two packages of mycc, version 1.0, asked for version 1.1
    with data that does not decode. *)
Lemma C9_identity_check_first_witness :
  let cd := {| CDName := "mycc"; CDVersion := "1.1";
               CDData := Some ["255"%byte] |} in
  @Unmarshal_CDSData Reference.externals (content (CDData cd)) = None
  /\ @CDSPackage.ValidateCC Reference.externals Reference.unsigned_init.1 (Some cd)
     = Err IdentityMismatch
  /\ @SignedCDSPackage.ValidateCC Reference.externals Reference.signed_init.1 (Some cd)
     = Err IdentityMismatch.
Proof.
  cbv zeta.
  destruct (C9_identity_check_first _ _ _ _ _ _ _ _
              Reference_unsigned_initialized Reference_signed_initialized
              Reference.externals
              {| CDName := "mycc"; CDVersion := "1.1";
                 CDData := Some ["255"%byte] |}) as [[HU _] [HS _]].
  split_and!.
  - by vm_compute.
  - apply HU. right. discriminate.
  - apply HS. right. discriminate.
Defined.

(** ** Installation *)

Section install.
Context `{ext : Externals}.

Lemma Stat_ok_spec (fs : FS.t) path : FS.Stat_ok fs path = true <-> is_Some (fs !! path).
Proof. unfold FS.Stat_ok. by rewrite bool_decide_eq_true. Qed.

Lemma WriteFile_Ok o path b (fs fs' : FS.t) :
  FS.WriteFile o path b fs = (fs', Ok tt) ->
  o = FS.IoOk /\ fs' = <[path := content b]> fs.
Proof. destruct o; cbn; go_unfold; cbn; intros [=]; by subst. Qed.

(** [PutChaincodeToFS] on an initialised package with a buffer. *)
Lemma CDS_PutChaincodeToFS_initialized p ds id d o (fs : FS.t) :
  CDS_initialized p ds id d -> is_Some (CDSPackage.buf p) ->
  CDSPackage.PutChaincodeToFS p o fs =
    let path := FS.install_path (Name id) (Version id) in
    if FS.Stat_ok fs path then (fs, Err (AlreadyExists path))
    else FS.WriteFile o path (CDSPackage.buf p) fs.
Proof.
  intros (Eds & Ed & Ei) [b Eb]. unfold CDSPackage.PutChaincodeToFS. go_unfold.
  rewrite Eb, Eds, Ed. cbn [not_nil deref]. rewrite Ei. cbv zeta.
  by destruct (FS.Stat_ok _ _).
Qed.

Lemma SCDS_PutChaincodeToFS_initialized p ds id d o (fs : FS.t) :
  SCDS_initialized p ds id d -> is_Some (SignedCDSPackage.buf p) ->
  SignedCDSPackage.PutChaincodeToFS p o fs =
    let path := FS.install_path (Name id) (Version id) in
    if FS.Stat_ok fs path then (fs, Err (AlreadyExists path))
    else FS.WriteFile o path (SignedCDSPackage.buf p) fs.
Proof.
  intros (Eds & (sds & Es & _) & [e Ee] & Ed & Ei) [b Eb].
  unfold SignedCDSPackage.PutChaincodeToFS. go_unfold.
  rewrite Eb, Eds, Es, Ee, Ed. cbn [not_nil deref andb]. rewrite Ei. cbv zeta.
  by destruct (FS.Stat_ok _ _).
Qed.

End install.

(** C8, as stated, fails: of two calls on the same initialised package
    the second can succeed. On an empty store, a first call whose file
    cannot be opened fails and leaves the store empty, and a second call
    then succeeds and writes the buffer. *)
Lemma C8_counterexample :
  let path := "/var/hyperledger/production/chaincodes/mycc.1.0" in
  let p := Reference.unsigned_init.1 in
  let sp := Reference.signed_init.1 in
  @CDSPackage.PutChaincodeToFS Reference.externals p FS.IoOpenFails ∅
  = (∅, Err StorageError)
  /\ @CDSPackage.PutChaincodeToFS Reference.externals p FS.IoOk ∅
     = (<[path := Reference.mycc_bytes]> ∅, Ok tt)
  /\ @SignedCDSPackage.PutChaincodeToFS Reference.externals sp FS.IoOpenFails ∅
     = (∅, Err StorageError)
  /\ @SignedCDSPackage.PutChaincodeToFS Reference.externals sp FS.IoOk ∅
     = (<[path := Reference.envelope_of 6 Reference.signed_alice_bob]> ∅, Ok tt).
Proof.
  cbv zeta.
  assert (is_Some (CDSPackage.buf Reference.unsigned_init.1)) as Hb
    by (vm_compute; eauto).
  assert (is_Some (SignedCDSPackage.buf Reference.signed_init.1)) as Hsb
    by (vm_compute; eauto).
  rewrite !(CDS_PutChaincodeToFS_initialized _ _ _ _ _ _
              Reference_unsigned_initialized Hb),
    !(SCDS_PutChaincodeToFS_initialized _ _ _ _ _ _
        Reference_signed_initialized Hsb).
  split_and!; reflexivity.
Qed.

(** C8 (amended). An initialised package of either variant that holds its buffer:
    when a file exists at the path derived from the name and the version,
    [PutChaincodeToFS] fails with AlreadyExists and leaves the store as it
    is, whatever the file holds; and when a call succeeds it has written
    the buffer there, so the next call fails with AlreadyExists. *)
Theorem C8_write_once `{ext : Externals}
    (p : CDSPackage.t) (sp : SignedCDSPackage.t)
    (ds sds : ChaincodeDeploymentSpec) (id sid : ChaincodeID)
    (d : CDSData) (sd : SignedCDSData) :
  CDS_initialized p ds id d -> is_Some (CDSPackage.buf p) ->
  SCDS_initialized sp sds sid sd -> is_Some (SignedCDSPackage.buf sp) ->
  let path := FS.install_path (Name id) (Version id) in
  let spath := FS.install_path (Name sid) (Version sid) in
  (forall (fs : FS.t) o,
     is_Some (fs !! path) ->
     CDSPackage.PutChaincodeToFS p o fs = (fs, Err (AlreadyExists path)))
  /\ (forall (fs fs' : FS.t) o o',
        CDSPackage.PutChaincodeToFS p o fs = (fs', Ok tt) ->
        fs' = <[path := content (CDSPackage.buf p)]> fs
        /\ CDSPackage.PutChaincodeToFS p o' fs' = (fs', Err (AlreadyExists path)))
  /\ (forall (fs : FS.t) o,
        is_Some (fs !! spath) ->
        SignedCDSPackage.PutChaincodeToFS sp o fs = (fs, Err (AlreadyExists spath)))
  /\ (forall (fs fs' : FS.t) o o',
        SignedCDSPackage.PutChaincodeToFS sp o fs = (fs', Ok tt) ->
        fs' = <[spath := content (SignedCDSPackage.buf sp)]> fs
        /\ SignedCDSPackage.PutChaincodeToFS sp o' fs' = (fs', Err (AlreadyExists spath))).
Proof.
  intros Hp Hb Hsp Hsb path spath. split_and!.
  - intros fs o Hex%Stat_ok_spec.
    rewrite (CDS_PutChaincodeToFS_initialized _ _ _ _ _ _ Hp Hb). cbv zeta.
    fold path. by rewrite Hex.
  - intros fs fs' o o'.
    rewrite !(CDS_PutChaincodeToFS_initialized _ _ _ _ _ _ Hp Hb). cbv zeta.
    fold path. destruct (FS.Stat_ok fs path); [by intros [=]|].
    intros [-> ->]%WriteFile_Ok. split; [done|].
    assert (FS.Stat_ok (<[path:=content (CDSPackage.buf p)]> fs) path = true) as ->; [|done].
    apply Stat_ok_spec. rewrite lookup_insert_eq. by eexists.
  - intros fs o Hex%Stat_ok_spec.
    rewrite (SCDS_PutChaincodeToFS_initialized _ _ _ _ _ _ Hsp Hsb). cbv zeta.
    fold spath. by rewrite Hex.
  - intros fs fs' o o'.
    rewrite !(SCDS_PutChaincodeToFS_initialized _ _ _ _ _ _ Hsp Hsb). cbv zeta.
    fold spath. destruct (FS.Stat_ok fs spath); [by intros [=]|].
    intros [-> ->]%WriteFile_Ok. split; [done|].
    assert (FS.Stat_ok (<[spath:=content (SignedCDSPackage.buf sp)]> fs) spath = true)
      as ->; [|done].
    apply Stat_ok_spec. rewrite lookup_insert_eq. by eexists.
Qed.

(** C8, on the two packages of mycc and an empty store: the first call
    writes the buffer, the second fails. *)
Lemma C8_write_once_witness :
  let path := "/var/hyperledger/production/chaincodes/mycc.1.0" in
  let p := Reference.unsigned_init.1 in
  let sp := Reference.signed_init.1 in
  (exists fs' : FS.t,
     @CDSPackage.PutChaincodeToFS Reference.externals p FS.IoOk ∅ = (fs', Ok tt)
     /\ fs' !! path = Some Reference.mycc_bytes
     /\ @CDSPackage.PutChaincodeToFS Reference.externals p FS.IoOk fs'
        = (fs', Err (AlreadyExists path)))
  /\ (exists fs' : FS.t,
        @SignedCDSPackage.PutChaincodeToFS Reference.externals sp FS.IoOk ∅ = (fs', Ok tt)
        /\ @SignedCDSPackage.PutChaincodeToFS Reference.externals sp FS.IoOk fs'
           = (fs', Err (AlreadyExists path))).
Proof.
  cbv zeta.
  assert (is_Some (CDSPackage.buf Reference.unsigned_init.1)) as Hb
    by (vm_compute; eauto).
  assert (is_Some (SignedCDSPackage.buf Reference.signed_init.1)) as Hsb
    by (vm_compute; eauto).
  destruct (@C8_write_once Reference.externals _ _ _ _ _ _ _ _
              Reference_unsigned_initialized Hb
              Reference_signed_initialized Hsb) as (_ & HU & _ & HS).
  split.
  - eexists. 
    assert (@CDSPackage.PutChaincodeToFS Reference.externals
              Reference.unsigned_init.1 FS.IoOk ∅
            = (<["/var/hyperledger/production/chaincodes/mycc.1.0" :=
                 Reference.mycc_bytes]> ∅, Ok tt)) as E.
    { rewrite (CDS_PutChaincodeToFS_initialized _ _ _ _ _ _
                 Reference_unsigned_initialized Hb). reflexivity. }
    split; [exact E|]. split; [apply lookup_insert_eq|].
    exact (proj2 (HU _ _ _ FS.IoOk E)).
  - eexists.
    assert (@SignedCDSPackage.PutChaincodeToFS Reference.externals
              Reference.signed_init.1 FS.IoOk ∅
            = (<["/var/hyperledger/production/chaincodes/mycc.1.0" :=
                 Reference.envelope_of 6 Reference.signed_alice_bob]> ∅, Ok tt)) as E.
    { rewrite (SCDS_PutChaincodeToFS_initialized _ _ _ _ _ _
                 Reference_signed_initialized Hsb). reflexivity. }
    split; [exact E|].
    exact (proj2 (HS _ _ _ FS.IoOk E)).
Defined.

(** ** Re-initialisation *)

Section reinit.
Context `{ext : Externals}.

(** The unsigned package: an initialisation that does not succeed leaves
    every field nil. *)
Lemma CDS_InitFromFS_not_Ok fs n v p p' r :
  CDSPackage.InitFromFS fs n v p = (p', r) -> is_Ok r = false ->
  p' = CDSPackage.empty.
Proof.
  unfold CDSPackage.InitFromFS, FS.GetChaincodePackage. go_unfold. cbv beta iota.
  destruct (fs !! _) as [b|]; cbn [fmap option_fmap option_map];
    [|by intros [= <- <-]].
  destruct (Unmarshal_CDS _) as [ds|]; [|by intros [= <- <-]].
  destruct (CDSPackage.getCDSData (Some ds)) as [x| |]; by intros [= <- <-].
Qed.

(** The signed package: a failed read of the store leaves the digest
    record of the previous load in place. *)
Lemma SCDS_InitFromFS_NotFound (fs : FS.t) n v p :
  fs !! FS.install_path n v = None ->
  SignedCDSPackage.InitFromFS fs n v p
  = (SignedCDSPackage.mk None None None None (SignedCDSPackage.data p), Err NotFound).
Proof.
  intros E. unfold SignedCDSPackage.InitFromFS, FS.GetChaincodePackage. go_unfold.
  cbv beta iota. by rewrite E.
Qed.

End reinit.

(** C4 (the code departs from the claim). The claim: a failed
    initialisation leaves every field cleared. [SignedCDSPackage.InitFromFS]
    clears four of the five fields before it reads the store; on a signed
    package initialised from a buffer, a read of a store without the
    package fails with NotFound and leaves the digest record of the
    previous load in the package. The unsigned package, on the same
    input, is left cleared. *)
Theorem C4_failed_InitFromFS_keeps_the_digest :
  let p := Reference.signed_init.1 in
  let r := @SignedCDSPackage.InitFromFS Reference.externals ∅ "mycc" "1.0" p in
  is_Ok Reference.signed_init.2 = true
  /\ r.2 = Err NotFound
  /\ SignedCDSPackage.buf r.1 = None
  /\ SignedCDSPackage.depSpec r.1 = None
  /\ SignedCDSPackage.sDepSpec r.1 = None
  /\ SignedCDSPackage.env r.1 = None
  /\ SignedCDSPackage.data r.1
     = Some (SCDS_digest SHA256.sum Reference.mycc Reference.mycc_id
               Reference.signed_alice_bob)
  /\ r.1 <> SignedCDSPackage.empty
  /\ @CDSPackage.InitFromFS Reference.externals ∅ "mycc" "1.0" Reference.unsigned_init.1
     = (CDSPackage.empty, Err NotFound).
Proof.
  cbv zeta. rewrite SCDS_InitFromFS_NotFound by apply lookup_empty.
  split_and!; try by vm_compute.
Qed.

(** ** Sequences of calls: which panics can occur *)

Section panics.
Context `{ext : Externals}.

Lemma chaincode_id_no_asserted_panic cds x :
  chaincode_id cds = Panic x -> ~ asserted_panic x.
Proof.
  unfold chaincode_id, asserted_panic.
  destruct (ChaincodeSpec_ cds) as [[[i|]]|]; cbn; intros [= <-]; intros [|]; discriminate.
Qed.

Lemma CDS_getCDSData_panic cds x :
  CDSPackage.getCDSData (Some cds) = Panic x -> ~ asserted_panic x.
Proof.
  unfold CDSPackage.getCDSData. go_unfold.
  destruct (Marshal_CDS cds); [|done].
  destruct InitFactories; [|done].
  destruct GetHash; [|done].
  destruct (chaincode_id cds) eqn:E; [| done |].
  - by destruct (Marshal_CDSData _).
  - intros [= <-]. by eapply chaincode_id_no_asserted_panic.
Qed.

Lemma SCDS_getCDSData_panic scds x :
  SignedCDSPackage.getCDSData (Some scds) = Panic x -> ~ asserted_panic x.
Proof.
  unfold SignedCDSPackage.getCDSData. go_unfold.
  destruct (Unmarshal_CDS _) as [cds|]; [|done].
  destruct InitFactories; [|done].
  destruct GetHash; [|done].
  destruct (chaincode_id cds) eqn:E; [| done |].
  - destruct (not_nil _); [|done]. by destruct (Marshal_SignedCDSData _).
  - intros [= <-]. by eapply chaincode_id_no_asserted_panic.
Qed.

Lemma CDS_InitFromBuffer_panic b p p' x :
  CDSPackage.InitFromBuffer b p = (p', Panic x) -> ~ asserted_panic x.
Proof.
  unfold CDSPackage.InitFromBuffer. go_unfold. cbv beta iota.
  destruct (Unmarshal_CDS _) as [ds|]; [|done].
  destruct (CDSPackage.getCDSData (Some ds)) eqn:E; [| done |].
  - destruct (chaincode_id ds) eqn:E'; [done..|].
    intros [= _ <-]. by eapply chaincode_id_no_asserted_panic.
  - intros [= _ <-]. by eapply CDS_getCDSData_panic.
Qed.

Lemma CDS_InitFromFS_panic fs n v p p' x :
  CDSPackage.InitFromFS fs n v p = (p', Panic x) -> ~ asserted_panic x.
Proof.
  unfold CDSPackage.InitFromFS, FS.GetChaincodePackage. go_unfold. cbv beta iota.
  destruct (fs !! _) as [b|]; cbn [fmap option_fmap option_map]; [|done].
  destruct (Unmarshal_CDS _) as [ds|]; [|done].
  destruct (CDSPackage.getCDSData (Some ds)) eqn:E; [done | done |].
  intros [= _ <-]. by eapply CDS_getCDSData_panic.
Qed.

Lemma CDS_ValidateCC_panic p cd x :
  CDSPackage.ValidateCC p cd = Panic x -> ~ asserted_panic x.
Proof.
  unfold CDSPackage.ValidateCC. go_unfold.
  destruct (CDSPackage.depSpec p) as [ds|]; [|done].
  destruct (CDSPackage.data p) as [d|]; [|done]. cbn [not_nil negb deref].
  destruct cd as [cd|]; [|intros [= <-]; intros [|]; discriminate].
  cbn [deref]. destruct (chaincode_id ds) eqn:E; [| done |].
  - destruct (_ || _); [done|].
    destruct (Unmarshal_CDSData _) as [o|]; [|done].
    cbn. by destruct (_ && _).
  - intros [= <-]. by eapply chaincode_id_no_asserted_panic.
Qed.

Lemma CDS_PutChaincodeToFS_panic p o fs fs' x :
  CDSPackage.PutChaincodeToFS p o fs = (fs', Panic x) -> ~ asserted_panic x.
Proof.
  unfold CDSPackage.PutChaincodeToFS. go_unfold. cbv beta iota.
  destruct (CDSPackage.buf p) as [b|]; [|done].
  destruct (CDSPackage.depSpec p) as [ds|]; [|done].
  destruct (CDSPackage.data p) as [d|]; [|done]. cbn [not_nil negb deref].
  destruct (chaincode_id ds) eqn:E; [| done |].
  - cbv zeta. destruct (FS.Stat_ok _ _); [done|]. by destruct o.
  - intros [= _ <-]. by eapply chaincode_id_no_asserted_panic.
Qed.

Lemma CDS_step_no_asserted_panic o w : no_asserted_panic (CDS_step o w).2.
Proof.
  destruct o as [b|n v|cd|io]; unfold CDS_step; cbv zeta; cbn [snd].
  - destruct (CDSPackage.InitFromBuffer b w.1) as [p' [| |x]] eqn:E;
      cbn [snd outcome no_asserted_panic]; try done.
    by eapply CDS_InitFromBuffer_panic.
  - destruct (CDSPackage.InitFromFS w.2 n v w.1) as [p' [| |x]] eqn:E;
      cbn [snd outcome no_asserted_panic]; try done.
    by eapply CDS_InitFromFS_panic.
  - destruct (CDSPackage.ValidateCC w.1 cd) as [| |x] eqn:E;
      cbn [snd outcome no_asserted_panic]; try done.
    by eapply CDS_ValidateCC_panic.
  - destruct (CDSPackage.PutChaincodeToFS w.1 io w.2) as [p' [| |x]] eqn:E;
      cbn [snd outcome no_asserted_panic]; try done.
    by eapply CDS_PutChaincodeToFS_panic.
Qed.

Lemma SCDS_InitFromBuffer_inv b p p' r :
  SignedCDSPackage.InitFromBuffer b p = (p', r) -> SCDS_inv p'.
Proof.
  destruct r as [cd|e|x].
  - intros (? & ? & ? & ? & ? & ? & _ & _ & _ & _ & _ & _ & -> & _)%SCDS_InitFromBuffer_Ok.
    intros _. by eexists.
  - intros ->%SCDS_InitFromBuffer_not_Ok; [|done]. by intros [? [=]].
  - intros ->%SCDS_InitFromBuffer_not_Ok; [|done]. by intros [? [=]].
Qed.

Lemma SCDS_InitFromBuffer_panic b p p' x :
  SignedCDSPackage.InitFromBuffer b p = (p', Panic x) -> ~ asserted_panic x.
Proof.
  unfold SignedCDSPackage.InitFromBuffer. go_unfold. cbv beta iota.
  destruct (Unmarshal_Envelope _) as [e|]; [|done].
  destruct (ExtractSignedCCDepSpec e) as [[chdr sds]|]; [|done]. cbn [fst snd].
  destruct (Type_ chdr =? _)%Z; [|done].
  destruct (Unmarshal_CDS _) as [ds|]; [|done].
  destruct (SignedCDSPackage.getCDSData (Some sds)) eqn:E; [| done |].
  - destruct (chaincode_id ds) eqn:E'; [done..|].
    intros [= _ <-]. by eapply chaincode_id_no_asserted_panic.
  - intros [= _ <-]. by eapply SCDS_getCDSData_panic.
Qed.

Lemma SCDS_InitFromFS_Some (fs : FS.t) n v p b :
  fs !! FS.install_path n v = Some b ->
  SignedCDSPackage.InitFromFS fs n v p =
    let r := SignedCDSPackage.InitFromBuffer (Some b)
               (SignedCDSPackage.mk None None None None (SignedCDSPackage.data p)) in
    match r.2 with
    | Ok _ => (r.1, Ok (SignedCDSPackage.buf r.1, SignedCDSPackage.depSpec r.1))
    | Err e => (r.1, Err e)
    | Panic x => (r.1, Panic x)
    end.
Proof.
  intros E. unfold SignedCDSPackage.InitFromFS, FS.GetChaincodePackage.
  rewrite E. unfold bind, modify, call, get, ret, or_fail.
  cbn [fmap option_fmap option_map]. cbv beta iota zeta.
  change (SignedCDSPackage.set_env None _)
    with (SignedCDSPackage.mk None None None None (SignedCDSPackage.data p)).
  by destruct (SignedCDSPackage.InitFromBuffer _ _) as [q [| |]].
Qed.

Lemma SCDS_step_inv o w : SCDS_inv w.1 -> SCDS_inv (SCDS_step o w).1.1.
Proof.
  intros Hw. destruct o as [b|n v|cd|io]; unfold SCDS_step; cbv zeta; cbn [fst]; try done.
  - destruct (SignedCDSPackage.InitFromBuffer b w.1) as [q r] eqn:E.
    by eapply SCDS_InitFromBuffer_inv.
  - destruct (w.2 !! FS.install_path n v) as [b|] eqn:Eb.
    + rewrite (SCDS_InitFromFS_Some _ _ _ _ _ Eb). cbv zeta.
      destruct (SignedCDSPackage.InitFromBuffer _ _) as [q r] eqn:E.
      apply SCDS_InitFromBuffer_inv in E. by destruct r.
    + rewrite (SCDS_InitFromFS_NotFound _ _ _ _ Eb). by intros [? [=]].
Qed.

Lemma SCDS_ValidateCC_panic p cd x :
  SCDS_inv p ->
  SignedCDSPackage.ValidateCC p cd = Panic x -> ~ asserted_panic x.
Proof.
  intros Hp. unfold SignedCDSPackage.ValidateCC. go_unfold.
  destruct (SignedCDSPackage.sDepSpec p) as [sds|] eqn:Es; [|done].
  cbn [not_nil negb deref].
  destruct (ChaincodeDeploymentSpec_ sds); [|done].
  destruct (SignedCDSPackage.depSpec p) as [ds|]; [|done]. cbn [not_nil negb deref].
  destruct cd as [cd|]; [|intros [= <-]; intros [|]; discriminate].
  cbn [deref]. destruct (chaincode_id ds) eqn:E; [| done |].
  - destruct (_ || _); [done|].
    destruct (Unmarshal_SignedCDSData _) as [o|]; [|done].
    destruct Hp as [d ->]; [by eexists|].
    cbn. by destruct (_ && _).
  - intros [= <-]. by eapply chaincode_id_no_asserted_panic.
Qed.

Lemma SCDS_PutChaincodeToFS_panic p o fs fs' x :
  SignedCDSPackage.PutChaincodeToFS p o fs = (fs', Panic x) -> ~ asserted_panic x.
Proof.
  unfold SignedCDSPackage.PutChaincodeToFS. go_unfold. cbv beta iota.
  destruct (SignedCDSPackage.buf p) as [b|]; [|done].
  destruct (SignedCDSPackage.sDepSpec p) as [sds|]; [|done].
  destruct (SignedCDSPackage.depSpec p) as [ds|]; [|done].
  destruct (SignedCDSPackage.env p) as [e|]; [|done].
  destruct (SignedCDSPackage.data p) as [d|]; [|done]. cbn [not_nil negb deref andb].
  destruct (chaincode_id ds) eqn:E; [| done |].
  - cbv zeta. destruct (FS.Stat_ok _ _); [done|]. by destruct o.
  - intros [= _ <-]. by eapply chaincode_id_no_asserted_panic.
Qed.

Lemma SCDS_step_no_asserted_panic o w :
  SCDS_inv w.1 -> no_asserted_panic (SCDS_step o w).2.
Proof.
  intros Hw. destruct o as [b|n v|cd|io]; unfold SCDS_step; cbv zeta; cbn [snd].
  - destruct (SignedCDSPackage.InitFromBuffer b w.1) as [q [| |x]] eqn:E;
      cbn [snd outcome no_asserted_panic]; try done.
    by eapply SCDS_InitFromBuffer_panic.
  - destruct (w.2 !! FS.install_path n v) as [b|] eqn:Eb.
    + rewrite (SCDS_InitFromFS_Some _ _ _ _ _ Eb). cbv zeta.
      destruct (SignedCDSPackage.InitFromBuffer _ _) as [q [| |x]] eqn:E;
        cbn [snd outcome no_asserted_panic]; try done.
      by eapply SCDS_InitFromBuffer_panic.
    + by rewrite (SCDS_InitFromFS_NotFound _ _ _ _ Eb).
  - destruct (SignedCDSPackage.ValidateCC w.1 cd) as [| |x] eqn:E;
      cbn [snd outcome no_asserted_panic]; try done.
    by eapply SCDS_ValidateCC_panic.
  - destruct (SignedCDSPackage.PutChaincodeToFS w.1 io w.2) as [q [| |x]] eqn:E;
      cbn [snd outcome no_asserted_panic]; try done.
    by eapply SCDS_PutChaincodeToFS_panic.
Qed.

Lemma CDS_run_no_asserted_panic ops w :
  Forall no_asserted_panic (run CDS_step ops w).2.
Proof.
  revert w. induction ops as [|o ops IH]; intros w; cbn; [done|].
  constructor; [apply CDS_step_no_asserted_panic | apply IH].
Qed.

Lemma SCDS_run_no_asserted_panic ops w :
  SCDS_inv w.1 ->
  Forall no_asserted_panic (run SCDS_step ops w).2
  /\ SCDS_inv (run SCDS_step ops w).1.1.
Proof.
  revert w. induction ops as [|o ops IH]; intros w Hw; cbn; [done|].
  destruct (IH (SCDS_step o w).1 (SCDS_step_inv o w Hw)) as [IH1 IH2].
  split; [|done]. constructor; [by apply SCDS_step_no_asserted_panic | done].
Qed.

End panics.

(** C10. Whatever the collaborators do and whatever sequence of public
    operations is called on a fresh package of either variant, over any
    store, also going on after a panic: no call ends in the panic of
    [getCDSData]'s nil assertion nor in the dereference of a nil digest
    record in [Equals]; and in the signed package reached, the digest
    record is set whenever the signed spec is, which is what the guards
    of [ValidateCC] test. *)
Theorem C10_no_asserted_panic `{ext : Externals} (ops : list op) (fs : FS.t) :
  Forall no_asserted_panic (run CDS_step ops (CDSPackage.empty, fs)).2
  /\ Forall no_asserted_panic (run SCDS_step ops (SignedCDSPackage.empty, fs)).2
  /\ (let p := (run SCDS_step ops (SignedCDSPackage.empty, fs)).1.1 in
      is_Some (SignedCDSPackage.sDepSpec p) -> is_Some (SignedCDSPackage.data p)).
Proof.
  destruct (SCDS_run_no_asserted_panic ops (SignedCDSPackage.empty, fs))
    as [HS1 HS2]; [by intros [? [=]]|].
  split_and!; [apply CDS_run_no_asserted_panic | done | done].
Qed.

(** * Further properties of the packages *)

(** ** Initialisation and the state a package is left in *)

Section reuse.
Context `{ext : Externals}.

(** The initialisations that clear every field first start from the
    empty package, whatever the package held. *)
Lemma CDS_InitFromBuffer_from_empty b p :
  CDSPackage.InitFromBuffer b p = CDSPackage.InitFromBuffer b CDSPackage.empty.
Proof. reflexivity. Qed.

Lemma SCDS_InitFromBuffer_from_empty b p :
  SignedCDSPackage.InitFromBuffer b p
  = SignedCDSPackage.InitFromBuffer b SignedCDSPackage.empty.
Proof. reflexivity. Qed.

Lemma CDS_InitFromFS_from_empty fs n v p :
  CDSPackage.InitFromFS fs n v p = CDSPackage.InitFromFS fs n v CDSPackage.empty.
Proof. reflexivity. Qed.

(** The unsigned [InitFromFS] on a file that exists and on one that does
    not. *)
Lemma CDS_InitFromFS_Some (fs : FS.t) n v p l :
  fs !! FS.install_path n v = Some l ->
  CDSPackage.InitFromFS fs n v p =
    let r := CDSPackage.InitFromBuffer (Some l) p in
    match r.2 with
    | Ok _ => (r.1, Ok (CDSPackage.buf r.1, CDSPackage.depSpec r.1))
    | Err e => (r.1, Err e)
    | Panic x => (r.1, Panic x)
    end.
Proof.
  intros E. unfold CDSPackage.InitFromFS, CDSPackage.InitFromBuffer,
    FS.GetChaincodePackage.
  rewrite E. go_unfold. cbn [fmap option_fmap option_map]. cbv beta iota zeta.
  change (content (Some l)) with l.
  destruct (Unmarshal_CDS l) as [ds|]; [|done].
  pose proof (CDS_getCDSData_Ok ds) as HG.
  destruct (CDSPackage.getCDSData (Some ds)) as [x| |]; [|done..].
  destruct (HG x) as [(H & id & bb & _ & _ & _ & -> & _) _]; [done|]. done.
Qed.

Lemma CDS_InitFromFS_None (fs : FS.t) n v p :
  fs !! FS.install_path n v = None ->
  CDSPackage.InitFromFS fs n v p = (CDSPackage.empty, Err NotFound).
Proof.
  intros E. unfold CDSPackage.InitFromFS, FS.GetChaincodePackage. go_unfold.
  cbv beta iota. by rewrite E.
Qed.

(** The signed [InitFromFS] on a file that exists: a failure leaves
    nothing behind. *)
Lemma SCDS_InitFromFS_not_Ok (fs : FS.t) n v p p' r :
  is_Some (fs !! FS.install_path n v) ->
  SignedCDSPackage.InitFromFS fs n v p = (p', r) -> is_Ok r = false ->
  p' = SignedCDSPackage.empty.
Proof.
  intros [l E]. rewrite (SCDS_InitFromFS_Some _ _ _ _ _ E). cbv zeta.
  destruct (SignedCDSPackage.InitFromBuffer _ _) as [q [cd|e|x]] eqn:Eq; cbn [fst snd].
  - by intros [= <- <-].
  - intros [= <- <-] _. by eapply SCDS_InitFromBuffer_not_Ok.
  - intros [= <- <-] _. by eapply SCDS_InitFromBuffer_not_Ok.
Qed.

(** Whether the file exists or not, a failed signed [InitFromFS] leaves
    the four fields it clears nil. *)
Lemma SCDS_InitFromFS_not_Ok_fields (fs : FS.t) n v p p' r :
  SignedCDSPackage.InitFromFS fs n v p = (p', r) -> is_Ok r = false ->
  SignedCDSPackage.buf p' = None /\ SignedCDSPackage.depSpec p' = None
  /\ SignedCDSPackage.sDepSpec p' = None /\ SignedCDSPackage.env p' = None.
Proof.
  destruct (fs !! FS.install_path n v) as [l|] eqn:E.
  - intros Hr Hf. by rewrite (SCDS_InitFromFS_not_Ok fs n v p p' r).
  - rewrite (SCDS_InitFromFS_NotFound _ _ _ _ E). by intros [= <- <-].
Qed.

(** A package without buffer and deployment spec answers every call with
    the error of an uninitialised package. *)
Lemma CDS_uninitialized p :
  CDSPackage.buf p = None -> CDSPackage.depSpec p = None ->
  CDS_reports_uninitialized p.
Proof.
  intros Eb Ed. unfold CDS_reports_uninitialized, CDSPackage.ValidateCC,
    CDSPackage.PutChaincodeToFS, CDSPackage.GetDepSpec, CDSPackage.GetPackageObject.
  go_unfold. by rewrite Eb, Ed.
Qed.

Lemma SCDS_uninitialized p :
  SignedCDSPackage.buf p = None -> SignedCDSPackage.depSpec p = None ->
  SignedCDSPackage.sDepSpec p = None -> SignedCDSPackage.env p = None ->
  SCDS_reports_uninitialized p.
Proof.
  intros Eb Ed Es Ee. unfold SCDS_reports_uninitialized, SignedCDSPackage.ValidateCC,
    SignedCDSPackage.PutChaincodeToFS, SignedCDSPackage.GetDepSpec,
    SignedCDSPackage.GetPackageObject.
  go_unfold. by rewrite Eb, Ed, Es, Ee.
Qed.

End reuse.

(** X1. A package can be reused: what [InitFromBuffer] of either variant
    and the unsigned [InitFromFS] return, and the package they leave, do
    not depend on what the package held before the call; the same holds
    for the signed [InitFromFS] when the file exists. *)
Theorem X1_init_ignores_previous_state `{ext : Externals}
    (b : slice) (fs : FS.t) (n v : string) :
  (forall p q, CDSPackage.InitFromBuffer b p = CDSPackage.InitFromBuffer b q)
  /\ (forall p q,
        SignedCDSPackage.InitFromBuffer b p = SignedCDSPackage.InitFromBuffer b q)
  /\ (forall p q, CDSPackage.InitFromFS fs n v p = CDSPackage.InitFromFS fs n v q)
  /\ (forall p q,
        is_Some (fs !! FS.install_path n v) ->
        SignedCDSPackage.InitFromFS fs n v p = SignedCDSPackage.InitFromFS fs n v q).
Proof.
  split_and!.
  - intros p q. by rewrite (CDS_InitFromBuffer_from_empty b p),
      (CDS_InitFromBuffer_from_empty b q).
  - intros p q. by rewrite (SCDS_InitFromBuffer_from_empty b p),
      (SCDS_InitFromBuffer_from_empty b q).
  - intros p q. by rewrite (CDS_InitFromFS_from_empty _ _ _ p),
      (CDS_InitFromFS_from_empty _ _ _ q).
  - intros p q [l E]. rewrite !(SCDS_InitFromFS_Some _ _ _ _ _ E). cbv zeta.
    by rewrite
      (SCDS_InitFromBuffer_from_empty _
         (SignedCDSPackage.mk _ _ _ _ (SignedCDSPackage.data p))),
      (SCDS_InitFromBuffer_from_empty _
         (SignedCDSPackage.mk _ _ _ _ (SignedCDSPackage.data q))).
Qed.

(** X1, on the signed package of mycc reloaded from a store that holds
    its envelope: the result is the one a fresh package gets. *)
Lemma X1_init_ignores_previous_state_witness :
  let fs : FS.t := <[@FS.install_path Reference.externals "mycc" "1.0" :=
                      Reference.envelope_of 6 Reference.signed_alice_bob]> ∅ in
  is_Some (fs !! @FS.install_path Reference.externals "mycc" "1.0")
  /\ @SignedCDSPackage.InitFromFS Reference.externals fs "mycc" "1.0"
       Reference.signed_init.1
     = @SignedCDSPackage.InitFromFS Reference.externals fs "mycc" "1.0"
         SignedCDSPackage.empty.
Proof.
  cbv zeta.
  assert (is_Some ((<[@FS.install_path Reference.externals "mycc" "1.0" :=
                       Reference.envelope_of 6 Reference.signed_alice_bob]> ∅ : FS.t)
                     !! @FS.install_path Reference.externals "mycc" "1.0")) as Hs.
  { rewrite lookup_insert_eq. by eexists. }
  split; [exact Hs|].
  exact (proj2 (proj2 (proj2 (@X1_init_ignores_previous_state Reference.externals
                                None _ "mycc" "1.0")))
           Reference.signed_init.1 SignedCDSPackage.empty Hs).
Defined.

(** X2. An initialisation that does not succeed, by an error or by a
    panic, leaves every field of the package nil: [InitFromBuffer] of
    either variant, the unsigned [InitFromFS], and the signed [InitFromFS]
    when the file exists. *)
Theorem X2_failed_init_leaves_nothing `{ext : Externals} :
  (forall b p p' r,
     CDSPackage.InitFromBuffer b p = (p', r) -> is_Ok r = false ->
     p' = CDSPackage.empty)
  /\ (forall fs n v p p' r,
        CDSPackage.InitFromFS fs n v p = (p', r) -> is_Ok r = false ->
        p' = CDSPackage.empty)
  /\ (forall b p p' r,
        SignedCDSPackage.InitFromBuffer b p = (p', r) -> is_Ok r = false ->
        p' = SignedCDSPackage.empty)
  /\ (forall (fs : FS.t) n v p p' r,
        is_Some (fs !! FS.install_path n v) ->
        SignedCDSPackage.InitFromFS fs n v p = (p', r) -> is_Ok r = false ->
        p' = SignedCDSPackage.empty).
Proof.
  split_and!.
  - apply @CDS_InitFromBuffer_not_Ok.
  - apply @CDS_InitFromFS_not_Ok.
  - apply @SCDS_InitFromBuffer_not_Ok.
  - apply @SCDS_InitFromFS_not_Ok.
Qed.

(** X2, on the two packages of mycc given a buffer that does not decode. *)
Lemma X2_failed_init_leaves_nothing_witness :
  let r := @CDSPackage.InitFromBuffer Reference.externals (Some ["255"%byte])
             Reference.unsigned_init.1 in
  let sr := @SignedCDSPackage.InitFromBuffer Reference.externals (Some ["255"%byte])
              Reference.signed_init.1 in
  Reference.unsigned_init.1 <> CDSPackage.empty
  /\ r.2 = Err DecodeError /\ r.1 = CDSPackage.empty
  /\ sr.2 = Err DecodeError /\ sr.1 = SignedCDSPackage.empty.
Proof.
  cbv zeta.
  destruct (@X2_failed_init_leaves_nothing Reference.externals) as (HU & _ & HS & _).
  split_and!.
  - by vm_compute.
  - by vm_compute.
  - apply (HU (Some ["255"%byte]) Reference.unsigned_init.1 _ _
             (surjective_pairing _)). by vm_compute.
  - by vm_compute.
  - apply (HS (Some ["255"%byte]) Reference.signed_init.1 _ _
             (surjective_pairing _)). by vm_compute.
Defined.

(** X3. After an initialisation of any kind that did not succeed, the
    signed [InitFromFS] on a missing file included, the package answers
    like one never initialised: [ValidateCC] returns the error
    uninitialized package for every argument, a nil one too,
    [PutChaincodeToFS] returns the same error and leaves the store as it
    is, [GetDepSpec] returns nil, and [GetPackageObject] returns a message
    that holds a nil pointer (a nil deployment spec in the unsigned
    package, a nil envelope in the signed one). *)
Theorem X3_failed_init_then_uninitialized `{ext : Externals} :
  (forall b p,
     is_Ok (CDSPackage.InitFromBuffer b p).2 = false ->
     CDS_reports_uninitialized (CDSPackage.InitFromBuffer b p).1)
  /\ (forall fs n v p,
        is_Ok (CDSPackage.InitFromFS fs n v p).2 = false ->
        CDS_reports_uninitialized (CDSPackage.InitFromFS fs n v p).1)
  /\ (forall b p,
        is_Ok (SignedCDSPackage.InitFromBuffer b p).2 = false ->
        SCDS_reports_uninitialized (SignedCDSPackage.InitFromBuffer b p).1)
  /\ (forall fs n v p,
        is_Ok (SignedCDSPackage.InitFromFS fs n v p).2 = false ->
        SCDS_reports_uninitialized (SignedCDSPackage.InitFromFS fs n v p).1).
Proof.
  split_and!.
  - intros b p Hf.
    rewrite (CDS_InitFromBuffer_not_Ok b p _ _ (surjective_pairing _) Hf).
    by apply CDS_uninitialized.
  - intros fs n v p Hf.
    rewrite (CDS_InitFromFS_not_Ok fs n v p _ _ (surjective_pairing _) Hf).
    by apply CDS_uninitialized.
  - intros b p Hf.
    rewrite (SCDS_InitFromBuffer_not_Ok b p _ _ (surjective_pairing _) Hf).
    by apply SCDS_uninitialized.
  - intros fs n v p Hf.
    destruct (SCDS_InitFromFS_not_Ok_fields fs n v p _ _ (surjective_pairing _) Hf)
      as (? & ? & ? & ?).
    by apply SCDS_uninitialized.
Qed.

(** X3, on the signed package of mycc reloaded from an empty store: the
    digest record of the previous load stays, and the package answers like
    one never initialised. *)
Lemma X3_failed_init_then_uninitialized_witness :
  let r := @SignedCDSPackage.InitFromFS Reference.externals ∅ "mycc" "1.0"
             Reference.signed_init.1 in
  r.2 = Err NotFound
  /\ is_Some (SignedCDSPackage.data r.1)
  /\ @SCDS_reports_uninitialized Reference.externals r.1.
Proof.
  cbv zeta. split_and!.
  - by vm_compute.
  - vm_compute. by eexists.
  - apply (proj2 (proj2 (proj2 (@X3_failed_init_then_uninitialized Reference.externals)))).
    by vm_compute.
Defined.

(** X4. After a successful [InitFromBuffer] the package holds the buffer
    it was given; [GetDepSpec] returns the deployment spec decoded from the
    buffer (unsigned) or from the signed spec extracted from the buffer's
    envelope (signed); [GetPackageObject] returns that deployment spec
    (unsigned) or the decoded envelope (signed); and the [ChaincodeData]
    returned carries the name and the version of the spec's chaincode id
    and the encoding of the digest record kept in the package. *)
Theorem X4_init_then_getters `{ext : Externals} :
  (forall b p p' cd,
     CDSPackage.InitFromBuffer b p = (p', Ok cd) ->
     exists ds id d db,
       Unmarshal_CDS (content b) = Some ds
       /\ chaincode_id ds = Ok id
       /\ CDSPackage.buf p' = b
       /\ CDSPackage.GetDepSpec p' = Some ds
       /\ CDSPackage.GetPackageObject p' = MessageCDS (Some ds)
       /\ CDSPackage.data p' = Some d
       /\ Marshal_CDSData d = Some db
       /\ cd = {| CDName := Name id; CDVersion := Version id; CDData := Some db |})
  /\ (forall b p p' cd,
        SignedCDSPackage.InitFromBuffer b p = (p', Ok cd) ->
        exists e chdr sds ds id d db,
          Unmarshal_Envelope (content b) = Some e
          /\ ExtractSignedCCDepSpec e = Some (chdr, sds)
          /\ Type_ chdr = HeaderType_CHAINCODE_PACKAGE
          /\ Unmarshal_CDS (content (ChaincodeDeploymentSpec_ sds)) = Some ds
          /\ chaincode_id ds = Ok id
          /\ SignedCDSPackage.buf p' = b
          /\ SignedCDSPackage.GetDepSpec p' = Some ds
          /\ SignedCDSPackage.GetPackageObject p' = MessageEnvelope (Some e)
          /\ SignedCDSPackage.data p' = Some d
          /\ Marshal_SignedCDSData d = Some db
          /\ cd = {| CDName := Name id; CDVersion := Version id; CDData := Some db |}).
Proof.
  split.
  - intros b p p' cd (ds & r & id & Eu & Er & Ei & -> & ->)%CDS_InitFromBuffer_Ok.
    apply CDS_getCDSData_Ok in Er as (H & id' & db & _ & _ & _ & Ei' & Eb & ->).
    exists ds, id, (CDS_digest H ds id'), db. split_and!; done.
  - intros b p p' cd
      (e & chdr & sds & ds & r & id & Ee & Ex & Et & Eu & Er & Ei & -> & ->)
      %SCDS_InitFromBuffer_Ok.
    apply SCDS_getCDSData_Ok in Er as (cds & H & id' & db & _ & _ & _ & _ & _ & Eb & ->).
    exists e, chdr, sds, ds, id, (SCDS_digest H cds id' sds), db. split_and!; done.
Qed.

(** X4, on the two packages of mycc. *)
Lemma X4_init_then_getters_witness :
  CDSPackage.GetDepSpec Reference.unsigned_init.1 = Some Reference.mycc
  /\ CDSPackage.GetPackageObject Reference.unsigned_init.1
     = MessageCDS (Some Reference.mycc)
  /\ CDSPackage.buf Reference.unsigned_init.1 = Some Reference.mycc_bytes
  /\ SignedCDSPackage.GetDepSpec Reference.signed_init.1 = Some Reference.mycc
  /\ SignedCDSPackage.buf Reference.signed_init.1
     = Some (Reference.envelope_of 6 Reference.signed_alice_bob).
Proof.
  destruct (@X4_init_then_getters Reference.externals) as [HU HS].
  destruct Reference.unsigned_init as [p [cd| |]] eqn:E;
    [|vm_compute in E; discriminate E..].
  destruct (HU _ _ _ _ E) as (ds & id & d & db & Eu & _ & Eb & Eg & Eo & _).
  vm_compute in Eu. injection Eu as <-.
  destruct Reference.signed_init as [sp [scd| |]] eqn:Es;
    [|vm_compute in Es; discriminate Es..].
  destruct (HS _ _ _ _ Es)
    as (e & chdr & sds & ds & sid & sd & sdb & Ee & Ex & _ & Eu & _ & Esb & Esg & _).
  vm_compute in Ee. injection Ee as <-.
  vm_compute in Ex. injection Ex as <- <-.
  vm_compute in Eu. injection Eu as <-.
  cbn [fst]. split_and!; [exact Eg | exact Eo | exact Eb | exact Esg | exact Esb].
Defined.

(** X5. When the store holds a file at the path of the name and the
    version asked for, [InitFromFS] leaves the package that [InitFromBuffer]
    leaves on the bytes of the file and succeeds when it does, returning
    those bytes and the deployment spec of the package; it panics when
    [InitFromBuffer] does and fails when it fails (the signed variant with
    the same error). Nothing compares the name and the version asked for
    with those of the deployment spec loaded. *)
Theorem X5_InitFromFS_loads_as_InitFromBuffer `{ext : Externals}
    (fs : FS.t) (n v : string) (l : list byte) :
  fs !! FS.install_path n v = Some l ->
  (forall p,
     let r := CDSPackage.InitFromBuffer (Some l) p in
     let r' := CDSPackage.InitFromFS fs n v p in
     r'.1 = r.1
     /\ match r.2 with
        | Ok _ => r'.2 = Ok (Some l, CDSPackage.GetDepSpec r.1)
        | Err _ => exists e, r'.2 = Err e
        | Panic x => r'.2 = Panic x
        end)
  /\ (forall p,
        let r := SignedCDSPackage.InitFromBuffer (Some l) p in
        let r' := SignedCDSPackage.InitFromFS fs n v p in
        r'.1 = r.1
        /\ match r.2 with
           | Ok _ => r'.2 = Ok (Some l, SignedCDSPackage.GetDepSpec r.1)
           | Err e => r'.2 = Err e
           | Panic x => r'.2 = Panic x
           end).
Proof.
  intros E. split; intros p; cbv zeta.
  - rewrite (CDS_InitFromFS_Some _ _ _ _ _ E). cbv zeta.
    destruct (CDSPackage.InitFromBuffer (Some l) p) as [q [cd|e|x]] eqn:Eq;
      cbn [fst snd]; [|by eauto|done].
    apply CDS_InitFromBuffer_Ok in Eq as (ds & r & id & _ & _ & _ & -> & _). done.
  - rewrite (SCDS_InitFromFS_Some _ _ _ _ _ E). cbv zeta.
    rewrite (SCDS_InitFromBuffer_from_empty _ (SignedCDSPackage.mk _ _ _ _ _)),
      <- (SCDS_InitFromBuffer_from_empty _ p).
    destruct (SignedCDSPackage.InitFromBuffer (Some l) p) as [q [cd|e|x]] eqn:Eq;
      cbn [fst snd]; [|done..].
    apply SCDS_InitFromBuffer_Ok in Eq
      as (? & ? & ? & ? & ? & ? & _ & _ & _ & _ & _ & _ & -> & _).
    done.
Qed.

(** X5, on a store that holds the encoding of mycc under the name other
    and the version 2.0: the unsigned package loads mycc, version 1.0. *)
Lemma X5_InitFromFS_loads_as_InitFromBuffer_witness :
  let fs : FS.t := <[@FS.install_path Reference.externals "other" "2.0" :=
                      Reference.mycc_bytes]> ∅ in
  let r' := @CDSPackage.InitFromFS Reference.externals fs "other" "2.0"
              CDSPackage.empty in
  r'.1 = Reference.unsigned_init.1
  /\ r'.2 = Ok (Some Reference.mycc_bytes, Some Reference.mycc).
Proof.
  cbv zeta.
  destruct (proj1 (@X5_InitFromFS_loads_as_InitFromBuffer Reference.externals
                     (<[@FS.install_path Reference.externals "other" "2.0" :=
                          Reference.mycc_bytes]> ∅) "other" "2.0" Reference.mycc_bytes
                     (lookup_insert_eq _ _ _)) CDSPackage.empty) as [E1 E2].
  split; [exact E1|].
  change (@CDSPackage.InitFromBuffer Reference.externals (Some Reference.mycc_bytes)
            CDSPackage.empty) with Reference.unsigned_init in E2.
  destruct Reference.unsigned_init as [p [cd| |]] eqn:E;
    [|vm_compute in E; discriminate E..].
  cbn [fst snd] in E2. rewrite E2. f_equal. f_equal.
  assert (p = Reference.unsigned_init.1) as -> by (by rewrite E).
  by vm_compute.
Defined.

(** ** Validation: when a deployment spec is returned *)

(** X6. [ValidateCC] returns a deployment spec in exactly one case, for
    any package whatever: the argument is not nil, the package holds the
    deployment spec returned and a digest record (the signed package also
    a signed spec with a deployment spec in it), the name and the version
    of the argument are those of the spec's chaincode id, the data of the
    argument decodes, and the decoded record has the bytes of the package's
    record in every field. *)
Theorem X6_ValidateCC_accepts_only_matching_data `{ext : Externals}
    (p : CDSPackage.t) (sp : SignedCDSPackage.t)
    (ccdata : option ChaincodeData) (ds : ChaincodeDeploymentSpec) :
  (CDSPackage.ValidateCC p ccdata = Ok ds <->
   exists cd id d o,
     ccdata = Some cd
     /\ CDSPackage.depSpec p = Some ds
     /\ CDSPackage.data p = Some d
     /\ chaincode_id ds = Ok id
     /\ CDName cd = Name id /\ CDVersion cd = Version id
     /\ Unmarshal_CDSData (content (CDData cd)) = Some o
     /\ CDSData_same d o)
  /\ (SignedCDSPackage.ValidateCC sp ccdata = Ok ds <->
      exists cd id d o sds,
        ccdata = Some cd
        /\ SignedCDSPackage.sDepSpec sp = Some sds
        /\ is_Some (ChaincodeDeploymentSpec_ sds)
        /\ SignedCDSPackage.depSpec sp = Some ds
        /\ SignedCDSPackage.data sp = Some d
        /\ chaincode_id ds = Ok id
        /\ CDName cd = Name id /\ CDVersion cd = Version id
        /\ Unmarshal_SignedCDSData (content (CDData cd)) = Some o
        /\ SignedCDSData_same d o).
Proof.
  split; split.
  - unfold CDSPackage.ValidateCC. go_unfold.
    destruct (CDSPackage.depSpec p) as [ds'|]; [|done].
    destruct (CDSPackage.data p) as [d|]; [|done]. cbn [not_nil negb deref].
    destruct ccdata as [cd|]; [|done]. cbn [deref].
    destruct (chaincode_id ds') as [id| |] eqn:Ei; [|done..].
    destruct (String.eqb_spec (CDName cd) (Name id)) as [En|]; [|done].
    destruct (String.eqb_spec (CDVersion cd) (Version id)) as [Ev|]; [|done].
    cbn [negb orb].
    destruct (Unmarshal_CDSData _) as [o|] eqn:Eo; [|done].
    rewrite CDSData_Equals_same. case_bool_decide as Hs; [|done].
    cbn [negb]. intros [= ->]. exists cd, id, d, o. split_and!; done.
  - intros (cd & id & d & o & -> & Eds & Ed & Ei & En & Ev & Eo & Hs).
    rewrite (CDS_ValidateCC_initialized p ds id d cd) by done.
    rewrite En, Ev, !String.eqb_refl, Eo. cbn. by rewrite decide_True.
  - unfold SignedCDSPackage.ValidateCC. go_unfold.
    destruct (SignedCDSPackage.sDepSpec sp) as [sds|]; [|done].
    cbn [not_nil negb deref].
    destruct (ChaincodeDeploymentSpec_ sds) as [inner|] eqn:Einner; [|done].
    destruct (SignedCDSPackage.depSpec sp) as [ds'|]; [|done].
    cbn [not_nil negb deref].
    destruct ccdata as [cd|]; [|done]. cbn [deref].
    destruct (chaincode_id ds') as [id| |] eqn:Ei; [|done..].
    destruct (String.eqb_spec (CDName cd) (Name id)) as [En|]; [|done].
    destruct (String.eqb_spec (CDVersion cd) (Version id)) as [Ev|]; [|done].
    cbn [negb orb].
    destruct (Unmarshal_SignedCDSData _) as [o|] eqn:Eo; [|done].
    destruct (SignedCDSPackage.data sp) as [d|]; [|done].
    rewrite SignedCDSData_Equals_same. case_bool_decide as Hs; [|done].
    cbn [negb]. intros [= ->]. exists cd, id, d, o, sds.
    split_and!; done.
  - intros (cd & id & d & o & sds & -> & Es & [inner Hin] & Eds & Ed & Ei
            & En & Ev & Eo & Hs).
    unfold SignedCDSPackage.ValidateCC. go_unfold.
    rewrite Es, Eds, Ed. cbn [not_nil negb deref]. rewrite Hin. cbn [not_nil negb].
    rewrite Ei, En, Ev, !String.eqb_refl, Eo. cbn [negb orb].
    rewrite SignedCDSData_Equals_same. by rewrite bool_decide_eq_true_2.
Qed.

(** ** Installation: what happens to the store *)

Section store.
Context `{ext : Externals}.

(** What one call of [ioutil.WriteFile] can do to the store. *)
Lemma WriteFile_cases o path b (fs : FS.t) :
  exists r, FS.WriteFile o path b fs = r
    /\ (r.1 = fs \/ exists l, r.1 = <[path := l]> fs)
    /\ (r.2 = Ok tt \/ r.2 = Err StorageError).
Proof.
  eexists. split; [done|]. destruct o; cbn; go_unfold; cbn; eauto.
Qed.

Lemma chaincode_id_not_Err ds e : chaincode_id ds <> Err e.
Proof. unfold chaincode_id. go_unfold. by destruct (ChaincodeSpec_ ds) as [[[?|]]|]. Qed.

Lemma Stat_ok_false (fs : FS.t) path : FS.Stat_ok fs path = false <-> fs !! path = None.
Proof.
  rewrite <- not_true_iff_false, Stat_ok_spec. by rewrite eq_None_not_Some.
Qed.

(** [PutChaincodeToFS] either leaves the store alone and reports neither
    success nor a failed write, or reaches [WriteFile] on a path that names
    no file. *)
Lemma CDS_PutChaincodeToFS_cases p o (fs : FS.t) :
  (CDSPackage.PutChaincodeToFS p o fs).1 = fs
  /\ (CDSPackage.PutChaincodeToFS p o fs).2 <> Ok tt
  /\ (CDSPackage.PutChaincodeToFS p o fs).2 <> Err StorageError
  \/ exists ds id d,
       CDS_initialized p ds id d /\ is_Some (CDSPackage.buf p)
       /\ fs !! FS.install_path (Name id) (Version id) = None
       /\ CDSPackage.PutChaincodeToFS p o fs
          = FS.WriteFile o (FS.install_path (Name id) (Version id))
              (CDSPackage.buf p) fs.
Proof.
  unfold CDSPackage.PutChaincodeToFS, CDS_initialized. go_unfold.
  destruct (CDSPackage.buf p) as [b|] eqn:Eb; [|by left].
  destruct (CDSPackage.depSpec p) as [ds|] eqn:Eds; [|by left].
  destruct (CDSPackage.data p) as [d|] eqn:Ed; [|by left].
  cbn [not_nil deref].
  destruct (chaincode_id ds) as [id|e|x] eqn:Ei;
    [|by apply chaincode_id_not_Err in Ei|by left].
  cbv zeta. destruct (FS.Stat_ok fs _) eqn:Est; [by left|]. right.
  apply Stat_ok_false in Est. exists ds, id, d. split_and!; done.
Qed.

Lemma SCDS_PutChaincodeToFS_cases p o (fs : FS.t) :
  (SignedCDSPackage.PutChaincodeToFS p o fs).1 = fs
  /\ (SignedCDSPackage.PutChaincodeToFS p o fs).2 <> Ok tt
  /\ (SignedCDSPackage.PutChaincodeToFS p o fs).2 <> Err StorageError
  \/ exists ds id d,
       SignedCDSPackage.depSpec p = Some ds
       /\ is_Some (SignedCDSPackage.sDepSpec p)
       /\ is_Some (SignedCDSPackage.env p)
       /\ SignedCDSPackage.data p = Some d
       /\ chaincode_id ds = Ok id
       /\ is_Some (SignedCDSPackage.buf p)
       /\ fs !! FS.install_path (Name id) (Version id) = None
       /\ SignedCDSPackage.PutChaincodeToFS p o fs
          = FS.WriteFile o (FS.install_path (Name id) (Version id))
              (SignedCDSPackage.buf p) fs.
Proof.
  unfold SignedCDSPackage.PutChaincodeToFS. go_unfold.
  destruct (SignedCDSPackage.buf p) as [b|] eqn:Eb; [|by left].
  destruct (SignedCDSPackage.sDepSpec p) as [sds|] eqn:Es; [|by left].
  destruct (SignedCDSPackage.depSpec p) as [ds|] eqn:Eds; [|by left].
  destruct (SignedCDSPackage.env p) as [e|] eqn:Ee; [|by left].
  destruct (SignedCDSPackage.data p) as [d|] eqn:Ed; [|by left].
  cbn [not_nil deref andb].
  destruct (chaincode_id ds) as [id|e'|x] eqn:Ei;
    [|by apply chaincode_id_not_Err in Ei|by left].
  cbv zeta. destruct (FS.Stat_ok fs _) eqn:Est; [by left|]. right.
  apply Stat_ok_false in Est. exists ds, id, d. split_and!; done.
Qed.

(** Such a store keeps the files it had, and a new file is at that path. *)
Lemma grown_at_keeps (fs fs' : FS.t) path q x :
  grown_at fs fs' path -> fs !! q = Some x -> fs' !! q = Some x.
Proof.
  intros [->|[En [l ->]]] Eq; [done|].
  rewrite lookup_insert_ne; [done|]. intros <-. congruence.
Qed.

Lemma grown_at_new (fs fs' : FS.t) path q :
  grown_at fs fs' path -> fs !! q = None -> is_Some (fs' !! q) -> q = path.
Proof.
  intros [->|[En [l ->]]] Eq Hs.
  - rewrite Eq in Hs. by destruct Hs.
  - destruct (decide (path = q)) as [|Hne]; [done|].
    rewrite lookup_insert_ne, Eq in Hs by done. by destruct Hs.
Qed.

Lemma CDS_PutChaincodeToFS_store p o (fs : FS.t) :
  (CDSPackage.PutChaincodeToFS p o fs).1 = fs
  \/ exists ds id,
       CDSPackage.depSpec p = Some ds /\ chaincode_id ds = Ok id
       /\ grown_at fs (CDSPackage.PutChaincodeToFS p o fs).1
            (FS.install_path (Name id) (Version id))
       /\ ((CDSPackage.PutChaincodeToFS p o fs).2 = Ok tt
           \/ (CDSPackage.PutChaincodeToFS p o fs).2 = Err StorageError).
Proof.
  destruct (CDS_PutChaincodeToFS_cases p o fs)
    as [(E & _)|(ds & id & d & (Eds & _ & Ei) & _ & En & ->)]; [by left|].
  destruct (WriteFile_cases o (FS.install_path (Name id) (Version id))
              (CDSPackage.buf p) fs) as (r & -> & Hs & Hr).
  right. exists ds, id. split_and!; [done..| |done].
  destruct Hs as [E|[l E]]; [by left | right; eauto].
Qed.

Lemma SCDS_PutChaincodeToFS_store p o (fs : FS.t) :
  (SignedCDSPackage.PutChaincodeToFS p o fs).1 = fs
  \/ exists ds id,
       SignedCDSPackage.depSpec p = Some ds /\ chaincode_id ds = Ok id
       /\ grown_at fs (SignedCDSPackage.PutChaincodeToFS p o fs).1
            (FS.install_path (Name id) (Version id))
       /\ ((SignedCDSPackage.PutChaincodeToFS p o fs).2 = Ok tt
           \/ (SignedCDSPackage.PutChaincodeToFS p o fs).2 = Err StorageError).
Proof.
  destruct (SCDS_PutChaincodeToFS_cases p o fs)
    as [(E & _)|(ds & id & d & Eds & _ & _ & _ & Ei & _ & En & ->)]; [by left|].
  destruct (WriteFile_cases o (FS.install_path (Name id) (Version id))
              (SignedCDSPackage.buf p) fs) as (r & -> & Hs & Hr).
  right. exists ds, id. split_and!; [done..| |done].
  destruct Hs as [E|[l E]]; [by left | right; eauto].
Qed.

(** A successful [PutChaincodeToFS]. *)
Lemma CDS_PutChaincodeToFS_Ok p o (fs fs' : FS.t) :
  CDSPackage.PutChaincodeToFS p o fs = (fs', Ok tt) ->
  exists ds id d l,
    CDS_initialized p ds id d /\ CDSPackage.buf p = Some l
    /\ fs' = <[FS.install_path (Name id) (Version id) := l]> fs.
Proof.
  intros E.
  destruct (CDS_PutChaincodeToFS_cases p o fs)
    as [(_ & Hne & _)|(ds & id & d & Hi & [l Hb] & _ & Ew)].
  - by rewrite E in Hne.
  - rewrite E in Ew. symmetry in Ew. apply WriteFile_Ok in Ew as [_ ->].
    exists ds, id, d, l. by rewrite Hb.
Qed.

Lemma SCDS_PutChaincodeToFS_Ok p o (fs fs' : FS.t) :
  SignedCDSPackage.PutChaincodeToFS p o fs = (fs', Ok tt) ->
  exists ds id l,
    SignedCDSPackage.depSpec p = Some ds /\ chaincode_id ds = Ok id
    /\ SignedCDSPackage.buf p = Some l
    /\ fs' = <[FS.install_path (Name id) (Version id) := l]> fs.
Proof.
  intros E.
  destruct (SCDS_PutChaincodeToFS_cases p o fs)
    as [(_ & Hne & _)|(ds & id & d & Eds & _ & _ & _ & Ei & [l Hb] & _ & Ew)].
  - by rewrite E in Hne.
  - rewrite E in Ew. symmetry in Ew. apply WriteFile_Ok in Ew as [_ ->].
    exists ds, id, l. by rewrite Hb.
Qed.

End store.

(** X7. [PutChaincodeToFS], on any package and however the write goes,
    never changes or removes a file the store holds; the only file it can
    add is the one at the install path of the name and the version of the
    package's deployment spec; and the store is changed only by a call
    that succeeds or that fails in the write. *)
Theorem X7_PutChaincodeToFS_keeps_existing_files `{ext : Externals}
    (p : CDSPackage.t) (sp : SignedCDSPackage.t) (o : FS.io) (fs : FS.t) :
  let r := CDSPackage.PutChaincodeToFS p o fs in
  let sr := SignedCDSPackage.PutChaincodeToFS sp o fs in
  (forall q l, fs !! q = Some l -> r.1 !! q = Some l /\ sr.1 !! q = Some l)
  /\ (forall q, fs !! q = None -> is_Some (r.1 !! q) ->
        exists ds id, CDSPackage.depSpec p = Some ds /\ chaincode_id ds = Ok id
                      /\ q = FS.install_path (Name id) (Version id))
  /\ (forall q, fs !! q = None -> is_Some (sr.1 !! q) ->
        exists ds id, SignedCDSPackage.depSpec sp = Some ds /\ chaincode_id ds = Ok id
                      /\ q = FS.install_path (Name id) (Version id))
  /\ (r.1 = fs \/ r.2 = Ok tt \/ r.2 = Err StorageError)
  /\ (sr.1 = fs \/ sr.2 = Ok tt \/ sr.2 = Err StorageError).
Proof.
  cbv zeta. split_and!.
  - intros q l Hq. split.
    + destruct (CDS_PutChaincodeToFS_store p o fs) as [->|(ds & id & _ & _ & Hg & _)];
        [done|]. by eapply grown_at_keeps.
    + destruct (SCDS_PutChaincodeToFS_store sp o fs) as [->|(ds & id & _ & _ & Hg & _)];
        [done|]. by eapply grown_at_keeps.
  - intros q Hq Hs.
    destruct (CDS_PutChaincodeToFS_store p o fs) as [E|(ds & id & Eds & Ei & Hg & _)].
    + rewrite E, Hq in Hs. by destruct Hs.
    + exists ds, id. split_and!; [done..|]. by eapply grown_at_new.
  - intros q Hq Hs.
    destruct (SCDS_PutChaincodeToFS_store sp o fs) as [E|(ds & id & Eds & Ei & Hg & _)].
    + rewrite E, Hq in Hs. by destruct Hs.
    + exists ds, id. split_and!; [done..|]. by eapply grown_at_new.
  - destruct (CDS_PutChaincodeToFS_store p o fs) as [E|(ds & id & _ & _ & _ & Hr)];
      [by left | by right].
  - destruct (SCDS_PutChaincodeToFS_store sp o fs) as [E|(ds & id & _ & _ & _ & Hr)];
      [by left | by right].
Qed.

(** X8. What was installed is what is loaded: after a successful
    [InitFromBuffer] and a successful [PutChaincodeToFS] of the package,
    [InitFromFS] with the name and the version of the [ChaincodeData] that
    [InitFromBuffer] returned, on any package, succeeds, returns the buffer
    that was given to [InitFromBuffer] and the package's deployment spec,
    and leaves the very package that was installed. *)
Theorem X8_install_then_load `{ext : Externals} :
  (forall b p0 p cd o (fs fs' : FS.t) q,
     CDSPackage.InitFromBuffer b p0 = (p, Ok cd) ->
     CDSPackage.PutChaincodeToFS p o fs = (fs', Ok tt) ->
     CDSPackage.InitFromFS fs' (CDName cd) (CDVersion cd) q
     = (p, Ok (b, CDSPackage.GetDepSpec p)))
  /\ (forall b p0 p cd o (fs fs' : FS.t) q,
        SignedCDSPackage.InitFromBuffer b p0 = (p, Ok cd) ->
        SignedCDSPackage.PutChaincodeToFS p o fs = (fs', Ok tt) ->
        SignedCDSPackage.InitFromFS fs' (CDName cd) (CDVersion cd) q
        = (p, Ok (b, SignedCDSPackage.GetDepSpec p))).
Proof.
  split.
  - intros b p0 p cd o fs fs' q Ei Ep.
    destruct (CDS_PutChaincodeToFS_Ok _ _ _ _ Ep)
      as (ds & id & d & l & (Eds & _ & Eid) & Eb & ->).
    pose proof Ei as (ds' & r & id' & _ & _ & Eid' & -> & ->)%CDS_InitFromBuffer_Ok.
    cbn in Eds, Eb. injection Eds as ->. subst b.
    rewrite Eid in Eid'. injection Eid' as <-. cbn [CDName CDVersion].
    rewrite (CDS_InitFromFS_Some _ _ _ _ l) by apply lookup_insert_eq. cbv zeta.
    rewrite (CDS_InitFromBuffer_from_empty _ q), <- (CDS_InitFromBuffer_from_empty _ p0).
    by rewrite Ei.
  - intros b p0 p cd o fs fs' q Ei Ep.
    destruct (SCDS_PutChaincodeToFS_Ok _ _ _ _ Ep) as (ds & id & l & Eds & Eid & Eb & ->).
    pose proof Ei
      as (e & chdr & sds & ds' & r & id' & _ & _ & _ & _ & _ & Eid' & -> & ->)
      %SCDS_InitFromBuffer_Ok.
    cbn in Eds, Eb. injection Eds as ->. subst b.
    rewrite Eid in Eid'. injection Eid' as <-. cbn [CDName CDVersion].
    rewrite (SCDS_InitFromFS_Some _ _ _ _ l) by apply lookup_insert_eq. cbv zeta.
    rewrite (SCDS_InitFromBuffer_from_empty _ (SignedCDSPackage.mk _ _ _ _ _)),
      <- (SCDS_InitFromBuffer_from_empty _ p0).
    by rewrite Ei.
Qed.

(** X8, on the two packages of mycc installed into an empty store and
    loaded into fresh packages. *)
Lemma X8_install_then_load_witness :
  (exists fs' : FS.t,
     @CDSPackage.PutChaincodeToFS Reference.externals Reference.unsigned_init.1
       FS.IoOk ∅ = (fs', Ok tt)
     /\ @CDSPackage.InitFromFS Reference.externals fs' "mycc" "1.0" CDSPackage.empty
        = (Reference.unsigned_init.1, Ok (Some Reference.mycc_bytes, Some Reference.mycc)))
  /\ (exists fs' : FS.t,
        @SignedCDSPackage.PutChaincodeToFS Reference.externals Reference.signed_init.1
          FS.IoOk ∅ = (fs', Ok tt)
        /\ @SignedCDSPackage.InitFromFS Reference.externals fs' "mycc" "1.0"
             SignedCDSPackage.empty
           = (Reference.signed_init.1,
              Ok (Some (Reference.envelope_of 6 Reference.signed_alice_bob),
                  Some Reference.mycc))).
Proof.
  destruct (@X8_install_then_load Reference.externals) as [HU HS].
  assert (is_Some (CDSPackage.buf Reference.unsigned_init.1)) as Hb
    by (vm_compute; eauto).
  assert (is_Some (SignedCDSPackage.buf Reference.signed_init.1)) as Hsb
    by (vm_compute; eauto).
  split.
  - eexists. split.
    + rewrite (CDS_PutChaincodeToFS_initialized _ _ _ _ _ _
                 Reference_unsigned_initialized Hb). reflexivity.
    + assert (exists cd, Reference.unsigned_init = (Reference.unsigned_init.1, Ok cd)
                         /\ CDName cd = "mycc" /\ CDVersion cd = "1.0")
        as (cd & E & En & Ev) by (eexists; split_and!; vm_compute; reflexivity).
      rewrite <- En at 1. rewrite <- Ev at 1.
      erewrite (HU _ _ _ _ FS.IoOk ∅ _ _ E); [by vm_compute|].
      rewrite (CDS_PutChaincodeToFS_initialized _ _ _ _ _ _
                 Reference_unsigned_initialized Hb). reflexivity.
  - eexists. split.
    + rewrite (SCDS_PutChaincodeToFS_initialized _ _ _ _ _ _
                 Reference_signed_initialized Hsb). reflexivity.
    + assert (exists cd, Reference.signed_init = (Reference.signed_init.1, Ok cd)
                         /\ CDName cd = "mycc" /\ CDVersion cd = "1.0")
        as (cd & E & En & Ev) by (eexists; split_and!; vm_compute; reflexivity).
      rewrite <- En at 1. rewrite <- Ev at 1.
      erewrite (HS _ _ _ _ FS.IoOk ∅ _ _ E); [by vm_compute|].
      rewrite (SCDS_PutChaincodeToFS_initialized _ _ _ _ _ _
                 Reference_signed_initialized Hsb). reflexivity.
Defined.

(** X9. Nothing is cleaned up after a failed write. For an initialised
    package that holds its buffer and a store with no file at its install
    path: when the file cannot be opened, [PutChaincodeToFS] fails and the
    store is as before; when the write stops after some bytes, it fails
    and leaves a file with those bytes at the path, and from then on every
    [PutChaincodeToFS] of the package fails with AlreadyExists. *)
Theorem X9_failed_write_blocks_reinstall `{ext : Externals}
    (p : CDSPackage.t) (sp : SignedCDSPackage.t)
    (ds sds : ChaincodeDeploymentSpec) (id sid : ChaincodeID)
    (d : CDSData) (sd : SignedCDSData) (fs : FS.t) (k : nat) :
  CDS_initialized p ds id d -> is_Some (CDSPackage.buf p) ->
  SCDS_initialized sp sds sid sd -> is_Some (SignedCDSPackage.buf sp) ->
  let path := FS.install_path (Name id) (Version id) in
  let spath := FS.install_path (Name sid) (Version sid) in
  let fs' := <[path := take k (content (CDSPackage.buf p))]> fs in
  let sfs' := <[spath := take k (content (SignedCDSPackage.buf sp))]> fs in
  (fs !! path = None ->
   CDSPackage.PutChaincodeToFS p FS.IoOpenFails fs = (fs, Err StorageError)
   /\ CDSPackage.PutChaincodeToFS p (FS.IoWriteFails k) fs = (fs', Err StorageError)
   /\ forall o, CDSPackage.PutChaincodeToFS p o fs' = (fs', Err (AlreadyExists path)))
  /\ (fs !! spath = None ->
      SignedCDSPackage.PutChaincodeToFS sp FS.IoOpenFails fs = (fs, Err StorageError)
      /\ SignedCDSPackage.PutChaincodeToFS sp (FS.IoWriteFails k) fs
         = (sfs', Err StorageError)
      /\ forall o, SignedCDSPackage.PutChaincodeToFS sp o sfs'
                   = (sfs', Err (AlreadyExists spath))).
Proof.
  intros Hp Hb Hsp Hsb path spath fs' sfs'. split; intros En%Stat_ok_false.
  - rewrite !(CDS_PutChaincodeToFS_initialized _ _ _ _ _ _ Hp Hb). cbv zeta.
    fold path. rewrite En. split_and!; [done..|]. intros o.
    rewrite (CDS_PutChaincodeToFS_initialized _ _ _ _ _ _ Hp Hb). cbv zeta. fold path.
    assert (FS.Stat_ok fs' path = true) as ->; [|done].
    apply Stat_ok_spec. unfold fs'. rewrite lookup_insert_eq. by eexists.
  - rewrite !(SCDS_PutChaincodeToFS_initialized _ _ _ _ _ _ Hsp Hsb). cbv zeta.
    fold spath. rewrite En. split_and!; [done..|]. intros o.
    rewrite (SCDS_PutChaincodeToFS_initialized _ _ _ _ _ _ Hsp Hsb). cbv zeta.
    fold spath.
    assert (FS.Stat_ok sfs' spath = true) as ->; [|done].
    apply Stat_ok_spec. unfold sfs'. rewrite lookup_insert_eq. by eexists.
Qed.

(** X9, on the unsigned package of mycc, an empty store and a write that
    stops after three bytes. *)
Lemma X9_failed_write_blocks_reinstall_witness :
  let path := "/var/hyperledger/production/chaincodes/mycc.1.0" in
  let fs' : FS.t := <[path := take 3 Reference.mycc_bytes]> ∅ in
  @CDSPackage.PutChaincodeToFS Reference.externals Reference.unsigned_init.1
    (FS.IoWriteFails 3) ∅ = (fs', Err StorageError)
  /\ @CDSPackage.PutChaincodeToFS Reference.externals Reference.unsigned_init.1
       FS.IoOk fs' = (fs', Err (AlreadyExists path)).
Proof.
  cbv zeta.
  assert (is_Some (CDSPackage.buf Reference.unsigned_init.1)) as Hb
    by (vm_compute; eauto).
  assert (is_Some (SignedCDSPackage.buf Reference.signed_init.1)) as Hsb
    by (vm_compute; eauto).
  destruct (@X9_failed_write_blocks_reinstall Reference.externals _ _ _ _ _ _ _ _ ∅ 3
              Reference_unsigned_initialized Hb
              Reference_signed_initialized Hsb) as [HU _].
  destruct (HU (lookup_empty _)) as (_ & E1 & E2).
  split; [exact E1 | exact (E2 FS.IoOk)].
Defined.

(** ** The install path *)

Lemma append_cons a s t : String a s +:+ t = String a (s +:+ t).
Proof. reflexivity. Qed.

Lemma append_assoc (a b c : string) : (a +:+ b) +:+ c = a +:+ (b +:+ c).
Proof.
  induction a as [|x a IH]; [done|]. by rewrite !append_cons, IH.
Qed.

(** The path is the install directory, the name, a dot and the version:
    a dot in the name or in the version is not told from the one between
    them. *)
Lemma install_path_dots `{ext : Externals} (n v w : string) :
  FS.install_path (n +:+ "." +:+ v) w = FS.install_path n (v +:+ "." +:+ w).
Proof. unfold FS.install_path. by rewrite !append_assoc. Qed.

(** X10. Two chaincodes can share an install path: when the name of one
    is the name of the other, a dot and some v, and the version of the
    other is v, a dot and the version of the first, the two paths are
    equal; once the first package is installed, the file at the path of
    the second holds the buffer of the first, and [PutChaincodeToFS] of the
    second fails with AlreadyExists. *)
Theorem X10_install_path_is_shared `{ext : Externals}
    (p1 p2 : CDSPackage.t) (ds1 ds2 : ChaincodeDeploymentSpec)
    (id1 id2 : ChaincodeID) (d1 d2 : CDSData) (v : string) :
  CDS_initialized p1 ds1 id1 d1 -> is_Some (CDSPackage.buf p1) ->
  CDS_initialized p2 ds2 id2 d2 -> is_Some (CDSPackage.buf p2) ->
  Name id1 = Name id2 +:+ "." +:+ v ->
  Version id2 = v +:+ "." +:+ Version id1 ->
  FS.install_path (Name id1) (Version id1) = FS.install_path (Name id2) (Version id2)
  /\ forall (fs fs' : FS.t) o,
       CDSPackage.PutChaincodeToFS p1 o fs = (fs', Ok tt) ->
       fs' !! FS.install_path (Name id2) (Version id2)
       = Some (content (CDSPackage.buf p1))
       /\ forall o', CDSPackage.PutChaincodeToFS p2 o' fs'
                     = (fs', Err (AlreadyExists
                                    (FS.install_path (Name id2) (Version id2)))).
Proof.
  intros H1 Hb1 H2 Hb2 En Ev.
  assert (FS.install_path (Name id1) (Version id1)
          = FS.install_path (Name id2) (Version id2)) as Epath.
  { rewrite En, Ev. apply install_path_dots. }
  split; [done|]. intros fs fs' o Ep.
  destruct (CDS_PutChaincodeToFS_Ok _ _ _ _ Ep)
    as (ds & id & d & l & (Eds & _ & Eid) & Eb & ->).
  destruct H1 as (Eds1 & _ & Eid1). rewrite Eds1 in Eds. injection Eds as <-.
  rewrite Eid1 in Eid. injection Eid as <-. rewrite Epath, Eb. split.
  - apply lookup_insert_eq.
  - intros o'. rewrite (CDS_PutChaincodeToFS_initialized _ _ _ _ _ _ H2 Hb2). cbv zeta.
    assert (FS.Stat_ok (<[FS.install_path (Name id2) (Version id2) := l]> fs)
              (FS.install_path (Name id2) (Version id2)) = true) as ->; [|done].
    apply Stat_ok_spec. rewrite lookup_insert_eq. by eexists.
Qed.

(** X10, on the chaincode a.b, version c, and the chaincode a, version
    b.c. *)
Lemma X10_install_path_is_shared_witness :
  let ds1 := Reference.deployment "a.b" "c" "one" in
  let ds2 := Reference.deployment "a" "b.c" "two" in
  let p1 := (Reference.unsigned_of ds1).1 in
  let p2 := (Reference.unsigned_of ds2).1 in
  let path := "/var/hyperledger/production/chaincodes/a.b.c" in
  let fs' : FS.t := <[path := Proto.marshal_ChaincodeDeploymentSpec ds1]> ∅ in
  CDSPackage.GetDepSpec p1 = Some ds1 /\ CDSPackage.GetDepSpec p2 = Some ds2
  /\ @CDSPackage.PutChaincodeToFS Reference.externals p1 FS.IoOk ∅ = (fs', Ok tt)
  /\ @CDSPackage.PutChaincodeToFS Reference.externals p2 FS.IoOk fs'
     = (fs', Err (AlreadyExists path)).
Proof.
  cbv zeta.
  assert (CDS_initialized (Reference.unsigned_of (Reference.deployment "a.b" "c" "one")).1
            (Reference.deployment "a.b" "c" "one")
            {| Path := ""; Name := "a.b"; Version := "c" |}
            (CDS_digest SHA256.sum (Reference.deployment "a.b" "c" "one")
               {| Path := ""; Name := "a.b"; Version := "c" |})) as H1
    by (split_and!; by vm_compute).
  assert (CDS_initialized (Reference.unsigned_of (Reference.deployment "a" "b.c" "two")).1
            (Reference.deployment "a" "b.c" "two")
            {| Path := ""; Name := "a"; Version := "b.c" |}
            (CDS_digest SHA256.sum (Reference.deployment "a" "b.c" "two")
               {| Path := ""; Name := "a"; Version := "b.c" |})) as H2
    by (split_and!; by vm_compute).
  assert (is_Some (CDSPackage.buf
            (Reference.unsigned_of (Reference.deployment "a.b" "c" "one")).1)) as Hb1
    by (vm_compute; eauto).
  assert (is_Some (CDSPackage.buf
            (Reference.unsigned_of (Reference.deployment "a" "b.c" "two")).1)) as Hb2
    by (vm_compute; eauto).
  destruct (@X10_install_path_is_shared Reference.externals _ _ _ _ _ _ _ _ "b"
              H1 Hb1 H2 Hb2 eq_refl eq_refl) as [_ HP].
  assert (@CDSPackage.PutChaincodeToFS Reference.externals
            (Reference.unsigned_of (Reference.deployment "a.b" "c" "one")).1 FS.IoOk ∅
          = (<["/var/hyperledger/production/chaincodes/a.b.c" :=
               Proto.marshal_ChaincodeDeploymentSpec
                 (Reference.deployment "a.b" "c" "one")]> ∅, Ok tt)) as E.
  { rewrite (CDS_PutChaincodeToFS_initialized _ _ _ _ _ _ H1 Hb1). reflexivity. }
  split_and!.
  - by vm_compute.
  - by vm_compute.
  - exact E.
  - exact (proj2 (HP _ _ _ E) FS.IoOk).
Defined.

(** ** Sequences of calls: the packages that can be reached *)

Section reachable.
Context `{ext : Externals}.

Lemma CDS_InitFromBuffer_wf b p : CDS_wf (CDSPackage.InitFromBuffer b p).1.
Proof.
  destruct (CDSPackage.InitFromBuffer b p) as [p' r] eqn:E.
  destruct (is_Ok r) eqn:Er.
  - destruct r as [cd| |]; [|done..].
    apply CDS_InitFromBuffer_initialized in E as (ds & id & d & _ & _ & Hi & _).
    right. by exists ds, id, d.
  - left. by eapply CDS_InitFromBuffer_not_Ok.
Qed.

Lemma CDS_InitFromFS_wf fs n v p : CDS_wf (CDSPackage.InitFromFS fs n v p).1.
Proof.
  destruct (fs !! FS.install_path n v) as [l|] eqn:E.
  - rewrite (CDS_InitFromFS_Some _ _ _ _ _ E). cbv zeta.
    pose proof (CDS_InitFromBuffer_wf (Some l) p).
    by destruct (CDSPackage.InitFromBuffer (Some l) p) as [q [| |]].
  - rewrite (CDS_InitFromFS_None _ _ _ _ E). by left.
Qed.

Lemma CDS_step_wf o w : CDS_wf w.1 -> CDS_wf (CDS_step o w).1.1.
Proof.
  intros Hw. destruct o as [b|n v|cd|io]; unfold CDS_step; cbv zeta; cbn [fst];
    try done.
  - apply CDS_InitFromBuffer_wf.
  - apply CDS_InitFromFS_wf.
Qed.

Lemma CDS_run_wf ops w : CDS_wf w.1 -> CDS_wf (run CDS_step ops w).1.1.
Proof.
  revert w. induction ops as [|o ops IH]; intros w Hw; cbn; [done|].
  apply IH. by apply CDS_step_wf.
Qed.

Lemma SCDS_InitFromBuffer_wf b p : SCDS_wf (SignedCDSPackage.InitFromBuffer b p).1.
Proof.
  destruct (SignedCDSPackage.InitFromBuffer b p) as [p' r] eqn:E.
  destruct (is_Ok r) eqn:Er.
  - destruct r as [cd| |]; [|done..].
    apply SCDS_InitFromBuffer_Ok in E
      as (e & chdr & sds & ds & r & id & _ & _ & _ & _ & _ & Ei & -> & _).
    right. exists ds, id, r.2. split_and!; by eauto.
  - left. by rewrite (SCDS_InitFromBuffer_not_Ok _ _ _ _ E Er).
Qed.

Lemma SCDS_InitFromFS_wf (fs : FS.t) n v p :
  SCDS_wf (SignedCDSPackage.InitFromFS fs n v p).1.
Proof.
  destruct (fs !! FS.install_path n v) as [l|] eqn:E.
  - rewrite (SCDS_InitFromFS_Some _ _ _ _ _ E). cbv zeta.
    pose proof (SCDS_InitFromBuffer_wf (Some l)
                  (SignedCDSPackage.mk None None None None (SignedCDSPackage.data p))).
    by destruct (SignedCDSPackage.InitFromBuffer (Some l) _) as [q [| |]].
  - rewrite (SCDS_InitFromFS_NotFound _ _ _ _ E). by left.
Qed.

Lemma SCDS_step_wf o w : SCDS_wf w.1 -> SCDS_wf (SCDS_step o w).1.1.
Proof.
  intros Hw. destruct o as [b|n v|cd|io]; unfold SCDS_step; cbv zeta; cbn [fst];
    try done.
  - apply SCDS_InitFromBuffer_wf.
  - apply SCDS_InitFromFS_wf.
Qed.

Lemma SCDS_run_wf ops w : SCDS_wf w.1 -> SCDS_wf (run SCDS_step ops w).1.1.
Proof.
  revert w. induction ops as [|o ops IH]; intros w Hw; cbn; [done|].
  apply IH. by apply SCDS_step_wf.
Qed.

(** On such a package the two operations that read it panic only for a
    nil argument. *)
Lemma CDS_wf_no_panic p :
  CDS_wf p ->
  (forall o (fs : FS.t) x, (CDSPackage.PutChaincodeToFS p o fs).2 <> Panic x)
  /\ (forall cd x, CDSPackage.ValidateCC p (Some cd) <> Panic x)
  /\ (forall x, CDSPackage.ValidateCC p None = Panic x -> x = PanicNilDeref "ccdata").
Proof.
  intros [->|(ds & id & d & Hi)]; [by split_and!|]. split_and!.
  - intros o fs x. unfold CDSPackage.PutChaincodeToFS. go_unfold.
    destruct Hi as (-> & -> & Ei). destruct (CDSPackage.buf p); [|done].
    cbn [not_nil deref]. rewrite Ei. cbv zeta.
    destruct (FS.Stat_ok _ _); [done|]. by destruct o.
  - intros cd x. rewrite (CDS_ValidateCC_initialized _ _ _ _ _ Hi).
    destruct (_ || _); [done|]. destruct (Unmarshal_CDSData _); [|done].
    by case_decide.
  - intros x. unfold CDSPackage.ValidateCC. go_unfold.
    destruct Hi as (-> & -> & Ei). cbn. by intros [= <-].
Qed.

Lemma SCDS_wf_no_panic p :
  SCDS_wf p ->
  (forall o (fs : FS.t) x, (SignedCDSPackage.PutChaincodeToFS p o fs).2 <> Panic x)
  /\ (forall cd x, SignedCDSPackage.ValidateCC p (Some cd) <> Panic x)
  /\ (forall x, SignedCDSPackage.ValidateCC p None = Panic x
                -> x = PanicNilDeref "ccdata").
Proof.
  intros [(Eb & Ed & Es & Ee)|(ds & id & d & Eds & [sds Es] & [e Ee] & Ed & Ei)].
  - destruct (SCDS_uninitialized p Eb Ed Es Ee) as (HV & HP & _). split_and!.
    + intros o fs x. by rewrite HP.
    + intros cd x. by rewrite HV.
    + intros x. by rewrite HV.
  - split_and!.
    + intros o fs x. unfold SignedCDSPackage.PutChaincodeToFS. go_unfold.
      rewrite Eds, Es, Ee, Ed. destruct (SignedCDSPackage.buf p); [|done].
      cbn [not_nil deref andb]. rewrite Ei. cbv zeta.
      destruct (FS.Stat_ok _ _); [done|]. by destruct o.
    + intros cd x. unfold SignedCDSPackage.ValidateCC. go_unfold.
      rewrite Eds, Es, Ed. cbn [not_nil negb deref].
      destruct (ChaincodeDeploymentSpec_ sds); [|done]. cbn [not_nil negb].
      rewrite Ei. destruct (_ || _); [done|].
      destruct (Unmarshal_SignedCDSData _); [|done].
      rewrite SignedCDSData_Equals_same. by case_bool_decide.
    + intros x. unfold SignedCDSPackage.ValidateCC. go_unfold.
      rewrite Eds, Es. cbn [not_nil negb deref].
      destruct (ChaincodeDeploymentSpec_ sds); [|done]. cbn. by intros [= <-].
Qed.

End reachable.

(** X11. Whatever the collaborators do, after any sequence of public
    operations on a fresh package, over any store and going on after
    panics, the package is all or nothing: either no field that the
    operations test is set, or the deployment spec and the digest record
    are set and the spec names a chaincode id (in the signed package the
    signed spec and the envelope are set too). On such a package
    [PutChaincodeToFS] never panics, [ValidateCC] never panics on an
    argument that is not nil, and on a nil argument it can only panic by
    dereferencing that argument. *)
Theorem X11_reachable_packages `{ext : Externals} (ops : list op) (fs : FS.t) :
  let p := (run CDS_step ops (CDSPackage.empty, fs)).1.1 in
  let sp := (run SCDS_step ops (SignedCDSPackage.empty, fs)).1.1 in
  CDS_wf p /\ SCDS_wf sp
  /\ (forall o (fs0 : FS.t) x,
        (CDSPackage.PutChaincodeToFS p o fs0).2 <> Panic x
        /\ (SignedCDSPackage.PutChaincodeToFS sp o fs0).2 <> Panic x)
  /\ (forall cd x,
        CDSPackage.ValidateCC p (Some cd) <> Panic x
        /\ SignedCDSPackage.ValidateCC sp (Some cd) <> Panic x)
  /\ (forall x,
        (CDSPackage.ValidateCC p None = Panic x -> x = PanicNilDeref "ccdata")
        /\ (SignedCDSPackage.ValidateCC sp None = Panic x
            -> x = PanicNilDeref "ccdata")).
Proof.
  intros p sp.
  assert (CDS_wf p) as Hp by (apply CDS_run_wf; by left).
  assert (SCDS_wf sp) as Hsp by (apply SCDS_run_wf; by left).
  destruct (CDS_wf_no_panic p Hp) as (H1 & H2 & H3).
  destruct (SCDS_wf_no_panic sp Hsp) as (S1 & S2 & S3).
  split_and!; [done..| | |]; intros; split; eauto.
Qed.

(** ** The digest records: what they depend on *)

(** X12. The digest computation of the signed package reads three things
    of a signed spec: the bytes of the embedded deployment spec, the
    instantiation policy (its bytes, and whether it is nil), and the
    endorser bytes of the endorsements, one after the other. Two signed
    specs that agree on these get the same result, whatever else differs:
    the signatures of the endorsements, or how the same endorser bytes are
    divided among the endorsements. *)
Theorem X12_signed_digest_reads_three_things `{ext : Externals}
    (scds scds' : SignedChaincodeDeploymentSpec) :
  content (ChaincodeDeploymentSpec_ scds) = content (ChaincodeDeploymentSpec_ scds') ->
  not_nil (InstantiationPolicy scds) = not_nil (InstantiationPolicy scds') ->
  content (InstantiationPolicy scds) = content (InstantiationPolicy scds') ->
  concat (map (fun o => content (Endorser o)) (OwnerEndorsements scds))
  = concat (map (fun o => content (Endorser o)) (OwnerEndorsements scds')) ->
  SignedCDSPackage.getCDSData (Some scds) = SignedCDSPackage.getCDSData (Some scds').
Proof.
  intros Ec En Ep Ee. unfold SignedCDSPackage.getCDSData. go_unfold.
  rewrite Ec, En.
  destruct (Unmarshal_CDS _) as [cds|]; [|done].
  destruct InitFactories; [|done]. destruct GetHash as [H|]; [|done].
  destruct (chaincode_id cds) as [id| |]; [|done..].
  destruct (not_nil (InstantiationPolicy scds')); [|done].
  rewrite !write_endorsers_written.
  cbn [Hash.Write Hash.Reset Hash.New Hash.written Hash.digest].
  by rewrite Ep, Ee.
Qed.

(** X12, on two signed packages of mycc whose endorsements carry
    different signatures. *)
Lemma X12_signed_digest_reads_three_things_witness :
  let signed_by (who sig : string) :=
    {| Endorser := Some (bytes who); Signature := Some (bytes sig) |} in
  let scds := Reference.signed_mycc (Some (bytes "policy"))
                [signed_by "alice" "s1"; signed_by "bob" "s2"] in
  let scds' := Reference.signed_mycc (Some (bytes "policy"))
                 [signed_by "alice" "forged"; signed_by "bob" ""] in
  scds <> scds'
  /\ is_Ok (@SignedCDSPackage.getCDSData Reference.externals (Some scds)) = true
  /\ @SignedCDSPackage.getCDSData Reference.externals (Some scds)
     = @SignedCDSPackage.getCDSData Reference.externals (Some scds').
Proof.
  cbv zeta. split_and!.
  - discriminate.
  - by vm_compute.
  - apply (@X12_signed_digest_reads_three_things Reference.externals); reflexivity.
Defined.

(** X13. The digest record of a signed package extends the one of the
    unsigned package: for a signed spec that embeds a deployment spec, the
    code hash and the metadata hash that the signed digest computation
    returns are those that the unsigned one returns for the deployment
    spec. *)
Theorem X13_signed_digest_extends_unsigned `{ext : Externals}
    (cds : ChaincodeDeploymentSpec) (scds : SignedChaincodeDeploymentSpec)
    (r : slice * CDSData) (sr : slice * SignedCDSData) :
  Unmarshal_CDS (content (ChaincodeDeploymentSpec_ scds)) = Some cds ->
  CDSPackage.getCDSData (Some cds) = Ok r ->
  SignedCDSPackage.getCDSData (Some scds) = Ok sr ->
  SCodeHash sr.2 = CodeHash r.2 /\ SMetaDataHash sr.2 = MetaDataHash r.2.
Proof.
  intros Ec (H & id & b & _ & _ & Eh & Ei & _ & ->)%CDS_getCDSData_Ok
    (cds' & H' & id' & sb & Ec' & _ & Eh' & Ei' & _ & _ & ->)%SCDS_getCDSData_Ok.
  rewrite Ec in Ec'. injection Ec' as <-.
  rewrite Eh in Eh'. injection Eh' as <-.
  rewrite Ei in Ei'. injection Ei' as <-. done.
Qed.

(** X13, on mycc and the signed package of it. *)
Lemma X13_signed_digest_extends_unsigned_witness :
  exists r sr,
    @CDSPackage.getCDSData Reference.externals (Some Reference.mycc) = Ok r
    /\ @SignedCDSPackage.getCDSData Reference.externals
         (Some Reference.signed_alice_bob) = Ok sr
    /\ SCodeHash sr.2 = CodeHash r.2 /\ SMetaDataHash sr.2 = MetaDataHash r.2.
Proof.
  assert (exists r, @CDSPackage.getCDSData Reference.externals (Some Reference.mycc)
                    = Ok r) as [r Er]
    by (eexists; vm_compute; reflexivity).
  assert (exists sr, @SignedCDSPackage.getCDSData Reference.externals
                       (Some Reference.signed_alice_bob) = Ok sr) as [sr Esr]
    by (eexists; vm_compute; reflexivity).
  exists r, sr. split; [exact Er|]. split; [exact Esr|].
  apply (@X13_signed_digest_extends_unsigned Reference.externals Reference.mycc
           Reference.signed_alice_bob r sr); [by vm_compute | exact Er | exact Esr].
Defined.

(** X14. [Equals] of both digest records compares the bytes held, field
    by field: on records that are not nil it is reflexive, symmetric and
    transitive, and it holds exactly when every field has the same bytes,
    a nil hash counting as an empty one. A nil argument is never equal,
    also for a nil receiver; a nil receiver with an argument that is not
    nil is a nil dereference. *)
Theorem X14_Equals_compares_contents :
  (forall d o e : CDSData,
     CDSData_Equals (Some d) (Some d) = Ok true
     /\ CDSData_Equals (Some d) (Some o) = CDSData_Equals (Some o) (Some d)
     /\ (CDSData_Equals (Some d) (Some o) = Ok true ->
         CDSData_Equals (Some o) (Some e) = Ok true ->
         CDSData_Equals (Some d) (Some e) = Ok true)
     /\ (CDSData_Equals (Some d) (Some o) = Ok true <->
         content (CodeHash d) = content (CodeHash o)
         /\ content (MetaDataHash d) = content (MetaDataHash o)))
  /\ (forall d o e : SignedCDSData,
        SignedCDSData_Equals (Some d) (Some d) = Ok true
        /\ SignedCDSData_Equals (Some d) (Some o) = SignedCDSData_Equals (Some o) (Some d)
        /\ (SignedCDSData_Equals (Some d) (Some o) = Ok true ->
            SignedCDSData_Equals (Some o) (Some e) = Ok true ->
            SignedCDSData_Equals (Some d) (Some e) = Ok true)
        /\ (SignedCDSData_Equals (Some d) (Some o) = Ok true <->
            content (SCodeHash d) = content (SCodeHash o)
            /\ content (SMetaDataHash d) = content (SMetaDataHash o)
            /\ content (SignatureHash d) = content (SignatureHash o)))
  /\ (forall data, CDSData_Equals data None = Ok false)
  /\ (forall data, SignedCDSData_Equals data None = Ok false)
  /\ (forall o, CDSData_Equals None (Some o) = Panic (PanicNilDeref "data"))
  /\ (forall o, SignedCDSData_Equals None (Some o) = Panic (PanicNilDeref "data")).
Proof.
  assert (forall d o, CDSData_Equals (Some d) (Some o) = Ok true <-> CDSData_same d o)
    as HE.
  { intros d o. rewrite CDSData_Equals_same. split.
    - intros [= E]. by apply bool_decide_eq_true in E.
    - intros E. by rewrite bool_decide_eq_true_2. }
  assert (forall d o, SignedCDSData_Equals (Some d) (Some o) = Ok true
                      <-> SignedCDSData_same d o) as HS.
  { intros d o. rewrite SignedCDSData_Equals_same. split.
    - intros [= E]. by apply bool_decide_eq_true in E.
    - intros E. by rewrite bool_decide_eq_true_2. }
  split_and!; try done.
  - intros d o e. split_and!.
    + by apply HE.
    + rewrite !CDSData_Equals_same. f_equal. apply bool_decide_ext.
      unfold CDSData_same. intuition congruence.
    + rewrite !HE. unfold CDSData_same. intuition congruence.
    + apply HE.
  - intros d o e. split_and!.
    + by apply HS.
    + rewrite !SignedCDSData_Equals_same. f_equal. apply bool_decide_ext.
      unfold SignedCDSData_same. intuition congruence.
    + rewrite !HS. unfold SignedCDSData_same. intuition congruence.
    + apply HS.
Qed.

(** X15. The code hash that [getCDSData] returns is as long as the code
    package and one digest together, and it tells code packages apart
    whatever the hash function is: two deployment specs get the same code
    hash exactly when their code packages hold the same bytes. *)
Theorem X15_codeHash_tells_code_packages_apart `{ext : Externals}
    (H : list byte -> list byte) (cds cds' : ChaincodeDeploymentSpec)
    (r r' : slice * CDSData) :
  GetHash = Some H ->
  CDSPackage.getCDSData (Some cds) = Ok r ->
  CDSPackage.getCDSData (Some cds') = Ok r' ->
  length (content (CodeHash r.2)) = length (content (CodePackage cds)) + length (H [])
  /\ (content (CodeHash r.2) = content (CodeHash r'.2)
      <-> content (CodePackage cds) = content (CodePackage cds')).
Proof.
  intros Eh (H1 & id & b & _ & _ & Eh1 & _ & _ & ->)%CDS_getCDSData_Ok
    (H2 & id' & b' & _ & _ & Eh2 & _ & _ & ->)%CDS_getCDSData_Ok.
  rewrite Eh in Eh1, Eh2. injection Eh1 as <-. injection Eh2 as <-.
  cbn [snd CDS_digest CodeHash]. rewrite !content_append. split.
  - by rewrite length_app.
  - split; [by intros ?%(inj (.++ H [])) | by intros ->].
Qed.

(** X15, on mycc with the code package abc and with a code package of a
    thousand bytes. *)
Lemma X15_codeHash_tells_code_packages_apart_witness :
  let big := {| ChaincodeSpec_ := ChaincodeSpec_ Reference.mycc;
                CodePackage := Some (replicate 1000 "000"%byte) |} in
  exists r r',
    @CDSPackage.getCDSData Reference.externals (Some Reference.mycc) = Ok r
    /\ @CDSPackage.getCDSData Reference.externals (Some big) = Ok r'
    /\ length (content (CodeHash r.2)) = 3 + 32
    /\ length (content (CodeHash r'.2)) = 1000 + 32
    /\ content (CodeHash r.2) <> content (CodeHash r'.2).
Proof.
  cbv zeta.
  assert (exists r, @CDSPackage.getCDSData Reference.externals (Some Reference.mycc)
                    = Ok r) as [r Er]
    by (eexists; vm_compute; reflexivity).
  assert (exists r', @CDSPackage.getCDSData Reference.externals
                       (Some {| ChaincodeSpec_ := ChaincodeSpec_ Reference.mycc;
                                CodePackage := Some (replicate 1000 "000"%byte) |})
                     = Ok r') as [r' Er']
    by (eexists; vm_compute; reflexivity).
  exists r, r'. split; [exact Er|]. split; [exact Er'|].
  destruct (@X15_codeHash_tells_code_packages_apart Reference.externals SHA256.sum
              _ _ r r' eq_refl Er Er') as [E1 E2].
  destruct (@X15_codeHash_tells_code_packages_apart Reference.externals SHA256.sum
              _ _ r' r eq_refl Er' Er) as [E1' _].
  split_and!.
  - rewrite E1. by vm_compute.
  - rewrite E1'. by vm_compute.
  - intros E. apply E2 in E. vm_compute in E. discriminate E.
Defined.

(** X16. The metadata hash does not record where the name ends and the
    version begins: two deployment specs with the same code package whose
    names and versions give the same bytes when written one after the
    other get the same digest record and the same encoding of it. *)
Theorem X16_metadataHash_forgets_the_boundary `{ext : Externals}
    (cds cds' : ChaincodeDeploymentSpec) (id id' : ChaincodeID) :
  chaincode_id cds = Ok id -> chaincode_id cds' = Ok id' ->
  is_Some (Marshal_CDS cds) -> is_Some (Marshal_CDS cds') ->
  CodePackage cds = CodePackage cds' ->
  bytes (Name id) ++ bytes (Version id) = bytes (Name id') ++ bytes (Version id') ->
  CDSPackage.getCDSData (Some cds) = CDSPackage.getCDSData (Some cds').
Proof.
  intros Ei Ei' [mb Em] [mb' Em'] Ec Eb. unfold CDSPackage.getCDSData. go_unfold.
  rewrite Em, Em', Ei, Ei', Ec.
  destruct InitFactories; [|done]. destruct GetHash as [H|]; [|done].
  rewrite !Sum_two_writes.
  change (content (bytes_of_string ?s)) with (String.list_byte_of_string s).
  by rewrite Eb.
Qed.

(** X16, on the chaincode mycc, version 1.0, and the chaincode my,
    version cc1.0, with the same code package. *)
Lemma X16_metadataHash_forgets_the_boundary_witness :
  is_Ok (@CDSPackage.getCDSData Reference.externals
           (Some (Reference.deployment "mycc" "1.0" "abc"))) = true
  /\ @CDSPackage.getCDSData Reference.externals
       (Some (Reference.deployment "mycc" "1.0" "abc"))
     = @CDSPackage.getCDSData Reference.externals
         (Some (Reference.deployment "my" "cc1.0" "abc")).
Proof.
  split; [by vm_compute|].
  apply (@X16_metadataHash_forgets_the_boundary Reference.externals
           (Reference.deployment "mycc" "1.0" "abc")
           (Reference.deployment "my" "cc1.0" "abc")
           {| Path := ""; Name := "mycc"; Version := "1.0" |}
           {| Path := ""; Name := "my"; Version := "cc1.0" |});
    try reflexivity; by eexists.
Defined.

(** ** Validation across packages *)

(** X17. The [ChaincodeData] that one unsigned package returned at
    initialisation, validated by another initialised unsigned package,
    given a codec that decodes an encoded digest record to the same
    hashes: IdentityMismatch when the names or the versions of the two
    differ; otherwise the second package's deployment spec when the two
    code packages hold the same bytes, and DigestMismatch when they do
    not. *)
Theorem X17_validation_across_packages `{ext : Externals} (laws : ExternalsLaws ext)
    (b b' : slice) (p0 q0 p q : CDSPackage.t) (cd cd' : ChaincodeData)
    (ds ds' : ChaincodeDeploymentSpec) :
  CDSPackage.InitFromBuffer b p0 = (p, Ok cd) ->
  CDSPackage.InitFromBuffer b' q0 = (q, Ok cd') ->
  CDSPackage.GetDepSpec p = Some ds -> CDSPackage.GetDepSpec q = Some ds' ->
  CDSPackage.ValidateCC q (Some cd) =
    if negb (String.eqb (CDName cd) (CDName cd'))
       || negb (String.eqb (CDVersion cd) (CDVersion cd'))
    then Err IdentityMismatch
    else if decide (content (CodePackage ds) = content (CodePackage ds'))
         then Ok ds' else Err DigestMismatch.
Proof.
  intros (ds1 & r & id & _ & Er & Ei & -> & ->)%CDS_InitFromBuffer_Ok
         (ds2 & r' & id' & _ & Er' & Ei' & -> & ->)%CDS_InitFromBuffer_Ok
         [= ->] [= ->].
  apply CDS_getCDSData_Ok in Er as (H & i1 & db & _ & _ & Eh & Ei1 & Eb & ->).
  apply CDS_getCDSData_Ok in Er' as (H' & i2 & db' & _ & _ & Eh' & Ei2 & Eb' & ->).
  rewrite Eh in Eh'. injection Eh' as <-.
  rewrite Ei in Ei1. injection Ei1 as <-. rewrite Ei' in Ei2. injection Ei2 as <-.
  rewrite (CDS_ValidateCC_initialized _ ds' id' (CDS_digest H ds' id')) by done.
  cbn [CDName CDVersion CDData fst snd].
  destruct (String.eqb_spec (Name id) (Name id')) as [En|]; [|done].
  destruct (String.eqb_spec (Version id) (Version id')) as [Ev|]; [|done].
  cbn [negb orb]. change (content (Some db)) with db.
  destruct (CDSData_codec _ _ Eb) as (o & -> & E1 & E2).
  apply decide_ext. unfold CDSData_same. rewrite E1, E2.
  cbn [CDS_digest CodeHash MetaDataHash]. rewrite !content_append, En, Ev. cbn.
  split.
  - by intros [?%(inj (.++ H [])) _].
  - by intros ->.
Qed.

(** X17, on two unsigned packages of mycc, version 1.0, with the code
    packages abc and abd. *)
Lemma X17_validation_across_packages_witness :
  let r := Reference.unsigned_of (Reference.deployment "mycc" "1.0" "abc") in
  let r' := Reference.unsigned_of (Reference.deployment "mycc" "1.0" "abd") in
  exists cd,
    r.2 = Ok cd
    /\ @CDSPackage.ValidateCC Reference.externals r.1 (Some cd)
       = Ok (Reference.deployment "mycc" "1.0" "abc")
    /\ @CDSPackage.ValidateCC Reference.externals r'.1 (Some cd) = Err DigestMismatch.
Proof.
  cbv zeta.
  assert (exists cd, Reference.unsigned_of (Reference.deployment "mycc" "1.0" "abc")
                     = ((Reference.unsigned_of
                           (Reference.deployment "mycc" "1.0" "abc")).1, Ok cd)
                     /\ CDName cd = "mycc" /\ CDVersion cd = "1.0")
    as (cd & E & En & Ev) by (eexists; split_and!; vm_compute; reflexivity).
  assert (exists cd', Reference.unsigned_of (Reference.deployment "mycc" "1.0" "abd")
                      = ((Reference.unsigned_of
                            (Reference.deployment "mycc" "1.0" "abd")).1, Ok cd')
                      /\ CDName cd' = "mycc" /\ CDVersion cd' = "1.0")
    as (cd' & E' & En' & Ev') by (eexists; split_and!; vm_compute; reflexivity).
  exists cd. split; [by rewrite E|]. split.
  - rewrite (@X17_validation_across_packages Reference.externals Reference_laws
               _ _ _ _ _ _ cd cd
               (Reference.deployment "mycc" "1.0" "abc")
               (Reference.deployment "mycc" "1.0" "abc") E E);
      [|by vm_compute..].
    rewrite En, Ev. by vm_compute.
  - rewrite (@X17_validation_across_packages Reference.externals Reference_laws
               _ _ _ _ _ _ cd cd'
               (Reference.deployment "mycc" "1.0" "abc")
               (Reference.deployment "mycc" "1.0" "abd") E E');
      [|by vm_compute..].
    rewrite En, Ev, En', Ev'. by vm_compute.
Defined.

(** X18. The same for signed packages, with the digest function H of the
    hash provider: IdentityMismatch when the names or the versions
    differ; otherwise the second package's deployment spec when the two
    code packages hold the same bytes and H agrees on the policy followed
    by the endorsers of the two signed specs, and DigestMismatch when not. *)
Theorem X18_signed_validation_across_packages `{ext : Externals}
    (laws : ExternalsLaws ext) (H : list byte -> list byte)
    (b b' : slice) (p0 q0 p q : SignedCDSPackage.t) (cd cd' : ChaincodeData)
    (ds ds' : ChaincodeDeploymentSpec) (sds sds' : SignedChaincodeDeploymentSpec) :
  GetHash = Some H ->
  SignedCDSPackage.InitFromBuffer b p0 = (p, Ok cd) ->
  SignedCDSPackage.InitFromBuffer b' q0 = (q, Ok cd') ->
  SignedCDSPackage.GetDepSpec p = Some ds -> SignedCDSPackage.GetDepSpec q = Some ds' ->
  SignedCDSPackage.sDepSpec p = Some sds -> SignedCDSPackage.sDepSpec q = Some sds' ->
  SignedCDSPackage.ValidateCC q (Some cd) =
    if negb (String.eqb (CDName cd) (CDName cd'))
       || negb (String.eqb (CDVersion cd) (CDVersion cd'))
    then Err IdentityMismatch
    else if decide (content (CodePackage ds) = content (CodePackage ds')
                    /\ H (signature_input sds) = H (signature_input sds'))
         then Ok ds' else Err DigestMismatch.
Proof.
  intros Eh Ep Eq.
  pose proof (SCDS_InitFromBuffer_initialized _ _ _ _ Eq)
    as (e' & chdr' & s2 & d2 & i2 & g2 & db' & _ & _ & _ & Hq & _).
  apply SCDS_InitFromBuffer_Ok in Ep
    as (e & chdr & s1 & d1 & r & i1 & _ & _ & _ & Eu & Er & Ei & -> & ->).
  apply SCDS_InitFromBuffer_Ok in Eq
    as (? & ? & ? & ? & r' & j2 & _ & _ & _ & Eu' & Er' & Ei' & -> & ->).
  intros [= ->] [= ->] [= ->] [= ->].
  apply SCDS_getCDSData_Ok in Er
    as (c1 & H1 & j1 & db & Ec1 & _ & Eh1 & Ej1 & _ & Eb & ->).
  apply SCDS_getCDSData_Ok in Er'
    as (c2 & H2 & k2 & db2 & Ec2 & _ & Eh2 & Ek2 & _ & Eb2 & ->).
  rewrite Eh in Eh1, Eh2. injection Eh1 as <-. injection Eh2 as <-.
  rewrite Eu in Ec1. injection Ec1 as <-. rewrite Eu' in Ec2. injection Ec2 as <-.
  rewrite Ei in Ej1. injection Ej1 as <-. rewrite Ei' in Ek2. injection Ek2 as <-.
  destruct Hq as (Hq1 & Hq2 & Hq3 & Hq4 & Hq5). cbn in Hq1, Hq4.
  injection Hq1 as <-. injection Hq4 as <-. rewrite Ei' in Hq5. injection Hq5 as <-.
  rewrite (SCDS_ValidateCC_initialized _ ds' j2 (SCDS_digest H ds' j2 sds')) by done.
  cbn [CDName CDVersion CDData fst snd].
  destruct (String.eqb_spec (Name i1) (Name j2)) as [En|]; [|done].
  destruct (String.eqb_spec (Version i1) (Version j2)) as [Ev|]; [|done].
  cbn [negb orb]. change (content (Some db)) with db.
  destruct (SignedCDSData_codec _ _ Eb) as (o & -> & E1 & E2 & E3).
  apply decide_ext. unfold SignedCDSData_same. rewrite E1, E2, E3.
  cbn [SCDS_digest SCodeHash SMetaDataHash SignatureHash].
  rewrite !content_append, En, Ev. cbn.
  split.
  - by intros (?%(inj (.++ H [])) & _ & ?).
  - by intros [-> ->].
Qed.

(** X18, on two signed packages of mycc: the same endorsers in another
    order are told apart, and endorsers that are divided differently but
    give the same bytes are not. *)
Lemma X18_signed_validation_across_packages_witness :
  let pol := Some (bytes "policy") in
  let r := Reference.signed_of
             (Reference.signed_mycc pol
                [Reference.endorsement "alice"; Reference.endorsement "bob"]) in
  let r1 := Reference.signed_of
              (Reference.signed_mycc pol
                 [Reference.endorsement "bob"; Reference.endorsement "alice"]) in
  let r2 := Reference.signed_of
              (Reference.signed_mycc pol
                 [Reference.endorsement "ali"; Reference.endorsement "cebob"]) in
  exists cd,
    r.2 = Ok cd
    /\ @SignedCDSPackage.ValidateCC Reference.externals r1.1 (Some cd)
       = Err DigestMismatch
    /\ @SignedCDSPackage.ValidateCC Reference.externals r2.1 (Some cd)
       = Ok Reference.mycc.
Proof.
  cbv zeta.
  set (pol := Some (bytes "policy")).
  set (s := Reference.signed_mycc pol
              [Reference.endorsement "alice"; Reference.endorsement "bob"]).
  set (s1 := Reference.signed_mycc pol
               [Reference.endorsement "bob"; Reference.endorsement "alice"]).
  set (s2 := Reference.signed_mycc pol
               [Reference.endorsement "ali"; Reference.endorsement "cebob"]).
  assert (forall x, x = s \/ x = s1 \/ x = s2 ->
            exists cd, Reference.signed_of x = ((Reference.signed_of x).1, Ok cd)
                       /\ CDName cd = "mycc" /\ CDVersion cd = "1.0") as Hinit.
  { intros x [->|[->| ->]]; eexists; split_and!; vm_compute; reflexivity. }
  destruct (Hinit s) as (cd & E & En & Ev); [by left|].
  destruct (Hinit s1) as (cd1 & E1 & En1 & Ev1); [by right; left|].
  destruct (Hinit s2) as (cd2 & E2 & En2 & Ev2); [by right; right|].
  exists cd. split; [by rewrite E|]. split.
  - rewrite (@X18_signed_validation_across_packages Reference.externals Reference_laws
               SHA256.sum _ _ _ _ _ _ cd cd1 Reference.mycc Reference.mycc s s1
               eq_refl E E1); [|by vm_compute..].
    rewrite En, Ev, En1, Ev1. by vm_compute.
  - rewrite (@X18_signed_validation_across_packages Reference.externals Reference_laws
               SHA256.sum _ _ _ _ _ _ cd cd2 Reference.mycc Reference.mycc s s2
               eq_refl E E2); [|by vm_compute..].
    rewrite En, Ev, En2, Ev2. by vm_compute.
Defined.

(** ** The remaining methods *)

(** X19. [Reset] on a record that is not nil succeeds and leaves the
    record with every hash nil: a record that [Equals] accepts exactly
    for the records that hold no byte in any hash. On a nil receiver it
    is a nil dereference. *)
Theorem X19_Reset_gives_the_empty_record :
  (forall d o,
     let r := CDSData_Reset (Some d) in
     r.2 = Ok tt
     /\ r.1 = Some {| CodeHash := None; MetaDataHash := None |}
     /\ (CDSData_Equals r.1 (Some o) = Ok true
         <-> content (CodeHash o) = [] /\ content (MetaDataHash o) = []))
  /\ (forall d o,
        let r := SignedCDSData_Reset (Some d) in
        r.2 = Ok tt
        /\ r.1 = Some {| SCodeHash := None; SMetaDataHash := None;
                         SignatureHash := None |}
        /\ (SignedCDSData_Equals r.1 (Some o) = Ok true
            <-> content (SCodeHash o) = [] /\ content (SMetaDataHash o) = []
                /\ content (SignatureHash o) = []))
  /\ CDSData_Reset None = (None, Panic (PanicNilDeref "data"))
  /\ SignedCDSData_Reset None = (None, Panic (PanicNilDeref "data")).
Proof.
  split_and!; [| |done..].
  - intros d o. cbv zeta. split_and!; [done..|].
    change (CDSData_Reset (Some d)).1
      with (Some {| CodeHash := None; MetaDataHash := None |}).
    rewrite CDSData_Equals_same. split.
    + intros [= E]. apply bool_decide_eq_true in E as [E1 E2]. by split.
    + intros [E1 E2]. by rewrite bool_decide_eq_true_2.
  - intros d o. cbv zeta. split_and!; [done..|].
    change (SignedCDSData_Reset (Some d)).1
      with (Some {| SCodeHash := None; SMetaDataHash := None; SignatureHash := None |}).
    rewrite SignedCDSData_Equals_same. split.
    + intros [= E]. apply bool_decide_eq_true in E as (E1 & E2 & E3). by split_and!.
    + intros (E1 & E2 & E3). by rewrite bool_decide_eq_true_2.
Qed.

(** ** Initialisation: the order of the checks *)

(** X20. The signed [InitFromBuffer] checks the type of the envelope
    before it looks at the signed spec: for a buffer whose envelope
    decodes and whose extraction succeeds with a channel header of
    another type than CHAINCODE_PACKAGE, it fails with WrongEnvelopeType
    and leaves the package empty, whatever the signed spec holds and
    whatever the hash provider does. *)
Theorem X20_envelope_type_is_checked_first `{ext : Externals}
    (b : slice) (e : Envelope) (chdr : ChannelHeader)
    (sds : SignedChaincodeDeploymentSpec) (p : SignedCDSPackage.t) :
  Unmarshal_Envelope (content b) = Some e ->
  ExtractSignedCCDepSpec e = Some (chdr, sds) ->
  Type_ chdr <> HeaderType_CHAINCODE_PACKAGE ->
  SignedCDSPackage.InitFromBuffer b p = (SignedCDSPackage.empty, Err WrongEnvelopeType).
Proof.
  intros Ee Ex Et. unfold SignedCDSPackage.InitFromBuffer. go_unfold. cbv beta iota.
  rewrite Ee, Ex. cbn [fst snd].
  by destruct (Z.eqb_spec (Type_ chdr) HeaderType_CHAINCODE_PACKAGE).
Qed.

(** X20, on an envelope of type 3 that carries a signed spec whose
    deployment spec does not decode and whose policy is nil. *)
Lemma X20_envelope_type_is_checked_first_witness :
  let sds := {| ChaincodeDeploymentSpec_ := Some ["255"%byte];
                InstantiationPolicy := None; OwnerEndorsements := [] |} in
  @SignedCDSPackage.InitFromBuffer Reference.externals
    (Some (Reference.envelope_of 3 sds)) Reference.signed_init.1
  = (SignedCDSPackage.empty, Err WrongEnvelopeType)
  /\ (@SignedCDSPackage.InitFromBuffer Reference.externals
        (Some (Reference.envelope_of 6 sds)) Reference.signed_init.1).2
     = Err DecodeError.
Proof.
  cbv zeta. split; [|by vm_compute].
  eapply (@X20_envelope_type_is_checked_first Reference.externals).
  - vm_compute. reflexivity.
  - vm_compute. reflexivity.
  - discriminate.
Defined.



(** ** The errors a caller can get *)

Section errors.
Context `{ext : Externals}.

Lemma CDS_getCDSData_Err cds e :
  CDSPackage.getCDSData (Some cds) = Err e -> e ∈ [MarshalError; HashProviderError].
Proof.
  unfold CDSPackage.getCDSData. go_unfold.
  destruct (Marshal_CDS cds); [|intros [= <-]; set_solver].
  destruct InitFactories; [|intros [= <-]; set_solver].
  destruct GetHash; [|intros [= <-]; set_solver].
  destruct (chaincode_id cds) as [id|e'|x] eqn:Ei;
    [|by apply chaincode_id_not_Err in Ei|done].
  destruct (Marshal_CDSData _); [done|intros [= <-]; set_solver].
Qed.

Lemma SCDS_getCDSData_Err scds e :
  SignedCDSPackage.getCDSData (Some scds) = Err e ->
  e ∈ [DecodeError; HashProviderError; PolicyMissing; MarshalError].
Proof.
  unfold SignedCDSPackage.getCDSData. go_unfold.
  destruct (Unmarshal_CDS _) as [cds|]; [|intros [= <-]; set_solver].
  destruct InitFactories; [|intros [= <-]; set_solver].
  destruct GetHash; [|intros [= <-]; set_solver].
  destruct (chaincode_id cds) as [id|e'|x] eqn:Ei;
    [|by apply chaincode_id_not_Err in Ei|done].
  destruct (not_nil _); [|intros [= <-]; set_solver].
  destruct (Marshal_SignedCDSData _); [done|intros [= <-]; set_solver].
Qed.

Lemma CDS_InitFromBuffer_Err b p e :
  (CDSPackage.InitFromBuffer b p).2 = Err e ->
  e ∈ [DecodeError; MarshalError; HashProviderError].
Proof.
  unfold CDSPackage.InitFromBuffer. go_unfold. cbv beta iota.
  destruct (Unmarshal_CDS _) as [ds|]; [|intros [= <-]; set_solver].
  destruct (CDSPackage.getCDSData (Some ds)) as [r|e'|x] eqn:Er; cbn [snd].
  - destruct (chaincode_id ds) as [id|e'|x] eqn:Ei;
      [done|by apply chaincode_id_not_Err in Ei|done].
  - intros [= <-]. apply CDS_getCDSData_Err in Er. set_unfold. tauto.
  - done.
Qed.

Lemma SCDS_InitFromBuffer_Err b p e :
  (SignedCDSPackage.InitFromBuffer b p).2 = Err e ->
  e ∈ [DecodeError; ExtractionError; WrongEnvelopeType; HashProviderError;
       PolicyMissing; MarshalError].
Proof.
  unfold SignedCDSPackage.InitFromBuffer. go_unfold. cbv beta iota.
  destruct (Unmarshal_Envelope _) as [en|]; [|intros [= <-]; set_solver].
  destruct (ExtractSignedCCDepSpec en) as [[chdr sds]|]; [|intros [= <-]; set_solver].
  cbn [fst snd].
  destruct (Type_ chdr =? _)%Z; [|intros [= <-]; set_solver].
  destruct (Unmarshal_CDS _) as [ds|]; [|intros [= <-]; set_solver].
  destruct (SignedCDSPackage.getCDSData (Some sds)) as [r|e'|x] eqn:Er; cbn [snd].
  - destruct (chaincode_id ds) as [id|e'|x] eqn:Ei;
      [done|by apply chaincode_id_not_Err in Ei|done].
  - intros [= <-]. apply SCDS_getCDSData_Err in Er. set_unfold. tauto.
  - done.
Qed.

End errors.

(** X22. The errors a caller can get, operation by operation and for any
    collaborators: [InitFromBuffer] fails only in decoding, in encoding or
    in the hash provider (the signed one also in the extraction, on the
    type of the envelope and on a missing policy); [InitFromFS] fails in
    the same ways or with NotFound; [ValidateCC] fails only with an
    uninitialised package, IdentityMismatch, a decoding error or
    DigestMismatch; [PutChaincodeToFS] fails only with an uninitialised
    package, AlreadyExists or a failed write. *)
Theorem X22_errors_returned `{ext : Externals} :
  (forall b p e,
     (CDSPackage.InitFromBuffer b p).2 = Err e ->
     e ∈ [DecodeError; MarshalError; HashProviderError])
  /\ (forall b p e,
        (SignedCDSPackage.InitFromBuffer b p).2 = Err e ->
        e ∈ [DecodeError; ExtractionError; WrongEnvelopeType; HashProviderError;
             PolicyMissing; MarshalError])
  /\ (forall (fs : FS.t) n v p e,
        (CDSPackage.InitFromFS fs n v p).2 = Err e ->
        e ∈ [NotFound; DecodeError; MarshalError; HashProviderError])
  /\ (forall (fs : FS.t) n v p e,
        (SignedCDSPackage.InitFromFS fs n v p).2 = Err e ->
        e ∈ [NotFound; DecodeError; ExtractionError; WrongEnvelopeType;
             HashProviderError; PolicyMissing; MarshalError])
  /\ (forall p ccdata e,
        CDSPackage.ValidateCC p ccdata = Err e ->
        e ∈ [Uninitialized "uninitialized package"; Uninitialized "nil data";
             IdentityMismatch; DecodeError; DigestMismatch])
  /\ (forall p ccdata e,
        SignedCDSPackage.ValidateCC p ccdata = Err e ->
        e ∈ [Uninitialized "uninitialized package";
             Uninitialized "signed chaincode deployment spec cannot be nil in a package";
             Uninitialized "chaincode deployment spec cannot be nil in a package";
             IdentityMismatch; DecodeError; DigestMismatch])
  /\ (forall p o (fs : FS.t) e,
        (CDSPackage.PutChaincodeToFS p o fs).2 = Err e ->
        (exists msg, e = Uninitialized msg) \/ (exists path, e = AlreadyExists path)
        \/ e = StorageError)
  /\ (forall p o (fs : FS.t) e,
        (SignedCDSPackage.PutChaincodeToFS p o fs).2 = Err e ->
        (exists msg, e = Uninitialized msg) \/ (exists path, e = AlreadyExists path)
        \/ e = StorageError).
Proof.
  split_and!.
  - apply @CDS_InitFromBuffer_Err.
  - apply @SCDS_InitFromBuffer_Err.
  - intros fs n v p e. destruct (fs !! FS.install_path n v) as [l|] eqn:E.
    + rewrite (CDS_InitFromFS_Some _ _ _ _ _ E). cbv zeta.
      pose proof (CDS_InitFromBuffer_Err (Some l) p) as HB.
      destruct (CDSPackage.InitFromBuffer (Some l) p) as [q [cd|e'|x]]; cbn [fst snd];
        [done| |done].
      intros [= <-]. specialize (HB e' eq_refl). set_unfold. tauto.
    + rewrite (CDS_InitFromFS_None _ _ _ _ E). intros [= <-]. set_solver.
  - intros fs n v p e. destruct (fs !! FS.install_path n v) as [l|] eqn:E.
    + rewrite (SCDS_InitFromFS_Some _ _ _ _ _ E). cbv zeta.
      pose proof (SCDS_InitFromBuffer_Err (Some l)
                    (SignedCDSPackage.mk None None None None (SignedCDSPackage.data p)))
        as HB.
      destruct (SignedCDSPackage.InitFromBuffer (Some l) _) as [q [cd|e'|x]];
        cbn [fst snd]; [done| |done].
      intros [= <-]. specialize (HB e' eq_refl). set_unfold. tauto.
    + rewrite (SCDS_InitFromFS_NotFound _ _ _ _ E). intros [= <-]. set_solver.
  - intros p ccdata e. unfold CDSPackage.ValidateCC. go_unfold.
    destruct (CDSPackage.depSpec p) as [ds|]; [|intros [= <-]; set_solver].
    destruct (CDSPackage.data p) as [d|]; [|intros [= <-]; set_solver].
    cbn [not_nil negb deref]. destruct ccdata as [cd|]; [|done]. cbn [deref].
    destruct (chaincode_id ds) as [id|e'|x] eqn:Ei;
      [|by apply chaincode_id_not_Err in Ei|done].
    destruct (_ || _); [intros [= <-]; set_solver|].
    destruct (Unmarshal_CDSData _) as [o|]; [|intros [= <-]; set_solver].
    rewrite CDSData_Equals_same. case_bool_decide; [done|].
    intros [= <-]. set_solver.
  - intros p ccdata e. unfold SignedCDSPackage.ValidateCC. go_unfold.
    destruct (SignedCDSPackage.sDepSpec p) as [sds|]; [|intros [= <-]; set_solver].
    cbn [not_nil negb deref].
    destruct (ChaincodeDeploymentSpec_ sds); [|intros [= <-]; set_solver].
    destruct (SignedCDSPackage.depSpec p) as [ds|]; [|intros [= <-]; set_solver].
    cbn [not_nil negb deref]. destruct ccdata as [cd|]; [|done]. cbn [deref].
    destruct (chaincode_id ds) as [id|e'|x] eqn:Ei;
      [|by apply chaincode_id_not_Err in Ei|done].
    destruct (_ || _); [intros [= <-]; set_solver|].
    destruct (Unmarshal_SignedCDSData _) as [o|]; [|intros [= <-]; set_solver].
    destruct (SignedCDSPackage.data p) as [d|]; [|done].
    rewrite SignedCDSData_Equals_same. case_bool_decide; [done|].
    intros [= <-]. set_solver.
  - intros p o fs e. unfold CDSPackage.PutChaincodeToFS. go_unfold.
    destruct (CDSPackage.buf p); [|intros [= <-]; eauto].
    destruct (CDSPackage.depSpec p) as [ds|]; [|intros [= <-]; eauto].
    destruct (CDSPackage.data p); [|intros [= <-]; eauto].
    cbn [not_nil deref].
    destruct (chaincode_id ds) as [id|e'|x] eqn:Ei;
      [|by apply chaincode_id_not_Err in Ei|done].
    cbv zeta. destruct (FS.Stat_ok _ _); [intros [= <-]; eauto|].
    destruct o; cbn; go_unfold; cbn; [done|intros [= <-]; eauto..].
  - intros p o fs e. unfold SignedCDSPackage.PutChaincodeToFS. go_unfold.
    destruct (SignedCDSPackage.buf p); [|intros [= <-]; eauto].
    destruct (SignedCDSPackage.sDepSpec p); [|intros [= <-]; eauto].
    destruct (SignedCDSPackage.depSpec p) as [ds|]; [|intros [= <-]; eauto].
    destruct (SignedCDSPackage.env p); [|intros [= <-]; eauto].
    destruct (SignedCDSPackage.data p); [|intros [= <-]; eauto].
    cbn [not_nil deref andb].
    destruct (chaincode_id ds) as [id|e'|x] eqn:Ei;
      [|by apply chaincode_id_not_Err in Ei|done].
    cbv zeta. destruct (FS.Stat_ok _ _); [intros [= <-]; eauto|].
    destruct o; cbn; go_unfold; cbn; [done|intros [= <-]; eauto..].
Qed.
